(** * Repository tag scanner: scan engine, aggregation and merge

    A shallow embedding of [app.py] (the scan endpoints) and of
    [data_transformer.py] (the [VersionTagTransformer] class), with the
    properties of the tag discovery and aggregation engine proved about it.

    Python [str] values are modelled by [string] (sequences of characters,
    compared character by character), Python [dict]s that are iterated by
    association lists in insertion order, and the objects that
    [merge_scan_results] shares and mutates by a store of references. *)

From Stdlib Require Import String Ascii List ZArith Lia Bool.
From stdpp Require Import base option list gmap strings pretty.

Open Scope string_scope.
Open Scope list_scope.

(** ** Python string operations used by the sources *)

Module PyStr.

Definition newline : ascii := "010"%char.

(** [s.startswith(p)] *)
Definition startswith (s p : string) : bool := String.prefix p s.

(** [sub in s] *)
Definition contains (sub s : string) : bool :=
  match String.index 0 sub s with Some _ => true | None => false end.

(** [s.find(c)] for a one-character needle: the first index, or -1. *)
Fixpoint find_from (c : ascii) (s : string) (i : Z) : Z :=
  match s with
  | EmptyString => (-1)%Z
  | String d s' => if Ascii.eqb d c then i else find_from c s' (i + 1)%Z
  end.

Definition find (s : string) (c : ascii) : Z := find_from c s 0%Z.

(** [s[start:end]] for [0 <= start], [0 <= end]. *)
Definition slice (s : string) (start stop : Z) : string :=
  String.substring (Z.to_nat start) (Z.to_nat (stop - start)) s.

(** [s.split('\n')[0]] *)
Fixpoint first_line (s : string) : string :=
  match s with
  | EmptyString => EmptyString
  | String c s' => if Ascii.eqb c newline then EmptyString else String c (first_line s')
  end.

(** Truthiness of a string: [if s]. *)
Definition truthy (s : string) : bool :=
  match s with EmptyString => false | _ => true end.

(** Truthiness of an optional string: [None] and [""] are falsy. *)
Definition truthy_opt (o : option string) : bool :=
  match o with Some s => truthy s | None => false end.

(** [max(l)] over strings: the first greatest element. *)
Fixpoint max_from (best : string) (l : list string) : string :=
  match l with
  | [] => best
  | s :: l' => max_from (if String.ltb best s then s else best) l'
  end.

(** [max(l) if l else ""] *)
Definition max_or_empty (l : list string) : string :=
  match l with
  | [] => ""
  | s :: l' => max_from s l'
  end.

(** [x in l] for a list of strings. *)
Definition mem (x : string) (l : list string) : bool :=
  existsb (String.eqb x) l.

(** [len(set(l))] is the length of [distinct l]; the elements of
    [set(l)] are those of [distinct l]. *)
Fixpoint distinct (l : list string) : list string :=
  match l with
  | [] => []
  | x :: l' => if mem x l' then distinct l' else x :: distinct l'
  end.

End PyStr.

(** ** The fragment of Python's [re] module the pattern scan relies on *)

Module Re.

(** The characters [re.escape] prefixes with a backslash:
    [()[]{}?*+-|^$\.&~# \t\n\r\v\f]. *)
Definition special_chars : list nat :=
  [40; 41; 91; 93; 123; 125; 63; 42; 43; 45; 124; 94; 36; 92; 46; 38; 126;
   35; 32; 9; 10; 13; 11; 12].

Definition is_special (c : ascii) : bool :=
  existsb (Nat.eqb (nat_of_ascii c)) special_chars.

Definition backslash : ascii := "\"%char.

(** [re.escape(pattern)] *)
Fixpoint escape (pattern : string) : string :=
  match pattern with
  | EmptyString => EmptyString
  | String c rest =>
      if is_special c then String backslash (String c (escape rest))
      else String c (escape rest)
  end.

(** Parsed pattern items.  Only the constructs that the scan's four
    patterns are built from are supported. *)
Inductive item : Type :=
| AtBeginning            (* ^ *)
| AtEnd                  (* $ *)
| AnyChar                (* . *)
| Literal (c : ascii).

Definition is_alnum (c : ascii) : bool :=
  let n := nat_of_ascii c in
  ((48 <=? n)%nat && (n <=? 57)%nat) || ((65 <=? n)%nat && (n <=? 90)%nat)
  || ((97 <=? n)%nat && (n <=? 122)%nat).

(** Pattern characters with a meaning of their own, outside the
    supported ones. *)
Definition is_unsupported_meta (c : ascii) : bool :=
  existsb (Nat.eqb (nat_of_ascii c)) [42; 43; 63; 123; 125; 91; 93; 40; 41; 124].

(** Parsing; [None] stands for a pattern outside the supported fragment
    (a repetition, a class, a group, an alternation, a letter or digit
    escape, a trailing backslash). *)
Fixpoint parse (p : string) : option (list item) :=
  match p with
  | EmptyString => Some []
  | String c rest =>
      if Ascii.eqb c backslash then
        match rest with
        | EmptyString => None
        | String d rest' =>
            if is_alnum d then None
            else option_map (cons (Literal d)) (parse rest')
        end
      else if Ascii.eqb c "^" then option_map (cons AtBeginning) (parse rest)
      else if Ascii.eqb c "$" then option_map (cons AtEnd) (parse rest)
      else if Ascii.eqb c "." then option_map (cons AnyChar) (parse rest)
      else if is_unsupported_meta c then None
      else option_map (cons (Literal c)) (parse rest)
  end.

(** Matching the items at the current position.  [at_start] tells whether
    the position is the start of the subject.  Without the MULTILINE flag
    [^] matches at the start only, and [$] matches at the end and just
    before a newline that ends the subject; [.] matches any character but
    a newline. *)
Fixpoint match_here (its : list item) (at_start : bool) (s : string) : bool :=
  match its with
  | [] => true
  | AtBeginning :: its' => at_start && match_here its' at_start s
  | AtEnd :: its' =>
      match s with
      | EmptyString => match_here its' at_start s
      | String c EmptyString =>
          Ascii.eqb c PyStr.newline && match_here its' at_start s
      | _ => false
      end
  | AnyChar :: its' =>
      match s with
      | EmptyString => false
      | String c s' =>
          negb (Ascii.eqb c PyStr.newline) && match_here its' false s'
      end
  | Literal c :: its' =>
      match s with
      | EmptyString => false
      | String d s' => Ascii.eqb c d && match_here its' false s'
      end
  end.

(** The items a literal string parses to once escaped. *)
Fixpoint literals (q : string) : list item :=
  match q with
  | EmptyString => []
  | String c q' => Literal c :: literals q'
  end.

(** [re.match(pattern, s)] as a truth value ([None]: outside the
    fragment). *)
Definition re_match (pattern s : string) : option bool :=
  match parse pattern with
  | Some its => Some (match_here its true s)
  | None => None
  end.

End Re.

(** ** Exceptions and fallible computations *)

(** The exceptions the modelled code can raise: [HTTPException] (raised by
    [run_gh_command] and by the endpoints), [re.error] (a pattern that does
    not compile), [TypeError], [AssertionError] and [AttributeError]. *)
Inductive exception : Type :=
| HTTPException (status_code : Z) (detail : string)
| ReError
| TypeError (msg : string)
| AssertionError (msg : string)
| AttributeError (msg : string).

Inductive result (A : Type) : Type :=
| Ok (a : A)
| Raise (e : exception).

Arguments Ok {A} a.
Arguments Raise {A} e.

(** Sequencing: an exception raised by the first computation propagates.
    [x ← m; k] is stdpp's notation for [m ≫= λ x, k]. *)
#[global] Instance result_bind : MBind result :=
  fun A B (k : A -> result B) (m : result A) =>
    match m with
    | Ok a => k a
    | Raise e => Raise e
    end.

(** [try: body except HTTPException as e: handler(e)] *)
Definition except_http {A : Type} (body : result A)
    (handler : Z -> string -> result A) : result A :=
  match body with
  | Raise (HTTPException c d) => handler c d
  | other => other
  end.

(** [try: body except Exception as e: handler(e)] *)
Definition except_any {A : Type} (body : result A)
    (handler : exception -> result A) : result A :=
  match body with
  | Raise e => handler e
  | other => other
  end.

(** ** [app.py]: the scan endpoints *)

Module App.

(** *** Data *)

Record TagInfo : Type := {
  tag_name : string;
  commit_id : string;
  author : option string;
  date : option string;
  message : option string;
  repository_name : string;
  repository_url : string;
  tag_url : string;
  repository_path : option string
}.

(** [scan_duration_seconds] is the difference of two clock readings, kept
    here as its exact number of microseconds. *)
Record ScanResult : Type := {
  total_repositories_scanned : nat;
  repositories_with_tag : nat;
  tags_found : list TagInfo;
  scan_timestamp : string;
  scan_duration_seconds : Z
}.

(** *** The GitHub CLI as seen by [run_gh_command] *)

(** What [json.loads(result.stdout)] finds on the standard output. *)
Inductive gh_stdout (A : Type) : Type :=
| Blank                       (* [result.stdout.strip()] is empty *)
| Parsed (v : A)
| Malformed (err : string).   (* JSONDecodeError, with [str(e)] *)

(** The outcome of [subprocess.run(["gh"] + command, ...)]. *)
Inductive gh_process (A : Type) : Type :=
| Completed (returncode : Z) (stdout : gh_stdout A) (stderr : string)
| TimeoutExpired
| FileNotFound.

Arguments Blank {A}.
Arguments Parsed {A} v.
Arguments Malformed {A} err.
Arguments Completed {A} returncode stdout stderr.
Arguments TimeoutExpired {A}.
Arguments FileNotFound {A}.

(** A JSON answer that the code tests with [isinstance(_, list)]. *)
Inductive json_list (A : Type) : Type :=
| JsonList (l : list A)
| JsonOther.

Arguments JsonList {A} l.
Arguments JsonOther {A}.

(** One entry of [gh repo list --json name,url]; an absent key reads
    as [''] through [repo.get(key, '')]. *)
Record Repo : Type := { name : string; url : string }.

(** The commit object of [repos/{org}/{repo}/commits/{sha}], reduced to
    the fields read: [commit.author.name], [commit.author.date] and
    [commit.message] (['] when absent). *)
Record CommitJson : Type := {
  cj_author : option string;
  cj_date : option string;
  cj_message : string
}.

(** The environment an endpoint runs in: the answers of the GitHub CLI
    to the four kinds of command issued, the clock, and how the web
    framework prints an exception ([str(e)]). *)
Record Env : Type := {
  gh_auth_status : bool;
  gh_repo_list : string -> gh_process (json_list Repo);
  gh_tags : string -> string -> gh_process (json_list string);
  gh_tag_ref : string -> string -> string -> gh_process (option string);
  gh_commit : string -> string -> string -> gh_process CommitJson;
  clock_start : string;
  clock_elapsed : Z;
  exception_str : exception -> string
}.

(** *** Utility functions *)

Definition check_github_cli (env : Env) : bool := gh_auth_status env.

(** [run_gh_command]: the parsed output, [None] standing for the [{}]
    returned on a blank output. *)
Definition run_gh_command {A : Type} (p : gh_process A) : result (option A) :=
  match p with
  | Completed returncode stdout stderr =>
      if negb (returncode =? 0)%Z then
        Raise (HTTPException 500 ("GitHub CLI error: " +:+ stderr))
      else
        match stdout with
        | Blank => Ok None
        | Parsed v => Ok (Some v)
        | Malformed err =>
            Raise (HTTPException 500
                     ("Failed to parse GitHub CLI response: " +:+ err))
        end
  | TimeoutExpired =>
      Raise (HTTPException 500 "GitHub CLI command timed out")
  | FileNotFound =>
      Raise (HTTPException 500 "GitHub CLI not found. Please install 'gh' CLI")
  end.

Definition get_repositories (env : Env) (org_name : string)
    : result (list Repo) :=
  repos_data ← run_gh_command (gh_repo_list env org_name);
  match repos_data with
  | Some (JsonList l) => Ok l
  | _ => Ok []
  end.

Definition get_repository_tags (env : Env) (org_name repo_name : string)
    : result (list string) :=
  except_http
    (tags_data ← run_gh_command (gh_tags env org_name repo_name);
     match tags_data with
     | Some (JsonList l) => Ok (List.filter PyStr.truthy l)
     | _ => Ok []
     end)
    (fun c d =>
       if PyStr.contains "404" d then Ok [] else Raise (HTTPException c d)).

(** The dictionary built by [get_tag_commit_info]. *)
Record CommitInfo : Type := {
  commit_sha : string;
  ci_author : option string;
  ci_date : option string;
  ci_message : string
}.

(** [get_tag_commit_info], on replies that are the documents the API
    describes: an object holding the reference of the tag, and a commit
    object.  [AppJson.get_tag_commit_info] is the function on replies of
    any shape. *)
Definition get_tag_commit_info (env : Env) (org_name repo_name tag : string)
    : result (option CommitInfo) :=
  except_http
    (tag_ref ← run_gh_command (gh_tag_ref env org_name repo_name tag);
     let sha := match tag_ref with Some (Some s) => Some s | _ => None end in
     match sha with
     | None => Ok None
     | Some sha =>
         if negb (PyStr.truthy sha) then Ok None
         else
           commit_info ← run_gh_command (gh_commit env org_name repo_name sha);
           let cj := match commit_info with
                     | Some cj => cj
                     | None => {| cj_author := None; cj_date := None;
                                  cj_message := "" |}
                     end in
           Ok (Some {| commit_sha := sha;
                       ci_author := cj_author cj;
                       ci_date := cj_date cj;
                       ci_message := PyStr.first_line (cj_message cj) |})
     end)
    (fun _ _ => Ok None).

(** The [TagInfo] built in both organization scans for a tag that was
    found. *)
Definition make_tag_info (tag : string) (commit_info : option CommitInfo)
    (repo_name repo_url : string) : TagInfo :=
  {| tag_name := tag;
     commit_id := match commit_info with Some ci => commit_sha ci | None => "" end;
     author := match commit_info with Some ci => ci_author ci | None => None end;
     date := match commit_info with Some ci => ci_date ci | None => None end;
     message := match commit_info with Some ci => Some (ci_message ci) | None => None end;
     repository_name := repo_name;
     repository_url := repo_url;
     tag_url := repo_url +:+ "/releases/tag/" +:+ tag;
     repository_path := None |}.

(** *** Exact-tag scan: [scan_organization_for_tag] *)

(** The candidate tag names, in the order they are tried. *)
Definition tag_patterns (tag_version : string) (include_patterns : bool)
    : list string :=
  [tag_version] ++
  (if include_patterns && negb (PyStr.startswith tag_version "v")
   then ["v" +:+ tag_version] else []).

(** The inner loop [for pattern in tag_patterns: if pattern in tags: ...
    break]: the matches that one repository appends to [found_tags]. *)
Fixpoint check_patterns (env : Env) (org_name repo_name repo_url : string)
    (tags patterns : list string) : result (list TagInfo) :=
  match patterns with
  | [] => Ok []
  | pattern :: rest =>
      if PyStr.mem pattern tags then
        commit_info ← get_tag_commit_info env org_name repo_name pattern;
        Ok [make_tag_info pattern commit_info repo_name repo_url]
      else check_patterns env org_name repo_name repo_url tags rest
  end.

(** The loop [for repo in repositories], threading [found_tags]. *)
Fixpoint scan_tag_loop (env : Env) (org_name : string) (patterns : list string)
    (repositories : list Repo) (found_tags : list TagInfo)
    : result (list TagInfo) :=
  match repositories with
  | [] => Ok found_tags
  | repo :: rest =>
      if negb (PyStr.truthy (name repo)) then
        scan_tag_loop env org_name patterns rest found_tags
      else
        tags ← get_repository_tags env org_name (name repo);
        hit ← check_patterns env org_name (name repo) (url repo) tags patterns;
        scan_tag_loop env org_name patterns rest (found_tags ++ hit)
  end.

Definition scan_organization_for_tag (env : Env) (org_name tag_version : string)
    (include_patterns : bool) : result ScanResult :=
  if negb (check_github_cli env) then
    Raise (HTTPException 500 "GitHub CLI not available or not authenticated")
  else
    except_any
      (repositories ← get_repositories env org_name;
       let total_repos := length repositories in
       found_tags ← scan_tag_loop env org_name
                      (tag_patterns tag_version include_patterns)
                      repositories [];
       Ok {| total_repositories_scanned := total_repos;
             repositories_with_tag := length found_tags;
             tags_found := found_tags;
             scan_timestamp := clock_start env;
             scan_duration_seconds := clock_elapsed env |})
      (fun e =>
         Raise (HTTPException 500 ("Scan failed: " +:+ exception_str env e))).

(** *** Pattern scan: [scan_organization_for_patterns] *)

Definition regex_patterns (version_pattern : string) : list string :=
  let escaped_pattern := Re.escape version_pattern in
  [ "^" +:+ escaped_pattern +:+ "\.";
    "^v" +:+ escaped_pattern +:+ "\.";
    "^" +:+ escaped_pattern +:+ "$";
    "^v" +:+ escaped_pattern +:+ "$" ].

(** [any(re.match(pattern, tag) for pattern in regex_patterns)]: the
    patterns are tried in order until one matches; a pattern that does
    not compile raises [re.error]. *)
Fixpoint any_match (patterns : list string) (tag : string) : result bool :=
  match patterns with
  | [] => Ok false
  | pattern :: rest =>
      match Re.re_match pattern tag with
      | None => Raise ReError
      | Some true => Ok true
      | Some false => any_match rest tag
      end
  end.

(** The loop [for tag in tags[:10]] (given the tags already cut to the
    window), threading [found_tags]. *)
Fixpoint scan_window (env : Env) (org_name repo_name repo_url : string)
    (patterns : list string) (max_results : Z) (tags : list string)
    (found_tags : list TagInfo) : result (list TagInfo) :=
  match tags with
  | [] => Ok found_tags
  | tag :: rest =>
      if (max_results <=? Z.of_nat (length found_tags))%Z then Ok found_tags
      else
        matched ← any_match patterns tag;
        if (matched : bool) then
          commit_info ← get_tag_commit_info env org_name repo_name tag;
          scan_window env org_name repo_name repo_url patterns max_results rest
            (found_tags ++ [make_tag_info tag commit_info repo_name repo_url])
        else
          scan_window env org_name repo_name repo_url patterns max_results rest
            found_tags
  end.

Fixpoint scan_patterns_loop (env : Env) (org_name : string)
    (patterns : list string) (max_results : Z) (repositories : list Repo)
    (found_tags : list TagInfo) : result (list TagInfo) :=
  match repositories with
  | [] => Ok found_tags
  | repo :: rest =>
      if negb (PyStr.truthy (name repo))
         || (max_results <=? Z.of_nat (length found_tags))%Z
      then scan_patterns_loop env org_name patterns max_results rest found_tags
      else
        tags ← get_repository_tags env org_name (name repo);
        found_tags' ← scan_window env org_name (name repo) (url repo)
                        patterns max_results (firstn 10 tags) found_tags;
        scan_patterns_loop env org_name patterns max_results rest found_tags'
  end.

Definition scan_organization_for_patterns (env : Env)
    (org_name version_pattern : string) (max_results : Z) : result ScanResult :=
  if negb (check_github_cli env) then
    Raise (HTTPException 500 "GitHub CLI not available or not authenticated")
  else
    except_any
      (repositories ← get_repositories env org_name;
       let total_repos := length repositories in
       found_tags ← scan_patterns_loop env org_name
                      (regex_patterns version_pattern) max_results
                      repositories [];
       Ok {| total_repositories_scanned := total_repos;
             repositories_with_tag :=
               length (PyStr.distinct (map repository_name found_tags));
             tags_found := found_tags;
             scan_timestamp := clock_start env;
             scan_duration_seconds := clock_elapsed env |})
      (fun e =>
         Raise (HTTPException 500
                  ("Pattern scan failed: " +:+ exception_str env e))).

End App.

(** ** Python dictionaries with string keys

    A [dict] is modelled by its items in insertion order; the keys of a
    well-formed dictionary are pairwise distinct. *)

Section Dict.
Context {V : Type}.

Definition dict : Type := list (string * V).

Definition keys (d : dict) : list string := map fst d.

(** [d.get(k)] *)
Fixpoint dict_get (k : string) (d : dict) : option V :=
  match d with
  | [] => None
  | (k', v) :: rest => if String.eqb k' k then Some v else dict_get k rest
  end.

(** [d[k] = v]: the value of a present key is replaced where the key
    stands, a new key goes last. *)
Fixpoint dict_set (k : string) (v : V) (d : dict) : dict :=
  match d with
  | [] => [(k, v)]
  | (k', v') :: rest =>
      if String.eqb k' k then (k', v) :: rest
      else (k', v') :: dict_set k v rest
  end.

(** [d.update(other)] *)
Definition dict_update (d other : dict) : dict :=
  fold_left (fun acc kv => dict_set (fst kv) (snd kv) acc) other d.

End Dict.

Arguments dict V : clear implicits.

(** ** [data_transformer.py]: the [VersionTagTransformer] class *)

Module Transformer.

(** *** The storage format *)

Record Metadata : Type := {
  last_updated : string;
  scan_duration_seconds : Z;
  organization : string;
  total_repositories_scanned : nat;
  scan_type : string;
  version : string
}.

Record RepositoryRecord : Type := {
  repository_name : string;
  commit_id : string;
  commit_short : string;
  author : option string;
  author_email : option string;
  date : option string;
  message : option string;
  repository_url : string;
  tag_url : string;
  deployment_status : string;
  environment : string;
  repository_path : option string
}.

(** [deployment_environments] is built by [list(set(...))], a list whose
    order Python leaves unspecified; the field is modelled by the set. *)
Record Summary : Type := {
  total_repositories : nat;
  latest_commit_date : string;
  deployment_environments : gset string
}.

Record TagGroup : Type := {
  tag_name : string;
  repositories : list RepositoryRecord;
  summary : Summary
}.

Record Statistics : Type := {
  total_unique_tags : nat;
  total_repositories_with_tags : nat;
  most_common_tag : string;
  latest_tag_date : string
}.

Record Dataset : Type := {
  metadata : Metadata;
  tags : dict TagGroup;
  statistics : Statistics
}.

(** *** [transform_api_response] *)

(** [_extract_email_from_author]; [author] is [None] when the scan found
    no commit metadata, and ["<" in None] raises [TypeError]. *)
Definition _extract_email_from_author (author : option string)
    : result (option string) :=
  match author with
  | None => Raise (TypeError "argument of type 'NoneType' is not iterable")
  | Some author =>
      if PyStr.contains "<" author && PyStr.contains ">" author then
        let start := (PyStr.find author "<" + 1)%Z in
        let stop := PyStr.find author ">" in
        Ok (if (start <? stop)%Z then Some (PyStr.slice author start stop)
            else None)
      else Ok None
  end.

(** The record built for one entry of a tag group. *)
Definition transform_repo (repo : App.TagInfo) : result RepositoryRecord :=
  let commit_id := App.commit_id repo in
  email ← _extract_email_from_author (App.author repo);
  Ok {| repository_name := App.repository_name repo;
        commit_id := commit_id;
        commit_short := if PyStr.truthy commit_id
                        then PyStr.slice commit_id 0 7 else "";
        author := App.author repo;
        author_email := email;
        date := App.date repo;
        message := App.message repo;
        repository_url := App.repository_url repo;
        tag_url := App.tag_url repo;
        deployment_status := "unknown";
        environment := "unknown";
        repository_path := App.repository_path repo |}.

Fixpoint transform_repos (repositories : list App.TagInfo)
    : result (list RepositoryRecord) :=
  match repositories with
  | [] => Ok []
  | repo :: rest =>
      transformed_repo ← transform_repo repo;
      transformed_rest ← transform_repos rest;
      Ok (transformed_repo :: transformed_rest)
  end.

(** [tag_groups[tag_name].append(tag_info)] on a [defaultdict(list)]. *)
Definition group_append (tag_groups : dict (list App.TagInfo))
    (tag_info : App.TagInfo) : dict (list App.TagInfo) :=
  let tag_name := App.tag_name tag_info in
  dict_set tag_name
    (match dict_get tag_name tag_groups with
     | Some l => l ++ [tag_info]
     | None => [tag_info]
     end)
    tag_groups.

Definition group_by_tag (tags_found : list App.TagInfo)
    : dict (list App.TagInfo) :=
  fold_left group_append tags_found [].

(** [[repo.get("date", "") for repo in repos if repo.get("date")]] *)
Definition present_dates (repos : list RepositoryRecord) : list string :=
  omap (fun repo => match date repo with
                    | Some d => if PyStr.truthy d then Some d else None
                    | None => None
                    end) repos.

(** The entry stored under [tag_name]: the group and its summary. *)
Definition make_tag_group (tag_name : string)
    (transformed_repos : list RepositoryRecord) : TagGroup :=
  {| tag_name := tag_name;
     repositories := transformed_repos;
     summary :=
       {| total_repositories := length transformed_repos;
          latest_commit_date := PyStr.max_or_empty (present_dates transformed_repos);
          deployment_environments :=
            list_to_set
              (List.filter (fun e => negb (String.eqb e "unknown"))
                 (map environment transformed_repos)) |} |}.

(** The loop [for tag_name, repositories in tag_groups.items()]. *)
Fixpoint transform_groups (tag_groups : dict (list App.TagInfo))
    (tags_dict : dict TagGroup) : result (dict TagGroup) :=
  match tag_groups with
  | [] => Ok tags_dict
  | (tag_name, repositories) :: rest =>
      transformed_repos ← transform_repos repositories;
      transform_groups rest
        (dict_set tag_name (make_tag_group tag_name transformed_repos) tags_dict)
  end.

(** [max(tag_counts, key=tag_counts.get)]: the first key whose count is
    greatest. *)
Fixpoint max_key_from (tag_counts : dict nat) (best : string)
    (rest : list string) : string :=
  match rest with
  | [] => best
  | k :: rest' =>
      let count k := default 0 (dict_get k tag_counts) in
      max_key_from tag_counts (if (count best <? count k)%nat then k else best) rest'
  end.

Definition max_key (tag_counts : dict nat) : string :=
  match keys tag_counts with
  | [] => ""
  | k :: rest => max_key_from tag_counts k rest
  end.

(** The statistics block, computed from the tags map: lines 92-112 of
    [transform_api_response], repeated at lines 187-207 of
    [merge_scan_results]. *)
Definition calculate_statistics (tags_dict : dict TagGroup) : Statistics :=
  let all_repos := flat_map (fun kv => repositories (snd kv)) tags_dict in
  let unique_repos := PyStr.distinct (map repository_name all_repos) in
  let tag_counts :=
    map (fun kv => (fst kv, total_repositories (summary (snd kv)))) tags_dict in
  let all_dates :=
    List.filter PyStr.truthy
      (map (fun kv => latest_commit_date (summary (snd kv))) tags_dict) in
  {| total_unique_tags := length tags_dict;
     total_repositories_with_tags := length unique_repos;
     most_common_tag := max_key tag_counts;
     latest_tag_date := PyStr.max_or_empty all_dates |}.

(** [transform_api_response]; [now] is [datetime.now().isoformat()] and
    [organization] is [None] when the argument is left out. *)
Definition transform_api_response (schema_version now : string)
    (api_response : App.ScanResult) (organization : option string)
    (scan_type : string) : result Dataset :=
  let metadata :=
    {| last_updated := now +:+ "Z";
       scan_duration_seconds := App.scan_duration_seconds api_response;
       organization := if PyStr.truthy_opt organization
                       then default "" organization else "unknown";
       total_repositories_scanned := App.total_repositories_scanned api_response;
       scan_type := scan_type;
       version := schema_version |} in
  let tag_groups := group_by_tag (App.tags_found api_response) in
  tags_dict ← transform_groups tag_groups [];
  Ok {| metadata := metadata;
        tags := tags_dict;
        statistics := calculate_statistics tags_dict |}.

(** *** [enhance_with_deployment_info] *)

(** The deployment configuration: repository name to
    [{"deployed_versions": {tag name: {"status", "environment"}}}]; an
    absent key is [None]. *)
Module DeploymentConfig.
Record VersionInfo : Type := {
  status : option string;
  environment : option string
}.
Record RepoConfig : Type := {
  deployed_versions : option (dict VersionInfo)
}.
End DeploymentConfig.

(** The two assignments [repo["deployment_status"] = ...] and
    [repo["environment"] = ...]. *)
Definition set_deployment (repo : RepositoryRecord)
    (new_status new_environment : string) : RepositoryRecord :=
  {| repository_name := repository_name repo;
     commit_id := commit_id repo;
     commit_short := commit_short repo;
     author := author repo;
     author_email := author_email repo;
     date := date repo;
     message := message repo;
     repository_url := repository_url repo;
     tag_url := tag_url repo;
     deployment_status := new_status;
     environment := new_environment;
     repository_path := repository_path repo |}.

(** The body of the first loop for one record of the group [tag_name]. *)
Definition enhance_repo (deployment_config : dict DeploymentConfig.RepoConfig)
    (tag_name : string) (repo : RepositoryRecord) : RepositoryRecord :=
  match dict_get (repository_name repo) deployment_config with
  | Some repo_config =>
      match dict_get tag_name
              (default [] (DeploymentConfig.deployed_versions repo_config)) with
      | Some version_info =>
          set_deployment repo
            (default "unknown" (DeploymentConfig.status version_info))
            (default "unknown" (DeploymentConfig.environment version_info))
      | None => set_deployment repo "not_deployed" "none"
      end
  | None => repo
  end.

(** The first loop on one entry of [data["tags"]]: its records are
    updated in place. *)
Definition enhance_group (deployment_config : dict DeploymentConfig.RepoConfig)
    (tag_name : string) (tag_data : TagGroup) : TagGroup :=
  {| tag_name := Transformer.tag_name tag_data;
     repositories :=
       map (enhance_repo deployment_config tag_name) (repositories tag_data);
     summary := summary tag_data |}.

(** The second loop on one entry: the summary's environments are
    recomputed. *)
Definition recalculate_environments (tag_data : TagGroup) : TagGroup :=
  {| tag_name := Transformer.tag_name tag_data;
     repositories := repositories tag_data;
     summary :=
       {| total_repositories := total_repositories (summary tag_data);
          latest_commit_date := latest_commit_date (summary tag_data);
          deployment_environments :=
            list_to_set
              (List.filter
                 (fun e => negb (PyStr.mem e ["unknown"; "none"]))
                 (map environment (repositories tag_data))) |} |}.

(** [enhance_with_deployment_info]: the value of [data] on return (the
    object passed in, updated). *)
Definition enhance_with_deployment_info (data : Dataset)
    (deployment_config : dict DeploymentConfig.RepoConfig) : Dataset :=
  let tags1 :=
    map (fun kv => (fst kv, enhance_group deployment_config (fst kv) (snd kv)))
        (tags data) in
  let tags2 :=
    map (fun kv => (fst kv, recalculate_environments (snd kv))) tags1 in
  {| metadata := metadata data;
     tags := tags2;
     statistics := statistics data |}.

(** *** [merge_scan_results], on a store of shared objects

    A dataset is a dictionary whose three values are references to a
    metadata object, a tags dictionary and a statistics object.
    [existing_data.copy()] copies the references, not the objects.  The
    tag groups held by a tags dictionary are kept by value: the merge
    assigns to no field of a group. *)

Definition loc : Type := nat.

Inductive object : Type :=
| DatasetObj (metadata_ref tags_ref statistics_ref : loc)
| MetadataObj (m : Metadata)
| TagsObj (t : dict TagGroup)
| StatisticsObj (s : Statistics).

Definition alloc (h : gmap loc object) (o : object) : gmap loc object * loc :=
  let l := fresh (dom h) in (<[l := o]> h, l).

(** [merge_scan_results(existing_data, new_data)]: the store on return
    and the reference returned; [None] when a reference does not lead to
    an object of the expected shape. *)
Definition merge_scan_results (h : gmap loc object)
    (existing_data new_data : loc) : option (gmap loc object * loc) :=
  match h !! existing_data, h !! new_data with
  | Some (DatasetObj e_metadata e_tags e_statistics),
    Some (DatasetObj n_metadata n_tags n_statistics) =>
      (* merged_data = existing_data.copy() *)
      let '(h1, merged_data) :=
        alloc h (DatasetObj e_metadata e_tags e_statistics) in
      (* merged_data["metadata"] = new_data["metadata"] *)
      let h2 := <[merged_data := DatasetObj n_metadata e_tags e_statistics]> h1 in
      (* merged_data["tags"].update(new_data["tags"]) *)
      match h2 !! e_tags, h2 !! n_tags with
      | Some (TagsObj merged_tags), Some (TagsObj new_tags) =>
          let merged_tags' := dict_update merged_tags new_tags in
          let h3 := <[e_tags := TagsObj merged_tags']> h2 in
          (* merged_data["statistics"] = {...} *)
          let '(h4, statistics_ref) :=
            alloc h3 (StatisticsObj (calculate_statistics merged_tags')) in
          let h5 :=
            <[merged_data := DatasetObj n_metadata e_tags statistics_ref]> h4 in
          Some (h5, merged_data)
      | _, _ => None
      end
  | _, _ => None
  end.

(** The dataset a reference denotes in a store. *)
Definition read_dataset (h : gmap loc object) (l : loc) : option Dataset :=
  match h !! l with
  | Some (DatasetObj m t s) =>
      match h !! m, h !! t, h !! s with
      | Some (MetadataObj md), Some (TagsObj tg), Some (StatisticsObj st) =>
          Some {| metadata := md; tags := tg; statistics := st |}
      | _, _, _ => None
      end
  | _ => None
  end.

(** Storing a dataset as four fresh objects. *)
Definition store_dataset (h : gmap loc object) (d : Dataset)
    : gmap loc object * loc :=
  let '(h1, m) := alloc h (MetadataObj (metadata d)) in
  let '(h2, t) := alloc h1 (TagsObj (tags d)) in
  let '(h3, s) := alloc h2 (StatisticsObj (statistics d)) in
  alloc h3 (DatasetObj m t s).

End Transformer.

(** ** [app.py]: the scan of local repositories *)

Module Local.

(** A commit as the git library presents it: [hexsha], the name of
    [commit.author] ([None] when the commit has no author),
    [committed_date] and [message]. *)
Record Commit : Type := {
  hexsha : string;
  author_name : option string;
  committed_date : Z;
  message : string
}.

(** The outcome of [Repo(repo_path)]: a repository, given by what
    [repo.tag(name).commit] yields ([None]: the tag does not resolve and
    the access raises), or one of the two failures the function tells
    apart. *)
Inductive repo_open : Type :=
| Opened (tag_commit : string -> option Commit)
| InvalidGitRepository
| OtherGitError.

(** One item yielded by [base_path.rglob(".git")]: [str(item.parent)] and
    [item.is_dir()]. *)
Record entry : Type := { parent : string; is_dir : bool }.

(** How the walk ends after the items it yielded. *)
Inductive walk_end : Type :=
| WalkDone
| WalkPermissionError
| WalkError (e : exception).

(** The environment of the local scan: [check_git()], the walk of a base
    path, the repositories, [datetime.fromtimestamp(_).isoformat()]
    ([None]: the conversion raises), the name of a path, the clock and
    [str(e)]. *)
Record Env : Type := {
  git_available : bool;
  rglob_git : string -> list entry * walk_end;
  open_repo : string -> repo_open;
  fromtimestamp_iso : Z -> option string;
  path_name : string -> string;
  clock_start : string;
  clock_elapsed : Z;
  exception_str : exception -> string
}.

(** [Path(default)].  Line 23 of [app.py], [from fastapi import FastAPI,
    HTTPException, Query, Path], rebinds the name that line 19 imported
    from [pathlib]: [Path] is FastAPI's declaration of a path parameter,
    which can have no default value, and called with one, as in
    [Path(repo_path)], it fails its assertion.  [A] is the type of the
    value the caller goes on with. *)
Definition Path {A : Type} (default : string) : result A :=
  Raise (AssertionError "Path parameters cannot have a default value").

Definition check_git (env : Env) : bool := git_available env.

Definition find_local_git_repositories (env : Env) (base_path : string)
    : result (list string) :=
  (* base_path = Path(base_path).resolve() *)
  base_path ← @Path string base_path;
  let '(items, ending) := rglob_git env base_path in
  let git_repos := map parent (List.filter is_dir items) in
  match ending with
  | WalkError e => Raise e
  | WalkDone | WalkPermissionError => Ok git_repos
  end.

(** The body of the inner [try] once [tag.commit] is at hand: the
    [TagInfo] returned, or [None] when building it raises, whatever the
    exception (the [except] clause is bare).  The arguments are evaluated
    in the order written: the date, then, for [repository_name],
    [Path(repo_path).name]. *)
Definition local_tag_info (env : Env) (repo_path pattern : string)
    (commit : Commit) : option App.TagInfo :=
  match fromtimestamp_iso env (committed_date commit) with
  | None => None
  | Some date =>
      match @Path string repo_path with
      | Raise _ => None
      | Ok path =>
          Some {| App.tag_name := pattern;
                  App.commit_id := hexsha commit;
                  App.author := author_name commit;
                  App.date := Some date;
                  App.message := if PyStr.truthy (message commit)
                                 then Some (PyStr.first_line (message commit))
                                 else None;
                  App.repository_name := path_name env path;
                  App.repository_url := "file://" +:+ repo_path;
                  App.tag_url :=
                    "file://" +:+ repo_path +:+ "/.git/refs/tags/" +:+ pattern;
                  App.repository_path := Some repo_path |}
      end
  end.

(** The loop [for pattern in tag_patterns: try: ... return ... except:
    continue]. *)
Fixpoint try_patterns (env : Env) (repo_path : string)
    (tag_commit : string -> option Commit) (tag_patterns : list string)
    : option App.TagInfo :=
  match tag_patterns with
  | [] => None
  | pattern :: rest =>
      match tag_commit pattern with
      | Some commit =>
          match local_tag_info env repo_path pattern commit with
          | Some tag_info => Some tag_info
          | None => try_patterns env repo_path tag_commit rest
          end
      | None => try_patterns env repo_path tag_commit rest
      end
  end.

Definition scan_local_repository_for_tag (env : Env)
    (repo_path tag_version : string) : option App.TagInfo :=
  match open_repo env repo_path with
  | Opened tag_commit =>
      try_patterns env repo_path tag_commit
        [tag_version; "v" +:+ tag_version]
  | InvalidGitRepository => None
  | OtherGitError => None
  end.

(** The loop [for repo_path in git_repos], giving [found_tags]. *)
Fixpoint scan_local_loop (env : Env) (tag_version : string)
    (git_repos : list string) (found_tags : list App.TagInfo)
    : list App.TagInfo :=
  match git_repos with
  | [] => found_tags
  | repo_path :: rest =>
      match scan_local_repository_for_tag env repo_path tag_version with
      | Some tag_info =>
          scan_local_loop env tag_version rest (found_tags ++ [tag_info])
      | None => scan_local_loop env tag_version rest found_tags
      end
  end.

Definition scan_local_repositories_for_tag (env : Env)
    (tag_version base_path : string) : result App.ScanResult :=
  if negb (check_git env) then
    Raise (HTTPException 500 "Git not available")
  else
    except_any
      (git_repos ← find_local_git_repositories env base_path;
       let total_repos := length git_repos in
       let found_tags := scan_local_loop env tag_version git_repos [] in
       Ok {| App.total_repositories_scanned := total_repos;
             App.repositories_with_tag := length found_tags;
             App.tags_found := found_tags;
             App.scan_timestamp := clock_start env;
             App.scan_duration_seconds := clock_elapsed env |})
      (fun e =>
         Raise (HTTPException 500
                  ("Local scan failed: " +:+ exception_str env e))).

End Local.

(** ** JSON values *)

Module Json.

(** A value as [json.loads] returns it: [None], a [bool], an [int], a
    [float] (kept by its text and by whether it is non-zero), a [str], a
    [list], or a [dict] given by its items, whose keys are pairwise
    distinct. *)
#[warnings="-register-all"]
Inductive value : Type :=
| JNull
| JBool (b : bool)
| JInt (n : Z)
| JFloat (text : string) (nonzero : bool)
| JStr (s : string)
| JArray (items : list value)
| JObject (fields : list (string * value)).

(** [type(v).__name__] *)
Definition type_name (v : value) : string :=
  match v with
  | JNull => "NoneType"
  | JBool _ => "bool"
  | JInt _ => "int"
  | JFloat _ _ => "float"
  | JStr _ => "str"
  | JArray _ => "list"
  | JObject _ => "dict"
  end.

(** Truthiness: [if v]. *)
Definition truthy (v : value) : bool :=
  match v with
  | JNull => false
  | JBool b => b
  | JInt n => negb (n =? 0)%Z
  | JFloat _ nonzero => nonzero
  | JStr s => PyStr.truthy s
  | JArray items => match items with [] => false | _ => true end
  | JObject fields => match fields with [] => false | _ => true end
  end.

(** [v.get(key, fallback)]: a [dict] has the method, no other value
    has. *)
Definition get (v : value) (key : string) (fallback : value) : result value :=
  match v with
  | JObject fields => Ok (default fallback (dict_get key fields))
  | _ =>
      Raise (AttributeError
               ("'" +:+ type_name v +:+ "' object has no attribute 'get'"))
  end.

(** [v.split('\n')[0]]: a [str] has the method, no other value has. *)
Definition split_first (v : value) : result string :=
  match v with
  | JStr s => Ok (PyStr.first_line s)
  | _ =>
      Raise (AttributeError
               ("'" +:+ type_name v +:+ "' object has no attribute 'split'"))
  end.

End Json.

(** ** [app.py]: the commit lookup on replies of any shape

    [App.get_tag_commit_info] reads the two replies of the GitHub CLI as
    the documents the API describes.  [get_tag_commit_info] below is the
    same function on replies that are any JSON value. *)

Module AppJson.

(** The answers of the GitHub CLI to the two commands of the lookup; the
    second command is formed from the value found under ["sha"]. *)
Record Env : Type := {
  gh_tag_ref : string -> string -> string -> App.gh_process Json.value;
  gh_commit : string -> string -> Json.value -> App.gh_process Json.value
}.

(** The dictionary built by [get_tag_commit_info]. *)
Record CommitInfo : Type := {
  commit_sha : Json.value;
  author : Json.value;
  date : Json.value;
  message : string
}.

Definition get_tag_commit_info (env : Env) (org_name repo_name tag_name : string)
    : result (option CommitInfo) :=
  except_http
    (tag_ref ← App.run_gh_command (gh_tag_ref env org_name repo_name tag_name);
     let tag_ref := default (Json.JObject []) tag_ref in
     obj ← Json.get tag_ref "object" (Json.JObject []);
     commit_sha ← Json.get obj "sha" Json.JNull;
     if negb (Json.truthy commit_sha) then Ok None
     else
       commit_info ←
         App.run_gh_command (gh_commit env org_name repo_name commit_sha);
       let commit_info := default (Json.JObject []) commit_info in
       commit ← Json.get commit_info "commit" (Json.JObject []);
       author ← Json.get commit "author" (Json.JObject []);
       name ← Json.get author "name" Json.JNull;
       commit ← Json.get commit_info "commit" (Json.JObject []);
       author ← Json.get commit "author" (Json.JObject []);
       date ← Json.get author "date" Json.JNull;
       commit ← Json.get commit_info "commit" (Json.JObject []);
       message ← Json.get commit "message" (Json.JStr "");
       first_line ← Json.split_first message;
       Ok (Some {| commit_sha := commit_sha;
                   author := name;
                   date := date;
                   message := first_line |}))
    (fun _ _ => Ok None).

End AppJson.

(** ** Vocabulary of the statements *)

(** The pattern rule in the words of the specification: the tag equals
    [pattern] or ["v" + pattern], or starts with [pattern + "."] or
    ["v" + pattern + "."]. *)
Definition accepts (pattern tag : string) : bool :=
  String.eqb tag pattern || String.eqb tag ("v" +:+ pattern)
  || PyStr.startswith tag (pattern +:+ ".")
  || PyStr.startswith tag ("v" +:+ pattern +:+ ".").

(** The subject [q] itself, or [q] followed by one newline. *)
Definition equal_or_newline (q t : string) : bool :=
  String.eqb t q || String.eqb t (q +:+ String PyStr.newline "").

(** Whether a string ends with a newline. *)
Fixpoint ends_with_newline (t : string) : bool :=
  match t with
  | EmptyString => false
  | String c EmptyString => Ascii.eqb c PyStr.newline
  | String _ t' => ends_with_newline t'
  end.

(** Every failing tag listing among the repositories fails with a detail
    that mentions 404. *)
Definition tags_failures_are_404 (env : App.Env) (org_name : string)
    (repositories : list App.Repo) : Prop :=
  forall repo c d,
    In repo repositories ->
    App.run_gh_command (App.gh_tags env org_name (App.name repo))
      = Raise (HTTPException c d) ->
    PyStr.contains "404" d = true.

(** The number of distinct strings of a list. *)
Definition distinct_count (l : list string) : nat :=
  size (list_to_set l : gset string).

(** ** Sample inputs *)

Definition sample_repos : list App.Repo :=
  [ {| App.name := "svc-a"; App.url := "https://github.com/org/svc-a" |};
    {| App.name := "svc-b"; App.url := "https://github.com/org/svc-b" |} ].

Definition sample_commit : App.CommitJson :=
  {| App.cj_author := Some "Ann <ann@example.org>";
     App.cj_date := Some "2024-01-01T00:00:00Z";
     App.cj_message := "Release" |}.

(** [str(e)]: an [HTTPException] prints as its status code and its
    detail, the other exceptions as their message. *)
Definition sample_exception_str (e : exception) : string :=
  match e with
  | HTTPException c d => pretty c +:+ ": " +:+ d
  | ReError => "bad pattern"
  | TypeError m => m
  | AssertionError m => m
  | AttributeError m => m
  end.

(** An organization with the two sample repositories, whose tag listings
    are answered by [tags]. *)
Definition sample_env
    (tags : string -> App.gh_process (App.json_list string)) : App.Env :=
  {| App.gh_auth_status := true;
     App.gh_repo_list :=
       fun _ => App.Completed 0 (App.Parsed (App.JsonList sample_repos)) "";
     App.gh_tags := fun _ repo => tags repo;
     App.gh_tag_ref :=
       fun _ _ _ => App.Completed 0 (App.Parsed (Some "0123456789abcdef")) "";
     App.gh_commit := fun _ _ _ => App.Completed 0 (App.Parsed sample_commit) "";
     App.clock_start := "2024-06-01T12:00:00";
     App.clock_elapsed := 1500000%Z;
     App.exception_str := sample_exception_str |}.

Definition tags_listed (a b : list string) (repo : string)
    : App.gh_process (App.json_list string) :=
  if String.eqb repo "svc-a"
  then App.Completed 0 (App.Parsed (App.JsonList a)) ""
  else App.Completed 0 (App.Parsed (App.JsonList b)) "".


(** The listing of [svc-a] times out, [svc-b] lists its tags. *)
Definition tags_timed_out (b : list string) (repo : string)
    : App.gh_process (App.json_list string) :=
  if String.eqb repo "svc-a"
  then App.TimeoutExpired
  else App.Completed 0 (App.Parsed (App.JsonList b)) "".


(** A dataset with its deployment annotations blanked: the
    [deployment_status] and [environment] of every record and the
    [deployment_environments] of every summary. *)
Definition erase_deployment_group (g : Transformer.TagGroup)
    : Transformer.TagGroup :=
  {| Transformer.tag_name := Transformer.tag_name g;
     Transformer.repositories :=
       map (fun r => Transformer.set_deployment r "" "")
           (Transformer.repositories g);
     Transformer.summary :=
       {| Transformer.total_repositories :=
            Transformer.total_repositories (Transformer.summary g);
          Transformer.latest_commit_date :=
            Transformer.latest_commit_date (Transformer.summary g);
          Transformer.deployment_environments := ∅ |} |}.

Definition erase_deployment (d : Transformer.Dataset) : Transformer.Dataset :=
  {| Transformer.metadata := Transformer.metadata d;
     Transformer.tags :=
       map (fun kv => (fst kv, erase_deployment_group (snd kv)))
           (Transformer.tags d);
     Transformer.statistics := Transformer.statistics d |}.

(** Sample scan results and datasets. *)
Definition sample_match (tag repo date : string) : App.TagInfo :=
  App.make_tag_info tag
    (Some {| App.commit_sha := "0123456789abcdef";
             App.ci_author := Some "Ann <ann@example.org>";
             App.ci_date := Some date;
             App.ci_message := "Release" |})
    repo ("https://github.com/org/" +:+ repo).

Definition sample_scan (matches : list App.TagInfo) : App.ScanResult :=
  {| App.total_repositories_scanned := 2;
     App.repositories_with_tag := length matches;
     App.tags_found := matches;
     App.scan_timestamp := "2024-06-01T12:00:00";
     App.scan_duration_seconds := 1500000%Z |}.

Definition sample_dataset (now : string) (matches : list App.TagInfo)
    : Transformer.Dataset :=
  match Transformer.transform_api_response "1.0.0" now (sample_scan matches)
          (Some "org") "specific_tag" with
  | Ok d => d
  | Raise _ =>
      {| Transformer.metadata :=
           {| Transformer.last_updated := "";
              Transformer.scan_duration_seconds := 0%Z;
              Transformer.organization := "";
              Transformer.total_repositories_scanned := 0;
              Transformer.scan_type := "";
              Transformer.version := "" |};
         Transformer.tags := [];
         Transformer.statistics := Transformer.calculate_statistics [] |}
  end.

Definition sample_existing : Transformer.Dataset :=
  sample_dataset "2024-06-01T12:00:00"
    [sample_match "1.0.0" "svc-a" "2024-01-01T00:00:00Z"].

Definition sample_incoming : Transformer.Dataset :=
  sample_dataset "2024-07-01T12:00:00"
    [sample_match "2.0.0" "svc-a" "2024-03-01T00:00:00Z";
     sample_match "2.0.0" "svc-b" "2024-02-01T00:00:00Z"].

(** A store holding the two sample datasets, with their references. *)
Definition sample_store
    : gmap Transformer.loc Transformer.object * Transformer.loc * Transformer.loc :=
  let '(h1, existing) := Transformer.store_dataset ∅ sample_existing in
  let '(h2, incoming) := Transformer.store_dataset h1 sample_incoming in
  (h2, existing, incoming).

Definition sample_deployment
    : dict Transformer.DeploymentConfig.RepoConfig :=
  [("svc-a",
    {| Transformer.DeploymentConfig.deployed_versions :=
         Some [("2.0.0",
                {| Transformer.DeploymentConfig.status := Some "deployed";
                   Transformer.DeploymentConfig.environment :=
                     Some "production" |})] |})].

(** The matches of a scan that carry the tag [k], in scan order. *)
Definition tagged (k : string) (l : list App.TagInfo) : list App.TagInfo :=
  List.filter (fun t => String.eqb (App.tag_name t) k) l.


(** The two loops of the enhancement as one pass over the entries. *)
Definition enhance_entry
    (cfg : dict Transformer.DeploymentConfig.RepoConfig)
    (kv : string * Transformer.TagGroup) : string * Transformer.TagGroup :=
  (fst kv,
   Transformer.recalculate_environments
     (Transformer.enhance_group cfg (fst kv) (snd kv))).

(** The strings of a list in the order of their first occurrence. *)
Fixpoint first_seen (l : list string) : list string :=
  match l with
  | [] => []
  | x :: l' => x :: List.filter (fun y => negb (String.eqb y x)) (first_seen l')
  end.

(** Whether a character occurs in a string. *)
Fixpoint occurs (c : ascii) (s : string) : bool :=
  match s with
  | EmptyString => false
  | String d s' => Ascii.eqb d c || occurs c s'
  end.

(** The tags dictionary a dataset reference leads to, in a store. *)
Definition tags_ref (h : gmap Transformer.loc Transformer.object)
    (l : Transformer.loc) : option Transformer.loc :=
  match h !! l with
  | Some (Transformer.DatasetObj _ t _) => Some t
  | _ => None
  end.

(** Sample local repositories: [/src/app] carries the tag ["v0.75.5"],
    [/src/lib] carries ["0.75.5"] and ["v0.75.5"], [/src/tmp] is no
    repository. *)
Definition sample_local_commit : Local.Commit :=
  {| Local.hexsha := "0123456789abcdef";
     Local.author_name := Some "Ann";
     Local.committed_date := 1704067200%Z;
     Local.message := "Release" |}.

Definition sample_local_env : Local.Env :=
  {| Local.git_available := true;
     Local.rglob_git := fun _ =>
       ([ {| Local.parent := "/src/app"; Local.is_dir := true |};
          {| Local.parent := "/src/sub"; Local.is_dir := false |};
          {| Local.parent := "/src/lib"; Local.is_dir := true |};
          {| Local.parent := "/src/tmp"; Local.is_dir := true |} ],
        Local.WalkPermissionError);
     Local.open_repo := fun path =>
       if String.eqb path "/src/app" then
         Local.Opened (fun tag => if String.eqb tag "v0.75.5"
                                  then Some sample_local_commit else None)
       else if String.eqb path "/src/lib" then
         Local.Opened (fun tag => if String.eqb tag "0.75.5"
                                     || String.eqb tag "v0.75.5"
                                  then Some sample_local_commit else None)
       else Local.InvalidGitRepository;
     Local.fromtimestamp_iso := fun _ => Some "2024-01-01T00:00:00";
     Local.path_name := fun path => String.substring 5 3 path;
     Local.clock_start := "2024-06-01T12:00:00";
     Local.clock_elapsed := 250000%Z;
     Local.exception_str := sample_exception_str |}.

(** What a match of the pattern scan records about the repository
    [repo_name] whose inspected tags are [tags]. *)
Definition window_match (patterns : list string) (repo_name repo_url : string)
    (tags : list string) (t : App.TagInfo) : Prop :=
  App.repository_name t = repo_name
  /\ App.repository_url t = repo_url
  /\ App.tag_url t = repo_url +:+ "/releases/tag/" +:+ App.tag_name t
  /\ In (App.tag_name t) tags
  /\ App.any_match patterns (App.tag_name t) = Ok true.

(** A match of the pattern scan comes from a named repository of the
    listing and from one of the first ten tags it lists. *)
Definition pattern_match (env : App.Env) (org_name : string)
    (patterns : list string) (repositories : list App.Repo)
    (t : App.TagInfo) : Prop :=
  exists repo tags,
    In repo repositories
    /\ PyStr.truthy (App.name repo) = true
    /\ App.get_repository_tags env org_name (App.name repo) = Ok tags
    /\ window_match patterns (App.name repo) (App.url repo) (firstn 10 tags) t.

(** A match of the exact scan comes from a named repository of the
    listing, and its tag is the first candidate among the tags listed. *)
Definition exact_match (env : App.Env) (org_name : string)
    (patterns : list string) (repositories : list App.Repo)
    (t : App.TagInfo) : Prop :=
  exists repo tags,
    In repo repositories
    /\ PyStr.truthy (App.name repo) = true
    /\ App.get_repository_tags env org_name (App.name repo) = Ok tags
    /\ List.find (fun p => PyStr.mem p tags) patterns = Some (App.tag_name t)
    /\ App.repository_name t = App.name repo
    /\ App.repository_url t = App.url repo
    /\ App.tag_url t = App.url repo +:+ "/releases/tag/" +:+ App.tag_name t.


(** [svc-a] lists its tags, the listing of [svc-b] times out. *)
Definition tags_then_timeout (a : list string) (repo : string)
    : App.gh_process (App.json_list string) :=
  if String.eqb repo "svc-a"
  then App.Completed 0 (App.Parsed (App.JsonList a)) ""
  else App.TimeoutExpired.

(** The record the aggregation keeps of a match: its fields, the first
    seven characters of the commit identifier, and the two deployment
    fields at ["unknown"]. *)
Definition record_of (t : App.TagInfo) (r : Transformer.RepositoryRecord)
    : Prop :=
  Transformer.repository_name r = App.repository_name t
  /\ Transformer.commit_id r = App.commit_id t
  /\ Transformer.commit_short r = String.substring 0 7 (App.commit_id t)
  /\ Transformer.author r = App.author t
  /\ Transformer.date r = App.date t
  /\ Transformer.message r = App.message t
  /\ Transformer.repository_url r = App.repository_url t
  /\ Transformer.tag_url r = App.tag_url t
  /\ Transformer.repository_path r = App.repository_path t
  /\ Transformer.deployment_status r = "unknown"
  /\ Transformer.environment r = "unknown".

(** A typed reply of the GitHub CLI as the JSON document it stands for. *)
Definition map_process {A B : Type} (f : A -> B) (p : App.gh_process A)
    : App.gh_process B :=
  match p with
  | App.Completed returncode stdout stderr =>
      App.Completed returncode
        (match stdout with
         | App.Blank => App.Blank
         | App.Parsed v => App.Parsed (f v)
         | App.Malformed err => App.Malformed err
         end)
        stderr
  | App.TimeoutExpired => App.TimeoutExpired
  | App.FileNotFound => App.FileNotFound
  end.

Definition json_of_field (field : option string) : Json.value :=
  match field with
  | Some s => Json.JStr s
  | None => Json.JNull
  end.

Definition json_of_tag_ref (sha : option string) : Json.value :=
  Json.JObject
    [("object",
      Json.JObject (match sha with
                    | Some s => [("sha", Json.JStr s)]
                    | None => []
                    end))].

Definition json_of_commit (c : App.CommitJson) : Json.value :=
  Json.JObject
    [("commit",
      Json.JObject
        [("author",
          Json.JObject [("name", json_of_field (App.cj_author c));
                        ("date", json_of_field (App.cj_date c))]);
         ("message", Json.JStr (App.cj_message c))])].

Definition json_of_info (ci : App.CommitInfo) : AppJson.CommitInfo :=
  {| AppJson.commit_sha := Json.JStr (App.commit_sha ci);
     AppJson.author := json_of_field (App.ci_author ci);
     AppJson.date := json_of_field (App.ci_date ci);
     AppJson.message := App.ci_message ci |}.

(** The lookups of a typed environment, answering with JSON documents. *)
Definition json_env (env : App.Env) : AppJson.Env :=
  {| AppJson.gh_tag_ref := fun org_name repo_name tag =>
       map_process json_of_tag_ref (App.gh_tag_ref env org_name repo_name tag);
     AppJson.gh_commit := fun org_name repo_name sha =>
       match sha with
       | Json.JStr s =>
           map_process json_of_commit (App.gh_commit env org_name repo_name s)
       | _ => App.FileNotFound
       end |}.

(** The tag reference is answered by a list of references, as the API
    does for a name that is only the prefix of tag names. *)
Definition sample_json_env : AppJson.Env :=
  {| AppJson.gh_tag_ref := fun _ _ _ =>
       App.Completed 0
         (App.Parsed
            (Json.JArray
               [Json.JObject [("ref", Json.JStr "refs/tags/1.0.0")];
                Json.JObject [("ref", Json.JStr "refs/tags/1.0.1")]]))
         "";
     AppJson.gh_commit := fun _ _ _ =>
       App.Completed 0 (App.Parsed (Json.JObject [])) "" |}.

(** * Properties *)

(** ** Escaped patterns are matched literally *)

Section EscapedPatterns.

Lemma special_not_alnum (c : ascii) :
  Re.is_special c = true -> Re.is_alnum c = false.
Proof.
  destruct c as [[] [] [] [] [] [] [] []]; vm_compute; congruence.
Qed.

(** A character that [re.escape] leaves alone has no meaning of its own in
    a pattern. *)
Lemma plain_char_class (c : ascii) :
  Re.is_special c = false ->
  Ascii.eqb c Re.backslash = false
  /\ Ascii.eqb c "^" = false
  /\ Ascii.eqb c "$" = false
  /\ Ascii.eqb c "." = false
  /\ Re.is_unsupported_meta c = false.
Proof.
  destruct c as [[] [] [] [] [] [] [] []]; vm_compute; intros H;
    repeat split; congruence.
Qed.

Lemma plain_char_parses (c : ascii) (rest : string) :
  Re.is_special c = false ->
  Re.parse (String c rest) = option_map (cons (Re.Literal c)) (Re.parse rest).
Proof.
  intros H. destruct (plain_char_class c H) as (H1 & H2 & H3 & H4 & H5).
  cbn [Re.parse]. rewrite H1, H2, H3, H4. rewrite H5. reflexivity.
Qed.

Lemma escaped_char_parses (c : ascii) (rest : string) :
  Re.is_special c = true ->
  Re.parse (String Re.backslash (String c rest))
  = option_map (cons (Re.Literal c)) (Re.parse rest).
Proof.
  intros H. apply special_not_alnum in H.
  change (Re.parse (String Re.backslash (String c rest)))
    with (if Re.is_alnum c then None
          else option_map (cons (Re.Literal c)) (Re.parse rest)).
  now rewrite H.
Qed.

Lemma parse_escape (p rest : string) :
  Re.parse (Re.escape p +:+ rest)
  = option_map (app (Re.literals p)) (Re.parse rest).
Proof.
  induction p as [|c p IH]; simpl.
  - change ("" +:+ rest) with rest. now destruct (Re.parse rest).
  - destruct (Re.is_special c) eqn:Hc.
    + change (String Re.backslash (String c (Re.escape p)) +:+ rest)
        with (String Re.backslash (String c (Re.escape p +:+ rest))).
      rewrite escaped_char_parses, IH by assumption.
      now destruct (Re.parse rest).
    + change (String c (Re.escape p) +:+ rest)
        with (String c (Re.escape p +:+ rest)).
      rewrite plain_char_parses, IH by assumption.
      now destruct (Re.parse rest).
Qed.

Lemma literals_app (a b : string) :
  Re.literals (a +:+ b) = Re.literals a ++ Re.literals b.
Proof. induction a as [|c a IH]; simpl; [reflexivity | now rewrite IH]. Qed.

(** A run of literal items matches exactly the subjects that start with
    the literal string. *)
Lemma match_literals (q : string) (b : bool) (t : string) :
  Re.match_here (Re.literals q) b t = String.prefix q t.
Proof.
  revert b t. induction q as [|c q IH]; intros b t.
  - now destruct t.
  - destruct t as [|d t]; [reflexivity|].
    cbn [Re.literals Re.match_here String.prefix].
    destruct (Ascii.ascii_dec c d) as [->|Hne].
    + rewrite Ascii.eqb_refl. apply IH.
    + apply Ascii.eqb_neq in Hne. now rewrite Hne.
Qed.

Lemma match_literals_end (q : string) (b : bool) (t : string) :
  Re.match_here (Re.literals q ++ [Re.AtEnd]) b t = equal_or_newline q t.
Proof.
  unfold equal_or_newline.
  revert b t. induction q as [|c q IH]; intros b t.
  - simpl. destruct t as [|d [|e t]]; simpl; try reflexivity.
    all: destruct (Ascii.eqb d PyStr.newline); reflexivity.
  - destruct t as [|d t]; [reflexivity|].
    change (Re.match_here (Re.literals (String c q) ++ [Re.AtEnd]) b (String d t))
      with (Ascii.eqb c d && Re.match_here (Re.literals q ++ [Re.AtEnd]) false t).
    rewrite IH. simpl. rewrite (Ascii.eqb_sym d c).
    destruct (Ascii.eqb c d); reflexivity.
Qed.

End EscapedPatterns.

(** ** The predicate of the pattern scan *)

Section PatternPredicate.

Lemma parse_prefix_pattern (q : string) :
  Re.parse ("^" +:+ Re.escape q +:+ "\.")
  = Some (Re.AtBeginning :: Re.literals (q +:+ ".")).
Proof.
  change ("^" +:+ Re.escape q +:+ "\.")
    with (String "^" (Re.escape q +:+ "\.")).
  change (Re.parse (String "^" (Re.escape q +:+ "\.")))
    with (option_map (cons Re.AtBeginning) (Re.parse (Re.escape q +:+ "\."))).
  rewrite parse_escape, literals_app. reflexivity.
Qed.

Lemma parse_v_prefix_pattern (q : string) :
  Re.parse ("^v" +:+ Re.escape q +:+ "\.")
  = Some (Re.AtBeginning :: Re.literals ("v" +:+ q +:+ ".")).
Proof.
  change ("^v" +:+ Re.escape q +:+ "\.")
    with (String "^" (String "v" (Re.escape q +:+ "\."))).
  change (Re.parse (String "^" (String "v" (Re.escape q +:+ "\."))))
    with (option_map (cons Re.AtBeginning)
            (option_map (cons (Re.Literal "v"))
               (Re.parse (Re.escape q +:+ "\.")))).
  rewrite parse_escape.
  change ("v" +:+ q +:+ ".") with (String "v" (q +:+ ".")).
  simpl Re.literals. rewrite literals_app. reflexivity.
Qed.

Lemma parse_exact_pattern (q : string) :
  Re.parse ("^" +:+ Re.escape q +:+ "$")
  = Some (Re.AtBeginning :: Re.literals q ++ [Re.AtEnd]).
Proof.
  change ("^" +:+ Re.escape q +:+ "$")
    with (String "^" (Re.escape q +:+ "$")).
  change (Re.parse (String "^" (Re.escape q +:+ "$")))
    with (option_map (cons Re.AtBeginning) (Re.parse (Re.escape q +:+ "$"))).
  rewrite parse_escape. reflexivity.
Qed.

Lemma parse_v_exact_pattern (q : string) :
  Re.parse ("^v" +:+ Re.escape q +:+ "$")
  = Some (Re.AtBeginning :: Re.literals ("v" +:+ q) ++ [Re.AtEnd]).
Proof.
  change ("^v" +:+ Re.escape q +:+ "$")
    with (String "^" (String "v" (Re.escape q +:+ "$"))).
  change (Re.parse (String "^" (String "v" (Re.escape q +:+ "$"))))
    with (option_map (cons Re.AtBeginning)
            (option_map (cons (Re.Literal "v"))
               (Re.parse (Re.escape q +:+ "$")))).
  rewrite parse_escape. reflexivity.
Qed.

(** What the four compiled patterns accept, for every pattern string and
    every tag: no pattern fails to compile. *)
Lemma any_match_regex_patterns (pattern tag : string) :
  App.any_match (App.regex_patterns pattern) tag
  = Ok (String.prefix (pattern +:+ ".") tag
        || String.prefix ("v" +:+ pattern +:+ ".") tag
        || equal_or_newline pattern tag
        || equal_or_newline ("v" +:+ pattern) tag).
Proof.
  unfold App.regex_patterns, App.any_match, Re.re_match.
  rewrite parse_prefix_pattern, parse_v_prefix_pattern,
    parse_exact_pattern, parse_v_exact_pattern.
  cbn [Re.match_here andb].
  rewrite !match_literals, !match_literals_end.
  destruct (String.prefix (pattern +:+ ".") tag); [reflexivity|].
  destruct (String.prefix ("v" +:+ pattern +:+ ".") tag); [reflexivity|].
  destruct (equal_or_newline pattern tag); [reflexivity|].
  destruct (equal_or_newline ("v" +:+ pattern) tag); reflexivity.
Qed.

Lemma ends_with_newline_append (q : string) :
  ends_with_newline (q +:+ String PyStr.newline "") = true.
Proof.
  induction q as [|c q IH]; [reflexivity|].
  simpl. destruct (q +:+ String PyStr.newline "") eqn:E; [|exact IH].
  destruct q; discriminate.
Qed.

Lemma equal_or_newline_plain (q t : string) :
  ends_with_newline t = false -> equal_or_newline q t = String.eqb t q.
Proof.
  intros H. unfold equal_or_newline.
  destruct (String.eqb_spec t (q +:+ String PyStr.newline "")) as [->|_].
  - now rewrite ends_with_newline_append in H.
  - apply orb_false_r.
Qed.

(** On tags that do not end with a newline the compiled predicate is the
    rule of the specification. *)
Lemma any_match_accepts (pattern tag : string) :
  ends_with_newline tag = false ->
  App.any_match (App.regex_patterns pattern) tag = Ok (accepts pattern tag).
Proof.
  intros H. rewrite any_match_regex_patterns.
  rewrite !equal_or_newline_plain by assumption.
  unfold accepts, PyStr.startswith. f_equal.
  destruct (String.eqb tag pattern), (String.eqb tag ("v" +:+ pattern)),
    (String.prefix (pattern +:+ ".") tag),
    (String.prefix ("v" +:+ pattern +:+ ".") tag); reflexivity.
Qed.

End PatternPredicate.

(** ** Lookups and their failures *)

Section Lookups.
Variable env : App.Env.
Variable org_name : string.

Lemma run_gh_command_raises {A : Type} (p : App.gh_process A) (e : exception) :
  App.run_gh_command p = Raise e -> exists d, e = HTTPException 500 d.
Proof.
  destruct p as [rc [|v|err] stderr | |]; simpl;
    try destruct (rc =? 0)%Z; simpl; intros H; inversion H; eauto.
Qed.

Lemma get_repository_tags_raise (repo_name : string) (c : Z) (d : string) :
  App.run_gh_command (App.gh_tags env org_name repo_name)
    = Raise (HTTPException c d) ->
  App.get_repository_tags env org_name repo_name
  = if PyStr.contains "404" d then Ok [] else Raise (HTTPException c d).
Proof. intros H. unfold App.get_repository_tags. now rewrite H. Qed.

Lemma get_repository_tags_ok (repo_name : string) :
  (forall c d,
      App.run_gh_command (App.gh_tags env org_name repo_name)
        = Raise (HTTPException c d) ->
      PyStr.contains "404" d = true) ->
  exists tags, App.get_repository_tags env org_name repo_name = Ok tags.
Proof.
  intros H. unfold App.get_repository_tags.
  destruct (App.run_gh_command (App.gh_tags env org_name repo_name))
    as [[[l|]|]|e] eqn:E; simpl; eauto.
  destruct (run_gh_command_raises _ _ E) as [d ->].
  simpl. rewrite (H _ _ eq_refl). eauto.
Qed.



Lemma get_tag_commit_info_total (repo_name tag : string) :
  exists info, App.get_tag_commit_info env org_name repo_name tag = Ok info.
Proof.
  unfold App.get_tag_commit_info.
  destruct (App.run_gh_command (App.gh_tag_ref env org_name repo_name tag))
    as [[[sha|]|]|e] eqn:E1; simpl; eauto.
  - destruct (PyStr.truthy sha); simpl; eauto.
    destruct (App.run_gh_command (App.gh_commit env org_name repo_name sha))
      as [ci|e] eqn:E2; simpl; eauto.
    destruct (run_gh_command_raises _ _ E2) as [d ->]. simpl. eauto.
  - destruct (run_gh_command_raises _ _ E1) as [d ->]. simpl. eauto.
Qed.

(** The inner loop of the exact scan returns the match of the first
    candidate present among the tags, and nothing else. *)
Lemma check_patterns_first (repo_name repo_url : string)
    (tags patterns : list string) :
  App.check_patterns env org_name repo_name repo_url tags patterns
  = match List.find (fun p => PyStr.mem p tags) patterns with
    | Some p =>
        commit_info ← App.get_tag_commit_info env org_name repo_name p;
        Ok [App.make_tag_info p commit_info repo_name repo_url]
    | None => Ok []
    end.
Proof.
  induction patterns as [|p ps IH]; simpl; [reflexivity|].
  destruct (PyStr.mem p tags); [reflexivity | exact IH].
Qed.

Lemma check_patterns_total (repo_name repo_url : string)
    (tags patterns : list string) :
  exists hit,
    App.check_patterns env org_name repo_name repo_url tags patterns = Ok hit
    /\ length hit <= 1
    /\ Forall (fun t => App.repository_name t = repo_name) hit.
Proof.
  rewrite check_patterns_first.
  destruct (List.find _ patterns) as [p|].
  - destruct (get_tag_commit_info_total repo_name p) as [info ->].
    simpl. eexists; repeat split; [simpl; lia | repeat constructor].
  - exists []. repeat split; [simpl; lia | constructor].
Qed.

End Lookups.


(** ** The scan loops *)

Section Scans.
Variable env : App.Env.
Variable org_name : string.

Lemma bind_ok {A B : Type} (a : A) (k : A -> result B) :
  (Ok a ≫= k) = k a.
Proof. reflexivity. Qed.

Lemma bind_raise {A B : Type} (e : exception) (k : A -> result B) :
  (Raise e ≫= k) = Raise e.
Proof. reflexivity. Qed.

Lemma bind_inv {A B : Type} (m : result A) (k : A -> result B) (b : B) :
  (m ≫= k) = Ok b -> exists a, m = Ok a /\ k a = Ok b.
Proof. destruct m as [a|e]; [eauto | discriminate]. Qed.

Lemma tags_failures_are_404_tail (repo : App.Repo) (rest : list App.Repo) :
  tags_failures_are_404 env org_name (repo :: rest) ->
  tags_failures_are_404 env org_name rest.
Proof. intros H r c d Hin. apply H. now right. Qed.


(** The matches of the exact scan follow the repository list, at most one
    for each entry. *)
Lemma scan_tag_loop_names (patterns : list string)
    (repositories : list App.Repo) :
  forall found_tags found,
    App.scan_tag_loop env org_name patterns repositories found_tags = Ok found ->
    exists new,
      found = found_tags ++ new
      /\ sublist (map App.repository_name new) (map App.name repositories).
Proof.
  induction repositories as [|repo rest IH]; intros found_tags found; simpl.
  - intros [= <-]. exists []. split; [now rewrite app_nil_r | constructor].
  - destruct (PyStr.truthy (App.name repo)); simpl.
    + intros H.
      apply bind_inv in H as (tags & _ & H).
      apply bind_inv in H as (hit & Hhit & H).
      destruct (check_patterns_total env org_name (App.name repo)
                  (App.url repo) tags patterns) as (hit' & Hhit' & Hlen & Hname).
      rewrite Hhit in Hhit'. injection Hhit' as <-.
      apply IH in H as (new & -> & Hsub).
      exists (hit ++ new). split; [now rewrite app_assoc|].
      destruct hit as [|t [|t' hit]]; simpl in *; try lia.
      * now constructor.
      * inversion Hname as [|? ? Ht _]; subst. rewrite Ht. now constructor.
    + intros H. apply IH in H as (new & -> & Hsub).
      exists new. split; [reflexivity | now constructor].
Qed.

(** A list of patterns none of which fails to compile. *)
Lemma regex_patterns_total (pattern tag : string) :
  exists b, App.any_match (App.regex_patterns pattern) tag = Ok b.
Proof. rewrite any_match_regex_patterns. eauto. Qed.

Lemma scan_window_ok (pattern repo_name repo_url : string) (max_results : Z)
    (tags : list string) :
  forall found_tags,
  exists found,
    App.scan_window env org_name repo_name repo_url
      (App.regex_patterns pattern) max_results tags found_tags = Ok found.
Proof.
  induction tags as [|tag rest IH]; intros found_tags;
    cbn [App.scan_window].
  - eauto.
  - destruct (max_results <=? Z.of_nat (length found_tags))%Z; [eauto|].
    destruct (regex_patterns_total pattern tag) as [b ->]. rewrite bind_ok.
    destruct b; [|apply IH].
    destruct (get_tag_commit_info_total env org_name repo_name tag) as [info ->].
    rewrite bind_ok. apply IH.
Qed.

Lemma scan_patterns_loop_ok (pattern : string) (max_results : Z)
    (repositories : list App.Repo) :
  tags_failures_are_404 env org_name repositories ->
  forall found_tags,
  exists found,
    App.scan_patterns_loop env org_name (App.regex_patterns pattern)
      max_results repositories found_tags = Ok found.
Proof.
  induction repositories as [|repo rest IH]; intros Htol found_tags;
    cbn [App.scan_patterns_loop].
  - eauto.
  - pose proof (tags_failures_are_404_tail _ _ Htol) as Hrest.
    destruct (negb (PyStr.truthy (App.name repo))
              || (max_results <=? Z.of_nat (length found_tags))%Z);
      [now apply IH|].
    destruct (get_repository_tags_ok env org_name (App.name repo)) as [tags ->].
    { intros c d. apply Htol. now left. }
    rewrite bind_ok.
    destruct (scan_window_ok pattern (App.name repo) (App.url repo) max_results
                (firstn 10 tags) found_tags) as [found' ->].
    rewrite bind_ok. now apply IH.
Qed.

(** A tag listing that fails without a 404 stops the exact scan loop. *)
Lemma scan_tag_loop_aborts (patterns : list string)
    (repositories : list App.Repo) (repo : App.Repo) (c : Z) (d : string) :
  In repo repositories ->
  PyStr.truthy (App.name repo) = true ->
  App.run_gh_command (App.gh_tags env org_name (App.name repo))
    = Raise (HTTPException c d) ->
  PyStr.contains "404" d = false ->
  forall found_tags,
  exists e,
    App.scan_tag_loop env org_name patterns repositories found_tags = Raise e.
Proof.
  intros Hin Hname Hfail H404.
  induction repositories as [|r rest IH]; intros found_tags; [contradiction|].
  simpl. destruct Hin as [->|Hin].
  - rewrite Hname. simpl.
    rewrite (get_repository_tags_raise env org_name _ _ _ Hfail), H404.
    rewrite bind_raise. eauto.
  - destruct (PyStr.truthy (App.name r)); simpl; [|now apply IH].
    destruct (App.get_repository_tags env org_name (App.name r)) as [tags|e].
    + rewrite bind_ok.
      destruct (check_patterns_total env org_name (App.name r) (App.url r)
                  tags patterns) as (hit & -> & _).
      rewrite bind_ok. now apply IH.
    + rewrite bind_raise. eauto.
Qed.

(** What a successful exact scan returns. *)
Lemma scan_organization_for_tag_inv (tag_version : string)
    (include_patterns : bool) (r : App.ScanResult) :
  App.scan_organization_for_tag env org_name tag_version include_patterns = Ok r ->
  exists repositories found,
    App.get_repositories env org_name = Ok repositories
    /\ App.scan_tag_loop env org_name
         (App.tag_patterns tag_version include_patterns) repositories [] = Ok found
    /\ App.total_repositories_scanned r = length repositories
    /\ App.repositories_with_tag r = length found
    /\ App.tags_found r = found.
Proof.
  unfold App.scan_organization_for_tag.
  destruct (negb (App.check_github_cli env)); [discriminate|].
  destruct (App.get_repositories env org_name) as [repos|e]; [|discriminate].
  rewrite bind_ok. cbv zeta.
  destruct (App.scan_tag_loop env org_name _ repos []) as [found|e] eqn:Hloop;
    [|discriminate].
  rewrite bind_ok. simpl. intros [= <-]. exists repos, found.
  repeat split; assumption.
Qed.

(** What a successful pattern scan returns. *)
Lemma scan_organization_for_patterns_inv (version_pattern : string)
    (max_results : Z) (r : App.ScanResult) :
  App.scan_organization_for_patterns env org_name version_pattern max_results
    = Ok r ->
  exists repositories found,
    App.get_repositories env org_name = Ok repositories
    /\ App.total_repositories_scanned r = length repositories
    /\ App.repositories_with_tag r
       = length (PyStr.distinct (map App.repository_name found))
    /\ App.tags_found r = found.
Proof.
  unfold App.scan_organization_for_patterns.
  destruct (negb (App.check_github_cli env)); [discriminate|].
  destruct (App.get_repositories env org_name) as [repos|e]; [|discriminate].
  rewrite bind_ok. cbv zeta.
  destruct (App.scan_patterns_loop env org_name _ max_results repos [])
    as [found|e]; [|discriminate].
  rewrite bind_ok. simpl. intros [= <-]. exists repos, found.
  repeat split.
Qed.

End Scans.


(** ** Scan engine: statements of the specification *)

Lemma mem_elem_of (x : string) (l : list string) :
  PyStr.mem x l = true <-> x ∈ l.
Proof.
  unfold PyStr.mem. rewrite existsb_exists, list_elem_of_In. split.
  - intros (y & Hy & Heq). apply String.eqb_eq in Heq. now subst.
  - intros Hx. exists x. split; [assumption | apply String.eqb_refl].
Qed.

Lemma length_distinct (l : list string) :
  length (PyStr.distinct l) = distinct_count l.
Proof.
  unfold distinct_count. induction l as [|x l IH].
  - rewrite list_to_set_nil, size_empty. reflexivity.
  - rewrite list_to_set_cons. cbn [PyStr.distinct].
    destruct (PyStr.mem x l) eqn:E.
    + rewrite IH. f_equal.
      apply mem_elem_of in E.
      rewrite <- (elem_of_list_to_set (C:=gset string)) in E.
      symmetry. apply subseteq_union_1_L. now apply singleton_subseteq_l.
    + cbn [length]. rewrite size_union, size_singleton, IH; [reflexivity|].
      assert (x ∉ l) as Hx.
      { intros Hx. apply mem_elem_of in Hx. congruence. }
      rewrite <- (elem_of_list_to_set (C:=gset string)) in Hx.
      now apply disjoint_singleton_l.
Qed.

Lemma scan_patterns_raise (env : App.Env) (org_name pattern : string)
    (max_results : Z) (e : exception) :
  App.scan_organization_for_patterns env org_name pattern max_results = Raise e ->
  exists d, e = HTTPException 500 d.
Proof.
  unfold App.scan_organization_for_patterns.
  destruct (negb (App.check_github_cli env)); [intros [= <-]; eauto|].
  match goal with
  | |- except_any ?b _ = _ -> _ => destruct b as [r|e']
  end; simpl; [discriminate|].
  intros [= <-]. eauto.
Qed.


Lemma pattern_scan_returns (env : App.Env) (org_name : string)
    (repositories : list App.Repo) (version_pattern : string)
    (max_results : Z) :
  App.check_github_cli env = true ->
  App.get_repositories env org_name = Ok repositories ->
  tags_failures_are_404 env org_name repositories ->
  exists r,
    App.scan_organization_for_patterns env org_name version_pattern
      max_results = Ok r
    /\ App.total_repositories_scanned r = length repositories.
Proof.
  intros Hcli Hrepos Htol.
  unfold App.scan_organization_for_patterns. rewrite Hcli, Hrepos. simpl negb.
  cbv iota. rewrite bind_ok. cbv zeta.
  destruct (scan_patterns_loop_ok env org_name version_pattern max_results
              repositories Htol []) as [found ->].
  rewrite bind_ok. simpl. eauto.
Qed.





(** Any tag listing that fails without a 404 on a named repository makes
    the exact scan fail. *)
Lemma other_listing_failure_aborts (env : App.Env) (org_name : string)
    (repositories : list App.Repo) (repo : App.Repo) (c : Z) (d : string)
    (tag_version : string) (include_patterns : bool) :
  App.check_github_cli env = true ->
  App.get_repositories env org_name = Ok repositories ->
  In repo repositories ->
  PyStr.truthy (App.name repo) = true ->
  App.run_gh_command (App.gh_tags env org_name (App.name repo))
    = Raise (HTTPException c d) ->
  PyStr.contains "404" d = false ->
  exists detail,
    App.scan_organization_for_tag env org_name tag_version include_patterns
    = Raise (HTTPException 500 detail).
Proof.
  intros Hcli Hrepos Hin Hname Hfail H404.
  unfold App.scan_organization_for_tag. rewrite Hcli, Hrepos. simpl negb.
  cbv iota. rewrite bind_ok. cbv zeta.
  destruct (scan_tag_loop_aborts env org_name
              (App.tag_patterns tag_version include_patterns)
              repositories repo c d Hin Hname Hfail H404 []) as [e ->].
  rewrite bind_raise. simpl. eauto.
Qed.

(** C4.  The count reported by a scan is the number of distinct repository
    names among its matches: for the exact scan when the repository names
    of the organization are pairwise distinct, for the pattern scan
    always, however many matches a repository contributes. *)
Theorem repositories_with_tag_counts_distinct_names
    (env : App.Env) (org_name : string) :
  (forall tag_version include_patterns repositories r,
      App.get_repositories env org_name = Ok repositories ->
      NoDup (map App.name repositories) ->
      App.scan_organization_for_tag env org_name tag_version include_patterns
        = Ok r ->
      App.repositories_with_tag r
      = distinct_count (map App.repository_name (App.tags_found r)))
  /\ (forall version_pattern max_results r,
        App.scan_organization_for_patterns env org_name version_pattern
          max_results = Ok r ->
        App.repositories_with_tag r
        = distinct_count (map App.repository_name (App.tags_found r))).
Proof.
  split.
  - intros tag_version include_patterns repositories r Hrepos Hnodup Hscan.
    apply scan_organization_for_tag_inv in Hscan
      as (repos' & found & Hrepos' & Hloop & _ & Hcount & Hfound).
    rewrite Hrepos in Hrepos'. injection Hrepos' as <-.
    apply scan_tag_loop_names in Hloop as (new & -> & Hsub).
    simpl in Hfound. rewrite Hcount, Hfound. simpl.
    unfold distinct_count. rewrite size_list_to_set.
    + now rewrite length_map.
    + eapply sublist_NoDup; eassumption.
  - intros version_pattern max_results r Hscan.
    apply scan_organization_for_patterns_inv in Hscan
      as (repos & found & _ & _ & Hcount & Hfound).
    rewrite Hcount, Hfound. apply length_distinct.
Qed.

Lemma repositories_with_tag_counts_distinct_names_witness :
  NoDup (map App.name sample_repos)
  /\ exists r,
       App.scan_organization_for_tag
         (sample_env (tags_listed ["0.75.5"; "v0.75.5"] ["v0.75.5"]))
         "org" "0.75.5" true = Ok r
       /\ App.repositories_with_tag r
          = distinct_count (map App.repository_name (App.tags_found r)).
Proof.
  assert (NoDup (map App.name sample_repos)) as Hnodup.
  { apply (bool_decide_unpack _). vm_compute. exact I. }
  split; [exact Hnodup|].
  eexists. split; [reflexivity|].
  exact (proj1 (repositories_with_tag_counts_distinct_names
                  (sample_env (tags_listed ["0.75.5"; "v0.75.5"] ["v0.75.5"]))
                  "org")
           "0.75.5" true sample_repos _ eq_refl Hnodup eq_refl).
Defined.

(** A pattern scan in which one repository contributes three matches and
    is counted once. *)
Example pattern_scan_counts_repository_once :
  exists r,
    App.scan_organization_for_patterns
      (sample_env (tags_listed ["0.75.5"; "v0.75.5"; "0.75"] ["1.0.0"]))
      "org" "0.75" 50 = Ok r
    /\ length (App.tags_found r) = 3
    /\ App.repositories_with_tag r = 1.
Proof. eexists. split; [reflexivity|]. split; reflexivity. Qed.

(** Without distinct repository names the exact scan counts matches, not
    names. *)
Example exact_scan_counts_matches :
  let env :=
    {| App.gh_auth_status := true;
       App.gh_repo_list :=
         fun _ => App.Completed 0
                    (App.Parsed (App.JsonList (sample_repos ++ sample_repos))) "";
       App.gh_tags := fun _ _ =>
         App.Completed 0 (App.Parsed (App.JsonList ["0.75.5"])) "";
       App.gh_tag_ref := fun _ _ _ => App.TimeoutExpired;
       App.gh_commit := fun _ _ _ => App.TimeoutExpired;
       App.clock_start := "";
       App.clock_elapsed := 0%Z;
       App.exception_str := sample_exception_str |} in
  exists r,
    App.scan_organization_for_tag env "org" "0.75.5" true = Ok r
    /\ App.repositories_with_tag r = 4
    /\ length (PyStr.distinct (map App.repository_name (App.tags_found r))) = 2.
Proof. eexists. split; [reflexivity|]. split; reflexivity. Qed.

(** C5.  On every tag that does not end with a newline (no git tag name
    holds a control character) the predicate compiled for a pattern is the
    literal rule: the tag is the pattern, or ["v"] and the pattern, or
    starts with one of them followed by a dot.  No character of the
    pattern is read as a metacharacter. *)
Theorem pattern_predicate_is_literal_rule :
  (forall pattern tag,
      ends_with_newline tag = false ->
      App.any_match (App.regex_patterns pattern) tag = Ok (accepts pattern tag))
  /\ (forall pattern tag,
        accepts pattern tag = true <->
        tag = pattern \/ tag = "v" +:+ pattern
        \/ PyStr.startswith tag (pattern +:+ ".") = true
        \/ PyStr.startswith tag ("v" +:+ pattern +:+ ".") = true)
  /\ App.any_match (App.regex_patterns "0.75") "0.75.5" = Ok true
  /\ App.any_match (App.regex_patterns "0.75") "v0.75.5" = Ok true
  /\ App.any_match (App.regex_patterns "0.75") "0.75" = Ok true
  /\ App.any_match (App.regex_patterns "0.75") "v0.75" = Ok true
  /\ App.any_match (App.regex_patterns "0.75") "0.750" = Ok false
  /\ App.any_match (App.regex_patterns "1.0") "1x0" = Ok false.
Proof.
  split; [exact any_match_accepts|].
  split; [|repeat split; reflexivity].
  intros pattern tag. unfold accepts.
  rewrite !orb_true_iff, !String.eqb_eq. tauto.
Qed.

Lemma pattern_predicate_is_literal_rule_witness :
  ends_with_newline "0.75.5" = false
  /\ App.any_match (App.regex_patterns "0.75") "0.75.5"
     = Ok (accepts "0.75" "0.75.5").
Proof.
  split; [reflexivity|].
  exact (proj1 pattern_predicate_is_literal_rule "0.75" "0.75.5" eq_refl).
Defined.

(** The end anchor of the two exact patterns also matches before a newline
    that ends the subject. *)
Remark end_anchor_before_final_newline :
  App.any_match (App.regex_patterns "0.75") ("0.75" +:+ String PyStr.newline "")
  = Ok true.
Proof. reflexivity. Qed.



(** Both forms are among the tags of [svc-a], the v-prefixed one first in
    its listing: the match is the plain form, the first candidate. *)
Example exact_scan_prefers_plain_form :
  exists r,
    App.scan_organization_for_tag
      (sample_env (tags_listed ["v0.75.5"; "0.75.5"] ["1.0.0"]))
      "org" "0.75.5" true = Ok r
    /\ map App.tag_name (App.tags_found r) = ["0.75.5"]
    /\ App.repositories_with_tag r = 1
    /\ App.total_repositories_scanned r = 2.
Proof. eexists. split; [reflexivity|]. repeat split; reflexivity. Qed.

(** C9 (as amended).  The empty pattern goes the way of every other
    pattern: its four patterns compile to the predicate of the rule, the
    scan runs and returns a result when the command line tool is
    available, the repositories are listed and every failing tag listing
    is a 404; and the only error a pattern scan raises, whatever the
    pattern, is an HTTP error of status 500. *)
Theorem empty_pattern_is_scanned (env : App.Env) (org_name : string) :
  (forall tag,
      ends_with_newline tag = false ->
      App.any_match (App.regex_patterns "") tag = Ok (accepts "" tag))
  /\ (forall max_results repositories,
        App.check_github_cli env = true ->
        App.get_repositories env org_name = Ok repositories ->
        tags_failures_are_404 env org_name repositories ->
        exists r,
          App.scan_organization_for_patterns env org_name "" max_results = Ok r
          /\ App.total_repositories_scanned r = length repositories)
  /\ (forall version_pattern max_results e,
        App.scan_organization_for_patterns env org_name version_pattern
          max_results = Raise e ->
        exists d, e = HTTPException 500 d).
Proof.
  split; [|split].
  - intros tag. apply any_match_accepts.
  - intros max_results repositories Hcli Hrepos Htol.
    now apply pattern_scan_returns.
  - intros version_pattern max_results e. apply scan_patterns_raise.
Qed.

Lemma sample_listed_tolerated (a b : list string) :
  tags_failures_are_404 (sample_env (tags_listed a b)) "org" sample_repos.
Proof.
  intros repo c d [<-|[<-|[]]]; simpl; discriminate.
Qed.

Lemma empty_pattern_is_scanned_witness :
  App.check_github_cli (sample_env (tags_listed ["0.75.5"] ["v"; ".hidden"]))
  = true
  /\ (exists r,
        App.scan_organization_for_patterns
          (sample_env (tags_listed ["0.75.5"] ["v"; ".hidden"])) "org" "" 50
        = Ok r
        /\ App.total_repositories_scanned r = length sample_repos)
  /\ App.scan_organization_for_patterns
       (sample_env (tags_timed_out ["0.75.5"])) "org" "" 50
     = Raise (HTTPException 500
                "Pattern scan failed: 500: GitHub CLI command timed out")
  /\ exists d,
       HTTPException 500
         "Pattern scan failed: 500: GitHub CLI command timed out"
       = HTTPException 500 d.
Proof.
  split; [reflexivity|]. split; [|split; [reflexivity|]].
  - exact (proj1 (proj2
             (empty_pattern_is_scanned
                (sample_env (tags_listed ["0.75.5"] ["v"; ".hidden"])) "org"))
             50%Z sample_repos eq_refl eq_refl
             (sample_listed_tolerated ["0.75.5"] ["v"; ".hidden"])).
  - exact (proj2 (proj2
             (empty_pattern_is_scanned
                (sample_env (tags_timed_out ["0.75.5"])) "org"))
             "" 50%Z _ eq_refl).
Defined.

(** C9, as stated, fails: with the empty pattern the scan raises nothing;
    it compiles its predicate, inspects the tags and returns the two tags
    of [svc-b] that the predicate accepts. *)
Lemma empty_pattern_scan_returns_matches :
  exists r,
    App.scan_organization_for_patterns
      (sample_env (tags_listed ["0.75.5"] ["v"; ".hidden"])) "org" "" 50
    = Ok r
    /\ map App.tag_name (App.tags_found r) = ["v"; ".hidden"]
    /\ App.repositories_with_tag r = 1.
Proof. eexists. split; [reflexivity|]. split; reflexivity. Qed.


(** ** Dictionaries *)

Section DictFacts.
Context {V : Type}.
Implicit Types (d other : dict V) (k : string) (v : V).

Lemma dict_get_set k k' v d :
  dict_get k (dict_set k' v d)
  = if String.eqb k' k then Some v else dict_get k d.
Proof.
  induction d as [|[k'' v''] rest IH]; simpl.
  - reflexivity.
  - destruct (String.eqb_spec k'' k') as [->|Hne]; simpl.
    + destruct (String.eqb k' k); reflexivity.
    + rewrite IH. destruct (String.eqb_spec k'' k) as [->|Hne'];
        [|reflexivity].
      destruct (String.eqb_spec k' k) as [->|_]; [congruence | reflexivity].
Qed.

Lemma keys_dict_set k v d :
  keys (dict_set k v d) = if PyStr.mem k (keys d) then keys d else keys d ++ [k].
Proof.
  unfold keys, PyStr.mem. induction d as [|[k' v'] rest IH]; simpl.
  - reflexivity.
  - rewrite (String.eqb_sym k k').
    destruct (String.eqb k' k); simpl; [reflexivity|].
    rewrite IH. now destruct (existsb (String.eqb k) (map fst rest)).
Qed.

Lemma elem_of_keys_dict_set k k' v d :
  k ∈ keys (dict_set k' v d) <-> k = k' \/ k ∈ keys d.
Proof.
  rewrite keys_dict_set. destruct (PyStr.mem k' (keys d)) eqn:E.
  - apply mem_elem_of in E. split; [auto|]. intros [->|H]; assumption.
  - rewrite elem_of_app, list_elem_of_singleton. tauto.
Qed.

Lemma NoDup_keys_dict_set k v d :
  NoDup (keys d) -> NoDup (keys (dict_set k v d)).
Proof.
  intros H. rewrite keys_dict_set. destruct (PyStr.mem k (keys d)) eqn:E;
    [assumption|].
  apply NoDup_app. split; [assumption|]. split.
  - intros x Hx Hk. apply list_elem_of_singleton in Hk as ->.
    apply mem_elem_of in Hx. congruence.
  - apply NoDup_singleton.
Qed.

Lemma dict_get_None_keys k d : dict_get k d = None <-> k ∉ keys d.
Proof.
  unfold keys. induction d as [|[k' v'] rest IH]; simpl.
  - split; [intros _; apply not_elem_of_nil | reflexivity].
  - rewrite not_elem_of_cons. destruct (String.eqb_spec k' k) as [->|Hne].
    + split; [discriminate | intros [H _]; congruence].
    + rewrite IH. split; [intros H; split; [congruence | assumption] | tauto].
Qed.

Lemma dict_get_elem_of k v d :
  NoDup (keys d) -> (k, v) ∈ d -> dict_get k d = Some v.
Proof.
  unfold keys. induction d as [|[k' v'] rest IH]; simpl; intros Hnd Hin.
  - now apply elem_of_nil in Hin.
  - apply NoDup_cons in Hnd as [Hk' Hnd].
    apply elem_of_cons in Hin as [[= <- <-]|Hin].
    + now rewrite String.eqb_refl.
    + destruct (String.eqb_spec k' k) as [->|_]; [|now apply IH].
      exfalso. apply Hk'. apply list_elem_of_fmap. now exists (k, v).
Qed.


(** After [d.update(other)] a key of [other] has the value [other] gives
    it, and every other key has the value it had. *)
Lemma dict_get_update k d other :
  NoDup (keys other) ->
  dict_get k (dict_update d other)
  = match dict_get k other with
    | Some v => Some v
    | None => dict_get k d
    end.
Proof.
  unfold dict_update. revert d.
  induction other as [|[k1 v1] rest IH]; intros d Hnd; simpl.
  - reflexivity.
  - unfold keys in Hnd. simpl in Hnd. apply NoDup_cons in Hnd as [Hk1 Hnd].
    rewrite (IH _ Hnd), dict_get_set.
    destruct (String.eqb_spec k1 k) as [->|_]; [|reflexivity].
    apply dict_get_None_keys in Hk1. now rewrite Hk1.
Qed.

Lemma elem_of_keys_update k d other :
  k ∈ keys (dict_update d other) <-> k ∈ keys d \/ k ∈ keys other.
Proof.
  unfold dict_update. revert d.
  induction other as [|[k1 v1] rest IH]; intros d; simpl.
  - rewrite elem_of_nil. tauto.
  - rewrite IH, elem_of_keys_dict_set, elem_of_cons. tauto.
Qed.

Lemma NoDup_keys_update d other :
  NoDup (keys d) -> NoDup (keys (dict_update d other)).
Proof.
  unfold dict_update. revert d.
  induction other as [|[k1 v1] rest IH]; intros d Hd; simpl; [assumption|].
  apply IH. now apply NoDup_keys_dict_set.
Qed.


End DictFacts.


(** ** [merge_scan_results] on the store *)

Section MergeStore.
Import Transformer.

Lemma allocated_not_fresh (h : gmap loc object) (l : loc) (o : object) :
  h !! l = Some o -> l <> fresh (dom h).
Proof.
  intros H ->. apply (is_fresh (dom h)). apply elem_of_dom. eauto.
Qed.

(** What the call does to the store, for two datasets that can be read
    from it: a new dataset object is returned that shares the metadata
    object of [new_data] and the tags dictionary of [existing_data], and
    that dictionary has been updated in place. *)
Lemma merge_scan_results_spec (h : gmap loc object) (existing_data new_data : loc)
    (A B : Dataset) :
  read_dataset h existing_data = Some A ->
  read_dataset h new_data = Some B ->
  exists h' merged_data,
    merge_scan_results h existing_data new_data = Some (h', merged_data)
    /\ h !! merged_data = None
    /\ read_dataset h' merged_data
       = Some {| metadata := metadata B;
                 tags := dict_update (tags A) (tags B);
                 statistics :=
                   calculate_statistics (dict_update (tags A) (tags B)) |}
    /\ read_dataset h' existing_data
       = Some {| metadata := metadata A;
                 tags := dict_update (tags A) (tags B);
                 statistics := statistics A |}.
Proof.
  intros HA HB. unfold read_dataset in HA, HB.
  destruct (h !! existing_data) as [[ma ta sa| | |]|] eqn:Ea; try discriminate.
  destruct (h !! ma) as [[|mA| |]|] eqn:Ema; try discriminate.
  destruct (h !! ta) as [[| |tA|]|] eqn:Eta; try discriminate.
  destruct (h !! sa) as [[| | |sA]|] eqn:Esa; try discriminate.
  injection HA as <-.
  destruct (h !! new_data) as [[mb tb sb| | |]|] eqn:Eb; try discriminate.
  destruct (h !! mb) as [[|mB| |]|] eqn:Emb; try discriminate.
  destruct (h !! tb) as [[| |tB|]|] eqn:Etb; try discriminate.
  destruct (h !! sb) as [[| | |sB]|] eqn:Esb; try discriminate.
  injection HB as <-. cbn [metadata tags statistics].
  unfold merge_scan_results. rewrite Ea, Eb. unfold alloc.
  set (l1 := fresh (dom h)).
  set (h2 := <[l1 := DatasetObj mb ta sa]> (<[l1 := DatasetObj ma ta sa]> h)).
  assert (forall x o, h !! x = Some o -> h2 !! x = Some o) as Hh2.
  { intros x o Hx. unfold h2.
    rewrite !lookup_insert_ne by (symmetry; eapply allocated_not_fresh; eauto).
    exact Hx. }
  rewrite (Hh2 _ _ Eta), (Hh2 _ _ Etb).
  set (tM := dict_update tA tB).
  set (h3 := <[ta := TagsObj tM]> h2).
  set (l2 := fresh (dom h3)).
  set (st := calculate_statistics tM).
  set (h5 := <[l1 := DatasetObj mb ta l2]> (<[l2 := StatisticsObj st]> h3)).
  assert (h2 !! l1 = Some (DatasetObj mb ta sa)) as Hl1
    by (unfold h2; apply lookup_insert_eq).
  assert (h3 !! l1 = Some (DatasetObj mb ta sa)) as Hl1'.
  { unfold h3. rewrite lookup_insert_ne; [exact Hl1|].
    eapply allocated_not_fresh; eauto. }
  assert (l1 <> l2) as Hl12 by (eapply allocated_not_fresh; eauto).
  assert (forall x o, h !! x = Some o -> x <> ta -> h5 !! x = Some o) as Hh5.
  { intros x o Hx Hne. unfold h5, h3.
    assert (h3 !! x = Some o) as Hx3.
    { unfold h3. rewrite lookup_insert_ne by congruence. now apply Hh2. }
    rewrite lookup_insert_ne
      by (symmetry; eapply allocated_not_fresh; eauto).
    rewrite lookup_insert_ne
      by (symmetry; eapply (allocated_not_fresh h3); eauto).
    exact Hx3. }
  assert (h5 !! ta = Some (TagsObj tM)) as Hta.
  { unfold h5.
    assert (h3 !! ta = Some (TagsObj tM)) as Hx3
      by (unfold h3; apply lookup_insert_eq).
    rewrite lookup_insert_ne
      by (symmetry; eapply allocated_not_fresh; eauto).
    rewrite lookup_insert_ne
      by (symmetry; eapply (allocated_not_fresh h3); eauto).
    exact Hx3. }
  assert (h5 !! l1 = Some (DatasetObj mb ta l2)) as H5l1
    by (unfold h5; apply lookup_insert_eq).
  assert (h5 !! l2 = Some (StatisticsObj st)) as H5l2.
  { unfold h5. rewrite lookup_insert_ne by exact Hl12.
    apply lookup_insert_eq. }
  exists h5, l1. split; [reflexivity|]. split.
  { apply not_elem_of_dom. apply is_fresh. }
  split.
  - unfold read_dataset. rewrite H5l1, Hta, H5l2.
    rewrite (Hh5 _ _ Emb) by (intros ->; congruence). reflexivity.
  - unfold read_dataset.
    rewrite (Hh5 _ _ Ea) by (intros ->; congruence).
    rewrite (Hh5 _ _ Ema) by (intros ->; congruence).
    rewrite Hta.
    rewrite (Hh5 _ _ Esa) by (intros ->; congruence). reflexivity.
Qed.

End MergeStore.


(** ** Merge engine: statements of the specification *)

Section MergeStatements.
Import Transformer.

(** C7.  Merging is right-biased per tag: the merged dataset maps every
    tag of the incoming dataset to the incoming group, every other tag to
    the group the existing dataset gave it, and its tag names are those of
    either dataset; its metadata is the incoming one. *)
Theorem merge_is_right_biased (h : gmap loc object) (existing_data new_data : loc)
    (A B : Dataset) :
  read_dataset h existing_data = Some A ->
  read_dataset h new_data = Some B ->
  NoDup (keys (tags B)) ->
  exists h' merged_data M,
    merge_scan_results h existing_data new_data = Some (h', merged_data)
    /\ read_dataset h' merged_data = Some M
    /\ (forall t g, dict_get t (tags B) = Some g -> dict_get t (tags M) = Some g)
    /\ (forall t, dict_get t (tags B) = None ->
                  dict_get t (tags M) = dict_get t (tags A))
    /\ (forall t, t ∈ keys (tags M) <-> t ∈ keys (tags A) \/ t ∈ keys (tags B))
    /\ metadata M = metadata B.
Proof.
  intros HA HB Hnd.
  destruct (merge_scan_results_spec h existing_data new_data A B HA HB)
    as (h' & merged_data & Hmerge & _ & Hread & _).
  eexists h', merged_data, _. split; [exact Hmerge|]. split; [exact Hread|].
  cbn [tags metadata]. split; [|split; [|split]].
  - intros t g Hg. now rewrite dict_get_update, Hg.
  - intros t Hg. now rewrite dict_get_update, Hg.
  - intros t. apply elem_of_keys_update.
  - reflexivity.
Qed.

Lemma sample_store_reads :
  read_dataset sample_store.1.1 sample_store.1.2 = Some sample_existing
  /\ read_dataset sample_store.1.1 sample_store.2 = Some sample_incoming.
Proof. split; vm_compute; reflexivity. Qed.

Lemma merge_is_right_biased_witness :
  NoDup (keys (tags sample_incoming))
  /\ exists h' merged_data M,
       merge_scan_results sample_store.1.1 sample_store.1.2 sample_store.2
       = Some (h', merged_data)
       /\ read_dataset h' merged_data = Some M
       /\ metadata M = metadata sample_incoming.
Proof.
  assert (NoDup (keys (tags sample_incoming))) as Hnd.
  { apply (bool_decide_unpack _). vm_compute. exact I. }
  split; [exact Hnd|].
  destruct (merge_is_right_biased sample_store.1.1 sample_store.1.2
              sample_store.2 sample_existing sample_incoming
              (proj1 sample_store_reads) (proj2 sample_store_reads) Hnd)
    as (h' & merged_data & M & Hmerge & Hread & _ & _ & _ & Hmeta).
  exists h', merged_data, M. auto.
Defined.

(** C1, evaluated on the sample store: after the call the tags dictionary
    of [existing_data] holds the tag of the incoming dataset too; the
    object passed as [existing_data] no longer reads as it did. *)
Theorem merge_updates_existing_in_place :
  exists h' merged_data,
    merge_scan_results sample_store.1.1 sample_store.1.2 sample_store.2
    = Some (h', merged_data)
    /\ option_map (fun d => keys (tags d))
         (read_dataset sample_store.1.1 sample_store.1.2) = Some ["1.0.0"]
    /\ option_map (fun d => keys (tags d))
         (read_dataset h' sample_store.1.2) = Some ["1.0.0"; "2.0.0"]
    /\ read_dataset h' sample_store.1.2
       <> read_dataset sample_store.1.1 sample_store.1.2
    /\ read_dataset h' sample_store.2
       = read_dataset sample_store.1.1 sample_store.2.
Proof.
  destruct (merge_scan_results_spec sample_store.1.1 sample_store.1.2
              sample_store.2 sample_existing sample_incoming
              (proj1 sample_store_reads) (proj2 sample_store_reads))
    as (h' & merged_data & Hmerge & _ & _ & Hexisting).
  exists h', merged_data. split; [exact Hmerge|].
  rewrite Hexisting, (proj1 sample_store_reads).
  split; [reflexivity|]. split; [reflexivity|]. split.
  - intros H.
    apply (f_equal (option_map (fun d => length (tags d)))) in H.
    vm_compute in H. discriminate H.
  - vm_compute in Hmerge. injection Hmerge as <- <-. vm_compute. reflexivity.
Qed.

End MergeStatements.


(** ** Deployment enhancement *)

Section Enhancement.
Import Transformer.

Lemma enhance_repo_name cfg (t : string) (r : RepositoryRecord) :
  repository_name (enhance_repo cfg t r) = repository_name r.
Proof.
  unfold enhance_repo.
  destruct (dict_get (repository_name r) cfg) as [rc|]; [|reflexivity].
  destruct (dict_get t _); reflexivity.
Qed.

Lemma enhance_repo_erase cfg (t : string) (r : RepositoryRecord) :
  set_deployment (enhance_repo cfg t r) "" "" = set_deployment r "" "".
Proof.
  unfold enhance_repo.
  destruct (dict_get (repository_name r) cfg) as [rc|]; [|reflexivity].
  destruct (dict_get t _); reflexivity.
Qed.

Lemma enhance_tags (d : Dataset) cfg :
  tags (enhance_with_deployment_info d cfg) = map (enhance_entry cfg) (tags d).
Proof.
  unfold enhance_with_deployment_info. cbn [tags]. rewrite map_map. reflexivity.
Qed.




End Enhancement.


(** ** Aggregation *)

Section Aggregation.
Import Transformer.


(** Grouping collects under each tag name the matches carrying it. *)
Lemma dict_get_group_fold (k : string) (l : list App.TagInfo)
    (acc : dict (list App.TagInfo)) :
  dict_get k (fold_left group_append l acc)
  = match dict_get k acc with
    | Some x => Some (x ++ tagged k l)
    | None => match tagged k l with [] => None | f => Some f end
    end.
Proof.
  revert acc. induction l as [|t rest IH]; intros acc; cbn [fold_left].
  - cbn. destruct (dict_get k acc); [now rewrite app_nil_r | reflexivity].
  - rewrite IH. unfold group_append. rewrite dict_get_set.
    unfold tagged. cbn [List.filter].
    destruct (String.eqb_spec (App.tag_name t) k) as [Hk|Hne].
    + rewrite Hk. destruct (dict_get k acc) as [x|].
      * now rewrite <- app_assoc.
      * reflexivity.
    + reflexivity.
Qed.

Lemma NoDup_keys_group_fold (l : list App.TagInfo)
    (acc : dict (list App.TagInfo)) :
  NoDup (keys acc) -> NoDup (keys (fold_left group_append l acc)).
Proof.
  revert acc. induction l as [|t rest IH]; intros acc Hacc; cbn [fold_left];
    [assumption|].
  apply IH. unfold group_append. now apply NoDup_keys_dict_set.
Qed.

Lemma group_by_tag_entries (l : list App.TagInfo) (k : string)
    (infos : list App.TagInfo) :
  (k, infos) ∈ group_by_tag l -> infos = tagged k l.
Proof.
  intros Hin. unfold group_by_tag in Hin.
  apply dict_get_elem_of in Hin;
    [|apply NoDup_keys_group_fold; apply NoDup_nil_2].
  rewrite dict_get_group_fold in Hin. cbn [dict_get] in Hin.
  destruct (tagged k l); [discriminate | congruence].
Qed.



End Aggregation.


(** ** Aggregation, merge and enhancement: statements of the specification *)

Section DatasetStatements.
Import Transformer.

Lemma transform_api_response_inv (schema_version now : string)
    (api_response : App.ScanResult) (organization : option string)
    (scan_type : string) (d : Dataset) :
  transform_api_response schema_version now api_response organization scan_type
    = Ok d ->
  transform_groups (group_by_tag (App.tags_found api_response)) [] = Ok (tags d)
  /\ statistics d = calculate_statistics (tags d).
Proof.
  unfold transform_api_response. cbv zeta. intros H.
  apply bind_inv in H as (tags_dict & Hgroups & H). injection H as <-.
  split; [exact Hgroups | reflexivity].
Qed.




(** C10.  The deployment enhancement changes nothing but the deployment
    annotations: with the [deployment_status] and [environment] of the
    records and the [deployment_environments] of the summaries blanked,
    the dataset returned is the dataset passed; in particular the
    metadata, the statistics, the tag names and their order, and the
    number of records of each group are unchanged. *)
Theorem enhancement_changes_deployment_only (d : Dataset)
    (deployment_config : dict DeploymentConfig.RepoConfig) :
  erase_deployment (enhance_with_deployment_info d deployment_config)
  = erase_deployment d
  /\ metadata (enhance_with_deployment_info d deployment_config) = metadata d
  /\ statistics (enhance_with_deployment_info d deployment_config)
     = statistics d
  /\ keys (tags (enhance_with_deployment_info d deployment_config))
     = keys (tags d)
  /\ map (fun kv => length (repositories (snd kv)))
       (tags (enhance_with_deployment_info d deployment_config))
     = map (fun kv => length (repositories (snd kv))) (tags d).
Proof.
  split; [|split; [reflexivity|split; [reflexivity|split]]].
  - unfold erase_deployment. rewrite enhance_tags. f_equal.
    rewrite map_map. apply map_ext. intros [k g].
    unfold enhance_entry, erase_deployment_group. cbn. f_equal. f_equal.
    rewrite map_map. apply map_ext. intros r. apply enhance_repo_erase.
  - rewrite enhance_tags. unfold keys. rewrite map_map. reflexivity.
  - rewrite enhance_tags, map_map. apply map_ext. intros [k g].
    cbn. apply length_map.
Qed.

(** The enhancement on the sample: the record of [svc-a] under ["2.0.0"]
    is annotated from the configuration, the record of [svc-b], absent
    from it, keeps ["unknown"]. *)
Example enhancement_of_sample :
  map (fun kv =>
         (fst kv,
          map (fun r => (repository_name r, deployment_status r, environment r))
              (repositories (snd kv))))
      (tags (enhance_with_deployment_info sample_incoming sample_deployment))
  = [("2.0.0", [("svc-a", "deployed", "production");
                ("svc-b", "unknown", "unknown")])].
Proof. vm_compute. reflexivity. Qed.





End DatasetStatements.


(** ** The aggregation rules *)

Section AggregationRules.
Import Transformer.

Lemma max_key_from_keeps (tag_counts : dict nat) (best : string)
    (rest : list string) :
  (forall x, x ∈ rest ->
             default 0 (dict_get x tag_counts)
             <= default 0 (dict_get best tag_counts)) ->
  max_key_from tag_counts best rest = best.
Proof.
  induction rest as [|x rest IH]; intros H; cbn [max_key_from];
    [reflexivity|].
  assert (default 0 (dict_get x tag_counts)
          <= default 0 (dict_get best tag_counts)) as Hx
    by (apply H; apply elem_of_cons; now left).
  apply Nat.ltb_ge in Hx. rewrite Hx. apply IH.
  intros y Hy. apply H. apply elem_of_cons. now right.
Qed.

Lemma max_key_from_finds (tag_counts : dict nat) (before : list string)
    (best k : string) (after : list string) :
  default 0 (dict_get best tag_counts) < default 0 (dict_get k tag_counts) ->
  (forall x, x ∈ before ->
             default 0 (dict_get x tag_counts)
             < default 0 (dict_get k tag_counts)) ->
  (forall x, x ∈ after ->
             default 0 (dict_get x tag_counts)
             <= default 0 (dict_get k tag_counts)) ->
  max_key_from tag_counts best (before ++ k :: after) = k.
Proof.
  revert best. induction before as [|x before IH]; intros best Hbest Hb Ha.
  - cbn [app max_key_from]. apply Nat.ltb_lt in Hbest. rewrite Hbest.
    now apply max_key_from_keeps.
  - cbn [app max_key_from]. apply IH; [|intros y Hy|assumption].
    + match goal with
      | |- context [if ?c then _ else _] => destruct c
      end; [|assumption].
      apply Hb. apply elem_of_cons. now left.
    + apply Hb. apply elem_of_cons. now right.
Qed.

Lemma keys_app {V : Type} (a b : dict V) : keys (a ++ b) = keys a ++ keys b.
Proof. unfold keys. apply map_app. Qed.

Lemma elem_of_keys {V : Type} (k : string) (d : dict V) :
  k ∈ keys d -> exists v, (k, v) ∈ d.
Proof.
  unfold keys. intros H. apply list_elem_of_In, in_map_iff in H
    as ([k' v] & Hk & Hin). cbn in Hk. subst k'.
  exists v. now apply list_elem_of_In.
Qed.

(** [max(tag_counts, key=tag_counts.get)] is the first key whose count is
    greatest: every earlier key has a smaller count and no later key has a
    greater one. *)
Lemma max_key_first_greatest (tag_counts before : dict nat) (k : string)
    (n : nat) (after : dict nat) :
  NoDup (keys tag_counts) ->
  tag_counts = before ++ (k, n) :: after ->
  Forall (fun kv => snd kv < n) before ->
  Forall (fun kv => snd kv <= n) after ->
  max_key tag_counts = k.
Proof.
  intros Hnd Heq Hbefore Hafter.
  assert (forall x m, (x, m) ∈ tag_counts ->
                      default 0 (dict_get x tag_counts) = m) as Hget.
  { intros x m Hin. now rewrite (dict_get_elem_of _ _ _ Hnd Hin). }
  assert (default 0 (dict_get k tag_counts) = n) as Hk.
  { apply Hget. rewrite Heq. apply elem_of_app. right.
    apply elem_of_cons. now left. }
  assert (forall x, x ∈ keys before ->
            default 0 (dict_get x tag_counts) < n) as Hb.
  { intros x Hx. apply elem_of_keys in Hx as [m Hm].
    rewrite (Hget x m) by (rewrite Heq; apply elem_of_app; now left).
    rewrite Forall_forall in Hbefore. exact (Hbefore _ Hm). }
  assert (forall x, x ∈ keys after ->
            default 0 (dict_get x tag_counts) <= n) as Ha.
  { intros x Hx. apply elem_of_keys in Hx as [m Hm].
    rewrite (Hget x m)
      by (rewrite Heq; apply elem_of_app; right; apply elem_of_cons;
          now right).
    rewrite Forall_forall in Hafter. exact (Hafter _ Hm). }
  unfold max_key.
  replace (keys tag_counts) with (keys before ++ k :: keys after)
    by (rewrite Heq, keys_app; reflexivity).
  destruct before as [|[k0 n0] before'].
  - cbn [keys map app]. apply max_key_from_keeps.
    intros x Hx. rewrite Hk. now apply Ha.
  - cbn [keys map app]. apply max_key_from_finds; rewrite Hk.
    + apply Hb. apply elem_of_cons. now left.
    + intros x Hx. apply Hb. apply elem_of_cons. now right.
    + exact Ha.
Qed.

(** The statistics in the terms of the aggregation rules: the number of
    tags, the number of distinct repository names over all groups, and as
    most common tag the first tag name of greatest [total_repositories]. *)
Lemma calculate_statistics_rules (tags_dict : dict TagGroup) :
  total_unique_tags (calculate_statistics tags_dict) = length tags_dict
  /\ total_repositories_with_tags (calculate_statistics tags_dict)
     = distinct_count
         (map repository_name
            (flat_map (fun kv => repositories (snd kv)) tags_dict))
  /\ (forall before k g after,
        NoDup (keys tags_dict) ->
        tags_dict = before ++ (k, g) :: after ->
        Forall (fun kv => total_repositories (summary (snd kv))
                          < total_repositories (summary g)) before ->
        Forall (fun kv => total_repositories (summary (snd kv))
                          <= total_repositories (summary g)) after ->
        most_common_tag (calculate_statistics tags_dict) = k)
  /\ (tags_dict = [] -> most_common_tag (calculate_statistics tags_dict) = "").
Proof.
  split; [reflexivity|]. split; [apply length_distinct|]. split.
  - intros before k g after Hnd Heq Hb Ha. cbn [calculate_statistics most_common_tag].
    set (count := fun kv : string * TagGroup =>
                    (fst kv, total_repositories (summary (snd kv)))).
    apply (max_key_first_greatest _ (map count before) k
             (total_repositories (summary g)) (map count after)).
    + unfold keys. rewrite map_map. exact Hnd.
    + rewrite Heq, map_app. reflexivity.
    + rewrite Forall_map. exact Hb.
    + rewrite Forall_map. exact Ha.
  - intros ->. reflexivity.
Qed.

(** Two matches tagged ["2.0.0"], committed in January and in March: the
    latest commit date of the group is the one of March. *)
Example latest_commit_date_of_group :
  map (fun kv => (fst kv, latest_commit_date (summary (snd kv))))
      (tags (sample_dataset "2024-06-01T12:00:00"
               [sample_match "2.0.0" "svc-a" "2024-01-01T00:00:00Z";
                sample_match "2.0.0" "svc-b" "2024-03-01T00:00:00Z"]))
  = [("2.0.0", "2024-03-01T00:00:00Z")].
Proof. vm_compute. reflexivity. Qed.

(** [svc-a] carries ["0.75.5"], [svc-b] carries ["1.0.0"]: the exact scan
    for ["0.75.5"] yields one match, of [svc-a], over two repositories. *)
Example exact_scan_scenario :
  exists r,
    App.scan_organization_for_tag
      (sample_env (tags_listed ["0.75.5"] ["1.0.0"])) "org" "0.75.5" true
    = Ok r
    /\ map App.repository_name (App.tags_found r) = ["svc-a"]
    /\ App.repositories_with_tag r = 1
    /\ App.total_repositories_scanned r = 2.
Proof. eexists. split; [reflexivity|]. repeat split; reflexivity. Qed.

(** A match without commit metadata cannot be aggregated:
    [_extract_email_from_author] is applied to [None]. *)
Example aggregation_of_degraded_match :
  transform_api_response "1.0.0" "2024-06-01T12:00:00"
    (sample_scan [App.make_tag_info "1.0.0" None "svc-a" "https://github.com/org/svc-a"])
    (Some "org") "specific_tag"
  = Raise (TypeError "argument of type 'NoneType' is not iterable").
Proof. reflexivity. Qed.

End AggregationRules.


(** * Further properties of the scan engine *)

Section ScanMatches.
Variable env : App.Env.
Variable org_name : string.

Lemma get_tag_commit_info_make (repo_name repo_url tag : string)
    (info : option App.CommitInfo) :
  App.repository_name (App.make_tag_info tag info repo_name repo_url) = repo_name
  /\ App.repository_url (App.make_tag_info tag info repo_name repo_url) = repo_url
  /\ App.tag_name (App.make_tag_info tag info repo_name repo_url) = tag
  /\ App.tag_url (App.make_tag_info tag info repo_name repo_url)
     = repo_url +:+ "/releases/tag/" +:+ tag
  /\ App.repository_path (App.make_tag_info tag info repo_name repo_url) = None.
Proof. repeat split. Qed.

Lemma scan_window_matches (patterns : list string)
    (repo_name repo_url : string) (max_results : Z) (tags : list string) :
  forall found_tags found,
    App.scan_window env org_name repo_name repo_url patterns max_results
      tags found_tags = Ok found ->
    exists new,
      found = found_tags ++ new
      /\ (Z.of_nat (length found)
          <= Z.max (Z.of_nat (length found_tags)) max_results)%Z
      /\ Forall (window_match patterns repo_name repo_url tags) new.
Proof.
  induction tags as [|tag rest IH]; intros found_tags found;
    cbn [App.scan_window].
  - intros [= <-]. exists []. rewrite app_nil_r. repeat split; [lia|constructor].
  - destruct (max_results <=? Z.of_nat (length found_tags))%Z eqn:Ecap.
    + intros [= <-]. exists []. rewrite app_nil_r.
      repeat split; [lia|constructor].
    + apply Z.leb_gt in Ecap. intros H.
      apply bind_inv in H as (matched & Hmatch & H).
      assert (forall new, Forall (window_match patterns repo_name repo_url rest) new ->
                Forall (window_match patterns repo_name repo_url (tag :: rest)) new)
        as Hweaken.
      { intros new Hnew. eapply Forall_impl; [exact Hnew|].
        intros t (H1 & H2 & H3 & H4 & H5). repeat split; try assumption.
        now right. }
      destruct matched.
      * apply bind_inv in H as (info & _ & H).
        apply IH in H as (new & -> & Hlen & Hnew).
        exists (App.make_tag_info tag info repo_name repo_url :: new).
        split; [now rewrite <- app_assoc|]. split.
        { rewrite length_app in Hlen. cbn [length] in Hlen.
          rewrite !length_app in *. cbn [length] in *. lia. }
        constructor; [|now apply Hweaken].
        repeat split; [now left | exact Hmatch].
      * apply IH in H as (new & -> & Hlen & Hnew).
        exists new. repeat split; [lia | now apply Hweaken].
Qed.

Lemma scan_patterns_loop_matches (patterns : list string) (max_results : Z)
    (repositories : list App.Repo) :
  forall found_tags found,
    App.scan_patterns_loop env org_name patterns max_results repositories
      found_tags = Ok found ->
    exists new,
      found = found_tags ++ new
      /\ (Z.of_nat (length found)
          <= Z.max (Z.of_nat (length found_tags)) max_results)%Z
      /\ Forall (pattern_match env org_name patterns repositories) new.
Proof.
  induction repositories as [|repo rest IH]; intros found_tags found;
    cbn [App.scan_patterns_loop].
  - intros [= <-]. exists []. rewrite app_nil_r. repeat split; [lia|constructor].
  - assert (forall new, Forall (pattern_match env org_name patterns rest) new ->
              Forall (pattern_match env org_name patterns (repo :: rest)) new) as Hweaken.
    { intros new Hnew. eapply Forall_impl; [exact Hnew|].
      intros t (r & tags & Hin & Hrest). exists r, tags. split; [now right|].
      exact Hrest. }
    destruct (PyStr.truthy (App.name repo)) eqn:Hname; cbn [negb orb].
    + destruct (max_results <=? Z.of_nat (length found_tags))%Z.
      * intros H. apply IH in H as (new & -> & Hlen & Hnew).
        exists new. repeat split; [lia | now apply Hweaken].
      * intros H. apply bind_inv in H as (tags & Htags & H).
        apply bind_inv in H as (found' & Hwin & H).
        apply scan_window_matches in Hwin as (new1 & -> & Hlen1 & Hnew1).
        apply IH in H as (new2 & -> & Hlen2 & Hnew2).
        exists (new1 ++ new2). split; [now rewrite app_assoc|]. split; [lia|].
        apply Forall_app. split; [|now apply Hweaken].
        eapply Forall_impl; [exact Hnew1|].
        intros t Ht. exists repo, tags. split; [now left|]. auto.
    + intros H. apply IH in H as (new & -> & Hlen & Hnew).
      exists new. repeat split; [lia | now apply Hweaken].
Qed.

End ScanMatches.

Section ExactMatches.
Variable env : App.Env.
Variable org_name : string.

Lemma check_patterns_hit (repo_name repo_url : string)
    (tags patterns : list string) (hit : list App.TagInfo) :
  App.check_patterns env org_name repo_name repo_url tags patterns = Ok hit ->
  match List.find (fun p => PyStr.mem p tags) patterns with
  | Some p => exists info, hit = [App.make_tag_info p info repo_name repo_url]
  | None => hit = []
  end.
Proof.
  rewrite check_patterns_first.
  destruct (List.find _ patterns) as [p|].
  - intros H. apply bind_inv in H as (info & _ & [= <-]). eauto.
  - now intros [= <-].
Qed.

Lemma scan_tag_loop_matches (patterns : list string)
    (repositories : list App.Repo) :
  forall found_tags found,
    App.scan_tag_loop env org_name patterns repositories found_tags = Ok found ->
    exists new,
      found = found_tags ++ new
      /\ Forall (exact_match env org_name patterns repositories) new
      /\ (forall repo tags p,
            In repo repositories ->
            PyStr.truthy (App.name repo) = true ->
            App.get_repository_tags env org_name (App.name repo) = Ok tags ->
            List.find (fun q => PyStr.mem q tags) patterns = Some p ->
            exists t, In t new
                      /\ App.repository_name t = App.name repo
                      /\ App.tag_name t = p).
Proof.
  induction repositories as [|repo rest IH]; intros found_tags found;
    cbn [App.scan_tag_loop].
  - intros [= <-]. exists []. rewrite app_nil_r.
    repeat split; [constructor | intros ? ? ? []].
  - assert (forall new, Forall (exact_match env org_name patterns rest) new ->
              Forall (exact_match env org_name patterns (repo :: rest)) new)
      as Hweaken.
    { intros new Hnew. eapply Forall_impl; [exact Hnew|].
      intros t (r & tags & Hin & Hrest). exists r, tags. split; [now right|].
      exact Hrest. }
    destruct (PyStr.truthy (App.name repo)) eqn:Hname; cbn [negb].
    + intros H. apply bind_inv in H as (tags & Htags & H).
      apply bind_inv in H as (hit & Hhit & H).
      apply IH in H as (new & -> & Hnew & Hall).
      apply check_patterns_hit in Hhit.
      exists (hit ++ new). split; [now rewrite app_assoc|]. split.
      * apply Forall_app. split; [|now apply Hweaken].
        destruct (List.find _ patterns) as [p|] eqn:Efind.
        -- destruct Hhit as [info ->]. constructor; [|constructor].
           exists repo, tags. split; [now left|]. repeat split; assumption.
        -- subst hit. constructor.
      * intros r tags' p [<-|Hin] Hr Htags' Hfind.
        -- rewrite Htags in Htags'. injection Htags' as <-.
           rewrite Hfind in Hhit. destruct Hhit as [info ->].
           eexists. split; [apply in_or_app; left; now left|]. split; reflexivity.
        -- destruct (Hall r tags' p Hin Hr Htags' Hfind) as (t & Ht & Hrest).
           exists t. split; [apply in_or_app; now right | exact Hrest].
    + intros H. apply IH in H as (new & -> & Hnew & Hall).
      exists new. split; [reflexivity|]. split; [now apply Hweaken|].
      intros r tags p [<-|Hin] Hr; [congruence|]. now apply Hall.
Qed.

Lemma scan_tag_inv (tag_version : string) (include_patterns : bool)
    (r : App.ScanResult) :
  App.scan_organization_for_tag env org_name tag_version include_patterns = Ok r ->
  App.check_github_cli env = true
  /\ exists repositories,
       App.get_repositories env org_name = Ok repositories
       /\ App.scan_tag_loop env org_name
            (App.tag_patterns tag_version include_patterns) repositories []
          = Ok (App.tags_found r)
       /\ App.total_repositories_scanned r = length repositories
       /\ App.repositories_with_tag r = length (App.tags_found r).
Proof.
  unfold App.scan_organization_for_tag.
  destruct (App.check_github_cli env); cbn [negb]; [|discriminate].
  destruct (App.get_repositories env org_name) as [repos|e]; [|discriminate].
  rewrite bind_ok. cbv zeta.
  destruct (App.scan_tag_loop env org_name _ repos []) as [found|e] eqn:Hloop;
    [|discriminate].
  rewrite bind_ok. cbn. intros [= <-]. split; [reflexivity|].
  exists repos. repeat split. exact Hloop.
Qed.

Lemma scan_patterns_inv (version_pattern : string) (max_results : Z)
    (r : App.ScanResult) :
  App.scan_organization_for_patterns env org_name version_pattern max_results
    = Ok r ->
  App.check_github_cli env = true
  /\ exists repositories,
       App.get_repositories env org_name = Ok repositories
       /\ App.scan_patterns_loop env org_name
            (App.regex_patterns version_pattern) max_results repositories []
          = Ok (App.tags_found r)
       /\ App.total_repositories_scanned r = length repositories
       /\ App.repositories_with_tag r
          = length (PyStr.distinct
                      (map App.repository_name (App.tags_found r))).
Proof.
  unfold App.scan_organization_for_patterns.
  destruct (App.check_github_cli env); cbn [negb]; [|discriminate].
  destruct (App.get_repositories env org_name) as [repos|e]; [|discriminate].
  rewrite bind_ok. cbv zeta.
  destruct (App.scan_patterns_loop env org_name _ max_results repos [])
    as [found|e] eqn:Hloop; [|discriminate].
  rewrite bind_ok. cbn. intros [= <-]. split; [reflexivity|].
  exists repos. repeat split. exact Hloop.
Qed.

End ExactMatches.

Section PatternLoop.
Variable env : App.Env.
Variable org_name : string.

Lemma scan_window_complete (patterns : list string)
    (repo_name repo_url : string) (max_results : Z) (tags : list string) :
  forall found_tags found,
    App.scan_window env org_name repo_name repo_url patterns max_results
      tags found_tags = Ok found ->
    (Z.of_nat (length found) < max_results)%Z ->
    forall tag,
      In tag tags ->
      App.any_match patterns tag = Ok true ->
      exists t, In t found
                /\ App.tag_name t = tag /\ App.repository_name t = repo_name.
Proof.
  induction tags as [|tag rest IH]; intros found_tags found;
    cbn [App.scan_window]; [intros _ _ ? []|].
  destruct (max_results <=? Z.of_nat (length found_tags))%Z eqn:Ecap.
  - apply Z.leb_le in Ecap. intros [= <-]. lia.
  - intros H Hlen tag0 Hin Hacc.
    apply bind_inv in H as (matched & Hmatch & H).
    destruct matched.
    + apply bind_inv in H as (info & _ & H).
      destruct Hin as [<-|Hin]; [|now apply (IH _ _ H Hlen)].
      apply scan_window_matches in H as (new & -> & _).
      exists (App.make_tag_info tag info repo_name repo_url).
      split; [|split; reflexivity].
      apply in_or_app. left. apply in_or_app. right. now left.
    + destruct Hin as [<-|Hin]; [congruence|]. now apply (IH _ _ H Hlen).
Qed.

Lemma scan_patterns_loop_complete (patterns : list string) (max_results : Z)
    (repositories : list App.Repo) :
  forall found_tags found,
    App.scan_patterns_loop env org_name patterns max_results repositories
      found_tags = Ok found ->
    (Z.of_nat (length found) < max_results)%Z ->
    forall repo tags tag,
      In repo repositories ->
      PyStr.truthy (App.name repo) = true ->
      App.get_repository_tags env org_name (App.name repo) = Ok tags ->
      In tag (firstn 10 tags) ->
      App.any_match patterns tag = Ok true ->
      exists t, In t found
                /\ App.tag_name t = tag
                /\ App.repository_name t = App.name repo.
Proof.
  induction repositories as [|repo rest IH]; intros found_tags found;
    cbn [App.scan_patterns_loop]; [intros _ _ ? ? ? []|].
  intros H Hlen r tags tag Hin Hname Htags Htag Hacc.
  destruct (PyStr.truthy (App.name repo)) eqn:Hrepo; cbn [negb orb] in H.
  - destruct (max_results <=? Z.of_nat (length found_tags))%Z eqn:Ecap.
    + apply Z.leb_le in Ecap.
      apply scan_patterns_loop_matches in H as (new & -> & _).
      rewrite length_app in Hlen. lia.
    + apply bind_inv in H as (tags' & Htags' & H).
      apply bind_inv in H as (found' & Hwin & H).
      destruct Hin as [<-|Hin]; [|now apply (IH _ _ H Hlen r tags tag)].
      rewrite Htags in Htags'. injection Htags' as <-.
      pose proof H as Hrest.
      apply scan_patterns_loop_matches in Hrest as (new & -> & _).
      destruct (scan_window_complete _ _ _ _ _ _ _ Hwin) with (tag := tag)
        as (t & Ht & Hrest); [rewrite length_app in Hlen; lia|assumption..|].
      exists t. split; [apply in_or_app; now left | exact Hrest].
  - destruct Hin as [<-|Hin]; [congruence|].
    now apply (IH _ _ H Hlen r tags tag).
Qed.

Lemma scan_patterns_loop_capped (patterns : list string) (max_results : Z)
    (repositories : list App.Repo) (found_tags : list App.TagInfo) :
  (max_results <= Z.of_nat (length found_tags))%Z ->
  App.scan_patterns_loop env org_name patterns max_results repositories
    found_tags = Ok found_tags.
Proof.
  intros Hcap. induction repositories as [|repo rest IH];
    cbn [App.scan_patterns_loop]; [reflexivity|].
  apply Z.leb_le in Hcap. rewrite Hcap, orb_true_r. exact IH.
Qed.

Lemma scan_patterns_loop_app (patterns : list string) (max_results : Z)
    (before after : list App.Repo) :
  forall found_tags,
    App.scan_patterns_loop env org_name patterns max_results
      (before ++ after) found_tags
    = (found ← App.scan_patterns_loop env org_name patterns max_results
                 before found_tags;
       App.scan_patterns_loop env org_name patterns max_results after found).
Proof.
  induction before as [|repo rest IH]; intros found_tags;
    cbn [app App.scan_patterns_loop]; [reflexivity|].
  destruct (negb (PyStr.truthy (App.name repo))
            || (max_results <=? Z.of_nat (length found_tags))%Z); [apply IH|].
  destruct (App.get_repository_tags env org_name (App.name repo)) as [tags|e];
    [rewrite !bind_ok|reflexivity].
  destruct (App.scan_window env org_name (App.name repo) (App.url repo)
              patterns max_results (firstn 10 tags) found_tags) as [found'|e];
    [rewrite !bind_ok; apply IH | reflexivity].
Qed.

Lemma scan_tag_loop_raise (patterns : list string)
    (repositories : list App.Repo) (e : exception) :
  forall found_tags,
    App.scan_tag_loop env org_name patterns repositories found_tags = Raise e ->
    exists repo,
      In repo repositories /\ PyStr.truthy (App.name repo) = true
      /\ App.get_repository_tags env org_name (App.name repo) = Raise e.
Proof.
  induction repositories as [|repo rest IH]; intros found_tags;
    cbn [App.scan_tag_loop]; [discriminate|].
  assert (forall ft, App.scan_tag_loop env org_name patterns rest ft = Raise e ->
            exists r, In r (repo :: rest) /\ PyStr.truthy (App.name r) = true
              /\ App.get_repository_tags env org_name (App.name r) = Raise e)
    as Hrest.
  { intros ft H. apply IH in H as (r & Hin & Hr). exists r.
    split; [now right | exact Hr]. }
  destruct (PyStr.truthy (App.name repo)) eqn:Hname; cbn [negb];
    [|apply Hrest].
  destruct (App.get_repository_tags env org_name (App.name repo))
    as [tags|e'] eqn:Htags.
  - rewrite bind_ok.
    destruct (check_patterns_total env org_name (App.name repo) (App.url repo)
                tags patterns) as (hit & -> & _).
    rewrite bind_ok. apply Hrest.
  - rewrite bind_raise. intros [= <-]. exists repo.
    split; [now left|]. split; assumption.
Qed.

Lemma scan_patterns_loop_raise (pattern : string) (max_results : Z)
    (repositories : list App.Repo) (e : exception) :
  forall found_tags,
    App.scan_patterns_loop env org_name (App.regex_patterns pattern)
      max_results repositories found_tags = Raise e ->
    exists repo,
      In repo repositories /\ PyStr.truthy (App.name repo) = true
      /\ App.get_repository_tags env org_name (App.name repo) = Raise e.
Proof.
  induction repositories as [|repo rest IH]; intros found_tags;
    cbn [App.scan_patterns_loop]; [discriminate|].
  assert (forall ft,
            App.scan_patterns_loop env org_name (App.regex_patterns pattern)
              max_results rest ft = Raise e ->
            exists r, In r (repo :: rest) /\ PyStr.truthy (App.name r) = true
              /\ App.get_repository_tags env org_name (App.name r) = Raise e)
    as Hrest.
  { intros ft H. apply IH in H as (r & Hin & Hr). exists r.
    split; [now right | exact Hr]. }
  destruct (PyStr.truthy (App.name repo)) eqn:Hname; cbn [negb orb];
    [|apply Hrest].
  destruct (max_results <=? Z.of_nat (length found_tags))%Z; [apply Hrest|].
  destruct (App.get_repository_tags env org_name (App.name repo))
    as [tags|e'] eqn:Htags.
  - rewrite bind_ok.
    destruct (scan_window_ok env org_name pattern (App.name repo)
                (App.url repo) max_results (firstn 10 tags) found_tags)
      as [found' ->].
    rewrite bind_ok. apply Hrest.
  - rewrite bind_raise. intros [= <-]. exists repo.
    split; [now left|]. split; assumption.
Qed.

End PatternLoop.

(** ** The organization scans: further statements *)

Lemma distinct_count_le (l k : list string) :
  (forall x, In x l -> In x k) -> distinct_count l <= length k.
Proof.
  intros Hsub. unfold distinct_count, size, set_size. cbn.
  apply submseteq_length, NoDup_submseteq; [apply NoDup_elements|].
  intros x Hx. apply elem_of_elements, elem_of_list_to_set in Hx.
  apply list_elem_of_In, Hsub, list_elem_of_In, Hx.
Qed.

(** X1.  A pattern scan returns at most [max_results] matches, and none
    when [max_results] is zero or negative. *)
Theorem pattern_scan_respects_cap (env : App.Env)
    (org_name version_pattern : string) (max_results : Z)
    (r : App.ScanResult) :
  App.scan_organization_for_patterns env org_name version_pattern max_results
    = Ok r ->
  (Z.of_nat (length (App.tags_found r)) <= Z.max 0 max_results)%Z.
Proof.
  intros H. apply scan_patterns_inv in H as (_ & repos & _ & Hloop & _).
  apply scan_patterns_loop_matches in Hloop as (new & _ & Hlen & _).
  exact Hlen.
Qed.

Lemma pattern_scan_respects_cap_witness :
  exists r,
    App.scan_organization_for_patterns
      (sample_env (tags_listed ["1.2.0"; "1.2.1"; "v1.2.3"] ["1.2.5"]))
      "org" "1.2" 2 = Ok r
    /\ map App.tag_name (App.tags_found r) = ["1.2.0"; "1.2.1"]
    /\ (Z.of_nat (length (App.tags_found r)) <= Z.max 0 2)%Z.
Proof.
  eexists. split; [vm_compute; reflexivity|]. split; [reflexivity|].
  apply (pattern_scan_respects_cap
           (sample_env (tags_listed ["1.2.0"; "1.2.1"; "v1.2.3"] ["1.2.5"]))
           "org" "1.2" 2).
  vm_compute. reflexivity.
Defined.

(** X2.  Once the matches collected over the first repositories reach
    [max_results], the pattern scan returns them: the remaining
    repositories are not queried, so that a tag listing that would fail
    among them does not fail the scan. *)
Theorem pattern_scan_stops_at_cap (env : App.Env)
    (org_name version_pattern : string) (max_results : Z)
    (before after : list App.Repo) (found : list App.TagInfo) :
  App.check_github_cli env = true ->
  App.get_repositories env org_name = Ok (before ++ after) ->
  App.scan_patterns_loop env org_name (App.regex_patterns version_pattern)
    max_results before [] = Ok found ->
  (max_results <= Z.of_nat (length found))%Z ->
  exists r,
    App.scan_organization_for_patterns env org_name version_pattern max_results
      = Ok r
    /\ App.tags_found r = found
    /\ App.total_repositories_scanned r = length (before ++ after).
Proof.
  intros Hcli Hrepos Hloop Hcap.
  unfold App.scan_organization_for_patterns.
  rewrite Hcli, Hrepos. cbn [negb]. rewrite bind_ok. cbv zeta.
  rewrite scan_patterns_loop_app, Hloop, bind_ok.
  rewrite (scan_patterns_loop_capped _ _ _ _ _ _ Hcap), bind_ok.
  eexists. split; [reflexivity|]. split; reflexivity.
Qed.

Lemma pattern_scan_stops_at_cap_witness :
  exists r,
    App.scan_organization_for_patterns
      (sample_env (tags_then_timeout ["1.2.0"; "1.2.1"])) "org" "1.2" 1 = Ok r
    /\ map App.tag_name (App.tags_found r) = ["1.2.0"]
    /\ App.total_repositories_scanned r = 2.
Proof.
  destruct (pattern_scan_stops_at_cap
              (sample_env (tags_then_timeout ["1.2.0"; "1.2.1"])) "org" "1.2" 1
              [ {| App.name := "svc-a";
                   App.url := "https://github.com/org/svc-a" |} ]
              [ {| App.name := "svc-b";
                   App.url := "https://github.com/org/svc-b" |} ]
              [sample_match "1.2.0" "svc-a" "2024-01-01T00:00:00Z"])
    as (r & Hr & Hfound & Htotal).
  - reflexivity.
  - reflexivity.
  - vm_compute. reflexivity.
  - vm_compute. discriminate.
  - exists r. split; [exact Hr|]. split; [now rewrite Hfound | exact Htotal].
Defined.

(** X3.  Every match of a pattern scan comes from a named repository of
    the listing: its tag is one of the first ten tags listed for that
    repository, one of the four patterns matches it, and the match
    carries the name and URL of the repository and the release URL of
    the tag. *)
Theorem pattern_scan_matches_sound (env : App.Env)
    (org_name version_pattern : string) (max_results : Z)
    (r : App.ScanResult) :
  App.scan_organization_for_patterns env org_name version_pattern max_results
    = Ok r ->
  exists repositories,
    App.get_repositories env org_name = Ok repositories
    /\ Forall (pattern_match env org_name (App.regex_patterns version_pattern)
                 repositories)
         (App.tags_found r).
Proof.
  intros H. apply scan_patterns_inv in H as (_ & repos & Hrepos & Hloop & _).
  exists repos. split; [exact Hrepos|].
  apply scan_patterns_loop_matches in Hloop as (new & Hnew & _ & Hall).
  rewrite Hnew. exact Hall.
Qed.

Lemma pattern_scan_matches_sound_witness :
  exists r,
    App.scan_organization_for_patterns
      (sample_env (tags_listed ["1.2.0"; "2.0.0"] ["v1.2"])) "org" "1.2" 50
    = Ok r
    /\ map App.tag_name (App.tags_found r) = ["1.2.0"; "v1.2"]
    /\ exists repositories,
         App.get_repositories
           (sample_env (tags_listed ["1.2.0"; "2.0.0"] ["v1.2"])) "org"
         = Ok repositories
         /\ Forall (pattern_match
                      (sample_env (tags_listed ["1.2.0"; "2.0.0"] ["v1.2"]))
                      "org" (App.regex_patterns "1.2") repositories)
              (App.tags_found r).
Proof.
  eexists. split; [vm_compute; reflexivity|]. split; [reflexivity|].
  apply (pattern_scan_matches_sound
           (sample_env (tags_listed ["1.2.0"; "2.0.0"] ["v1.2"]))
           "org" "1.2" 50).
  vm_compute. reflexivity.
Defined.

(** X4.  A pattern scan that returns fewer than [max_results] matches
    has missed nothing within its window: each of the first ten tags of
    each named repository that a pattern matches is among the matches. *)
Theorem pattern_scan_complete_below_cap (env : App.Env)
    (org_name version_pattern : string) (max_results : Z)
    (r : App.ScanResult) (repositories : list App.Repo) (repo : App.Repo)
    (tags : list string) (tag : string) :
  App.scan_organization_for_patterns env org_name version_pattern max_results
    = Ok r ->
  (Z.of_nat (length (App.tags_found r)) < max_results)%Z ->
  App.get_repositories env org_name = Ok repositories ->
  In repo repositories ->
  PyStr.truthy (App.name repo) = true ->
  App.get_repository_tags env org_name (App.name repo) = Ok tags ->
  In tag (firstn 10 tags) ->
  App.any_match (App.regex_patterns version_pattern) tag = Ok true ->
  exists t,
    In t (App.tags_found r)
    /\ App.tag_name t = tag /\ App.repository_name t = App.name repo.
Proof.
  intros H Hlen Hrepos Hin Hname Htags Htag Hacc.
  apply scan_patterns_inv in H as (_ & repos & Hrepos' & Hloop & _).
  rewrite Hrepos in Hrepos'. injection Hrepos' as <-.
  exact (scan_patterns_loop_complete env org_name _ _ _ _ _ Hloop Hlen
           repo tags tag Hin Hname Htags Htag Hacc).
Qed.

Lemma pattern_scan_complete_below_cap_witness :
  exists r,
    App.scan_organization_for_patterns
      (sample_env (tags_listed ["1.2.0"; "2.0.0"] ["0.9"; "v1.2"])) "org"
      "1.2" 50 = Ok r
    /\ exists t,
         In t (App.tags_found r)
         /\ App.tag_name t = "v1.2" /\ App.repository_name t = "svc-b".
Proof.
  eexists. split; [vm_compute; reflexivity|].
  apply (pattern_scan_complete_below_cap
           (sample_env (tags_listed ["1.2.0"; "2.0.0"] ["0.9"; "v1.2"]))
           "org" "1.2" 50 _ sample_repos
           {| App.name := "svc-b"; App.url := "https://github.com/org/svc-b" |}
           ["0.9"; "v1.2"] "v1.2").
  - vm_compute. reflexivity.
  - vm_compute. reflexivity.
  - reflexivity.
  - right. now left.
  - reflexivity.
  - reflexivity.
  - right. now left.
  - vm_compute. reflexivity.
Defined.

(** X5.  Every match of an exact scan comes from a named repository of
    the listing: its tag name is the first candidate found among the tags
    listed for that repository, and the match carries the name and URL of
    the repository and the release URL of the tag. *)
Theorem exact_scan_matches_sound (env : App.Env)
    (org_name tag_version : string) (include_patterns : bool)
    (r : App.ScanResult) :
  App.scan_organization_for_tag env org_name tag_version include_patterns
    = Ok r ->
  exists repositories,
    App.get_repositories env org_name = Ok repositories
    /\ Forall (exact_match env org_name
                 (App.tag_patterns tag_version include_patterns) repositories)
         (App.tags_found r).
Proof.
  intros H. apply scan_tag_inv in H as (_ & repos & Hrepos & Hloop & _).
  exists repos. split; [exact Hrepos|].
  apply scan_tag_loop_matches in Hloop as (new & Hnew & Hall & _).
  rewrite Hnew. exact Hall.
Qed.

Lemma exact_scan_matches_sound_witness :
  exists r,
    App.scan_organization_for_tag
      (sample_env (tags_listed ["0.75.5"; "v0.75.5"] ["v0.75.5"]))
      "org" "0.75.5" true = Ok r
    /\ map App.tag_name (App.tags_found r) = ["0.75.5"; "v0.75.5"]
    /\ exists repositories,
         App.get_repositories
           (sample_env (tags_listed ["0.75.5"; "v0.75.5"] ["v0.75.5"])) "org"
         = Ok repositories
         /\ Forall (exact_match
                      (sample_env (tags_listed ["0.75.5"; "v0.75.5"] ["v0.75.5"]))
                      "org" (App.tag_patterns "0.75.5" true) repositories)
              (App.tags_found r).
Proof.
  eexists. split; [reflexivity|]. split; [reflexivity|].
  apply (exact_scan_matches_sound
           (sample_env (tags_listed ["0.75.5"; "v0.75.5"] ["v0.75.5"]))
           "org" "0.75.5" true).
  reflexivity.
Defined.

(** X6.  An exact scan that returns misses no repository: each named
    repository of the listing among whose tags a candidate is found has a
    match, whose tag name is the first such candidate. *)
Theorem exact_scan_complete (env : App.Env)
    (org_name tag_version : string) (include_patterns : bool)
    (r : App.ScanResult) (repositories : list App.Repo) (repo : App.Repo)
    (tags : list string) (p : string) :
  App.scan_organization_for_tag env org_name tag_version include_patterns
    = Ok r ->
  App.get_repositories env org_name = Ok repositories ->
  In repo repositories ->
  PyStr.truthy (App.name repo) = true ->
  App.get_repository_tags env org_name (App.name repo) = Ok tags ->
  List.find (fun q => PyStr.mem q tags)
    (App.tag_patterns tag_version include_patterns) = Some p ->
  exists t,
    In t (App.tags_found r)
    /\ App.repository_name t = App.name repo /\ App.tag_name t = p.
Proof.
  intros H Hrepos Hin Hname Htags Hfind.
  apply scan_tag_inv in H as (_ & repos & Hrepos' & Hloop & _).
  rewrite Hrepos in Hrepos'. injection Hrepos' as <-.
  apply scan_tag_loop_matches in Hloop as (new & Hnew & _ & Hall).
  rewrite Hnew. exact (Hall repo tags p Hin Hname Htags Hfind).
Qed.

Lemma exact_scan_complete_witness :
  exists r,
    App.scan_organization_for_tag
      (sample_env (tags_listed ["1.0.0"] ["0.9"; "v0.75.5"]))
      "org" "0.75.5" true = Ok r
    /\ exists t,
         In t (App.tags_found r)
         /\ App.repository_name t = "svc-b" /\ App.tag_name t = "v0.75.5".
Proof.
  eexists. split; [reflexivity|].
  apply (exact_scan_complete
           (sample_env (tags_listed ["1.0.0"] ["0.9"; "v0.75.5"]))
           "org" "0.75.5" true _ sample_repos
           {| App.name := "svc-b"; App.url := "https://github.com/org/svc-b" |}
           ["0.9"; "v0.75.5"] "v0.75.5").
  - reflexivity.
  - reflexivity.
  - right. now left.
  - reflexivity.
  - reflexivity.
  - reflexivity.
Defined.

(** X7.  In the result of either organization scan,
    [repositories_with_tag] does not exceed
    [total_repositories_scanned]. *)
Theorem scan_counts_are_bounded (env : App.Env) (org_name : string)
    (r : App.ScanResult) :
  (exists tag_version include_patterns,
      App.scan_organization_for_tag env org_name tag_version include_patterns
      = Ok r)
  \/ (exists version_pattern max_results,
        App.scan_organization_for_patterns env org_name version_pattern
          max_results = Ok r) ->
  App.repositories_with_tag r <= App.total_repositories_scanned r.
Proof.
  intros [(tag_version & include_patterns & H)
         |(version_pattern & max_results & H)].
  - apply scan_tag_inv in H as (_ & repos & _ & Hloop & -> & ->).
    apply scan_tag_loop_names in Hloop as (new & -> & Hsub).
    apply sublist_length in Hsub. rewrite !length_map in Hsub. exact Hsub.
  - apply scan_patterns_inv in H as (_ & repos & _ & Hloop & -> & ->).
    rewrite length_distinct, <- (length_map App.name repos).
    apply distinct_count_le.
    apply scan_patterns_loop_matches in Hloop as (new & -> & _ & Hall).
    intros x Hx. apply in_map_iff in Hx as (t & <- & Ht).
    rewrite Forall_forall in Hall.
    apply list_elem_of_In, Hall in Ht as (repo & tags & Hin & _ & _ & Hw).
    destruct Hw as (-> & _). now apply in_map.
Qed.

Lemma scan_counts_are_bounded_witness :
  exists r,
    App.scan_organization_for_patterns
      (sample_env (tags_listed ["1.2.0"; "1.2.1"; "v1.2.3"] []))
      "org" "1.2" 50 = Ok r
    /\ length (App.tags_found r) = 3
    /\ App.repositories_with_tag r <= App.total_repositories_scanned r.
Proof.
  eexists. split; [vm_compute; reflexivity|]. split; [reflexivity|].
  apply (scan_counts_are_bounded
           (sample_env (tags_listed ["1.2.0"; "1.2.1"; "v1.2.3"] [])) "org").
  right. exists "1.2", 50%Z. vm_compute. reflexivity.
Defined.

(** X8.  The failures of the organization scans and their causes: a scan
    fails, with status 500, when the command line tool is not available,
    and otherwise with the text of the error that stopped it, which is
    the failure of the repository listing or of the tag listing of a
    named repository; no other step fails a scan. *)
Theorem scan_failure_causes (env : App.Env) (org_name : string)
    (e : exception) (prefix : string) :
  (exists tag_version include_patterns,
      App.scan_organization_for_tag env org_name tag_version include_patterns
      = Raise e /\ prefix = "Scan failed: ")
  \/ (exists version_pattern max_results,
        App.scan_organization_for_patterns env org_name version_pattern
          max_results = Raise e /\ prefix = "Pattern scan failed: ") ->
  (App.check_github_cli env = false
   /\ e = HTTPException 500 "GitHub CLI not available or not authenticated")
  \/ (exists cause,
        e = HTTPException 500 (prefix +:+ App.exception_str env cause)
        /\ (App.get_repositories env org_name = Raise cause
            \/ exists repositories repo,
                 App.get_repositories env org_name = Ok repositories
                 /\ In repo repositories
                 /\ PyStr.truthy (App.name repo) = true
                 /\ App.get_repository_tags env org_name (App.name repo)
                    = Raise cause)).
Proof.
  intros [(tag_version & include_patterns & H & ->)
         |(version_pattern & max_results & H & ->)].
  - unfold App.scan_organization_for_tag in H.
    destruct (App.check_github_cli env); cbn [negb] in H;
      [right | left; split; [reflexivity | congruence]].
    destruct (App.get_repositories env org_name) as [repos|cause].
    + rewrite bind_ok in H. cbv zeta in H.
      destruct (App.scan_tag_loop env org_name _ repos []) as [found|cause]
        eqn:Hloop; [discriminate|].
      rewrite bind_raise in H. cbn in H. injection H as <-.
      exists cause. split; [reflexivity|]. right.
      apply scan_tag_loop_raise in Hloop as (repo & Hin & Hname & Htags).
      exists repos, repo. repeat split; assumption.
    + rewrite bind_raise in H. cbn in H. injection H as <-.
      exists cause. split; [reflexivity | now left].
  - unfold App.scan_organization_for_patterns in H.
    destruct (App.check_github_cli env); cbn [negb] in H;
      [right | left; split; [reflexivity | congruence]].
    destruct (App.get_repositories env org_name) as [repos|cause].
    + rewrite bind_ok in H. cbv zeta in H.
      destruct (App.scan_patterns_loop env org_name _ max_results repos [])
        as [found|cause] eqn:Hloop; [discriminate|].
      rewrite bind_raise in H. cbn in H. injection H as <-.
      exists cause. split; [reflexivity|]. right.
      apply scan_patterns_loop_raise in Hloop as (repo & Hin & Hname & Htags).
      exists repos, repo. repeat split; assumption.
    + rewrite bind_raise in H. cbn in H. injection H as <-.
      exists cause. split; [reflexivity | now left].
Qed.

Lemma scan_failure_causes_witness :
  App.scan_organization_for_tag (sample_env (tags_timed_out ["0.75.5"]))
    "org" "0.75.5" true
  = Raise (HTTPException 500 "Scan failed: 500: GitHub CLI command timed out")
  /\ exists cause,
       HTTPException 500 "Scan failed: 500: GitHub CLI command timed out"
       = HTTPException 500
           ("Scan failed: "
            +:+ App.exception_str (sample_env (tags_timed_out ["0.75.5"]))
                  cause)
       /\ App.get_repository_tags (sample_env (tags_timed_out ["0.75.5"]))
            "org" "svc-a" = Raise cause.
Proof.
  split; [reflexivity|].
  destruct (scan_failure_causes (sample_env (tags_timed_out ["0.75.5"])) "org"
              (HTTPException 500 "Scan failed: 500: GitHub CLI command timed out")
              "Scan failed: ")
    as [[Hcli _]|(cause & He & [Hrepos|(repos & repo & Hrepos & Hin & _ & Htags)])].
  - left. exists "0.75.5", true. split; reflexivity.
  - discriminate Hcli.
  - discriminate Hrepos.
  - exists cause. split; [exact He|].
    injection Hrepos as <-.
    destruct Hin as [<-|[<-|[]]]; [exact Htags|].
    vm_compute in Htags. discriminate Htags.
Defined.

Lemma first_line_no_newline (s : string) :
  occurs PyStr.newline (PyStr.first_line s) = false.
Proof.
  induction s as [|c s IH]; cbn [PyStr.first_line]; [reflexivity|].
  destruct (Ascii.eqb c PyStr.newline) eqn:E; [reflexivity|].
  cbn [occurs]. now rewrite E, IH.
Qed.

Lemma sublist_List_filter {A : Type} (f : A -> bool) (l : list A) :
  sublist (List.filter f l) l.
Proof.
  induction l as [|x l IH]; cbn [List.filter]; [constructor|].
  destruct (f x); [now apply sublist_skip | now apply sublist_cons].
Qed.

Lemma truthy_nonempty (s : string) : PyStr.truthy s = true <-> s <> "".
Proof. destruct s; cbn; split; congruence. Qed.

(** X9.  An exact scan without the v-prefixed variant (it is switched
    off, or the version already starts with ["v"]) matches the version
    itself only: every match carries the version as its tag name. *)
Theorem exact_scan_without_variant (env : App.Env)
    (org_name tag_version : string) (include_patterns : bool)
    (r : App.ScanResult) :
  include_patterns = false \/ PyStr.startswith tag_version "v" = true ->
  App.scan_organization_for_tag env org_name tag_version include_patterns
    = Ok r ->
  Forall (fun t => App.tag_name t = tag_version) (App.tags_found r).
Proof.
  intros Hvariant H.
  assert (App.tag_patterns tag_version include_patterns = [tag_version])
    as Hpat.
  { unfold App.tag_patterns. destruct Hvariant as [->| ->]; cbn;
      [reflexivity | now rewrite andb_false_r]. }
  apply scan_tag_inv in H as (_ & repos & _ & Hloop & _).
  apply scan_tag_loop_matches in Hloop as (new & -> & Hall & _).
  rewrite Hpat in Hall. eapply Forall_impl; [exact Hall|].
  intros t (repo & tags & _ & _ & _ & Hfind & _).
  cbn [List.find] in Hfind. destruct (PyStr.mem tag_version tags);
    congruence.
Qed.

Lemma exact_scan_without_variant_witness :
  exists r,
    App.scan_organization_for_tag
      (sample_env (tags_listed ["0.75.5"; "v0.75.5"] ["v0.75.5"]))
      "org" "v0.75.5" true = Ok r
    /\ map App.repository_name (App.tags_found r) = ["svc-a"; "svc-b"]
    /\ Forall (fun t => App.tag_name t = "v0.75.5") (App.tags_found r).
Proof.
  eexists. split; [reflexivity|]. split; [reflexivity|].
  apply (exact_scan_without_variant
           (sample_env (tags_listed ["0.75.5"; "v0.75.5"] ["v0.75.5"]))
           "org" "v0.75.5" true).
  - right. reflexivity.
  - reflexivity.
Defined.

(** X10.  The tags [get_repository_tags] returns are the non-empty names
    of the listing, in the order of the listing; it returns no tags for
    an answer that is not a list and for a failure whose detail mentions
    404, and these are the only failures it absorbs. *)
Theorem listed_tags_are_named (env : App.Env) (org_name repo_name : string)
    (tags : list string) :
  App.get_repository_tags env org_name repo_name = Ok tags ->
  Forall (fun t => t <> "") tags
  /\ match App.run_gh_command (App.gh_tags env org_name repo_name) with
     | Ok (Some (App.JsonList l)) =>
         sublist tags l /\ forall t, In t l -> t <> "" -> In t tags
     | Ok _ => tags = []
     | Raise (HTTPException _ d) => PyStr.contains "404" d = true /\ tags = []
     | Raise _ => False
     end.
Proof.
  unfold App.get_repository_tags.
  destruct (App.run_gh_command (App.gh_tags env org_name repo_name))
    as [[[l|]|]|e] eqn:E; cbn.
  - intros [= <-]. split; [|split].
    + apply Forall_forall. intros t Ht.
      apply list_elem_of_In, filter_In in Ht as [_ Ht].
      now apply truthy_nonempty.
    + apply sublist_List_filter.
    + intros t Hin Ht. apply filter_In. split; [exact Hin|].
      now apply truthy_nonempty.
  - intros [= <-]. split; [constructor | reflexivity].
  - intros [= <-]. split; [constructor | reflexivity].
  - destruct (run_gh_command_raises _ _ E) as [d ->]. cbn.
    destruct (PyStr.contains "404" d); [|discriminate].
    intros [= <-]. split; [constructor | split; reflexivity].
Qed.

Lemma listed_tags_are_named_witness :
  App.get_repository_tags (sample_env (tags_listed ["1.0"; ""; "v2"] []))
    "org" "svc-a" = Ok ["1.0"; "v2"]
  /\ Forall (fun t => t <> "") ["1.0"; "v2"].
Proof.
  split; [reflexivity|].
  exact (proj1 (listed_tags_are_named
                  (sample_env (tags_listed ["1.0"; ""; "v2"] []))
                  "org" "svc-a" ["1.0"; "v2"] eq_refl)).
Defined.

Section CommitLookup.

Lemma bind_raise_inv {A B : Type} (m : result A) (k : A -> result B)
    (e : exception) :
  (m ≫= k) = Raise e -> m = Raise e \/ exists a, m = Ok a /\ k a = Raise e.
Proof. destruct m as [a|e']; cbn; [eauto | intros [= <-]; now left]. Qed.

Lemma json_get_raise (v : Json.value) (key : string) (fallback : Json.value)
    (e : exception) :
  Json.get v key fallback = Raise e -> exists msg, e = AttributeError msg.
Proof. destruct v; cbn; intros [= <-]; eauto. Qed.

Lemma json_split_first_raise (v : Json.value) (e : exception) :
  Json.split_first v = Raise e -> exists msg, e = AttributeError msg.
Proof. destruct v; cbn; intros [= <-]; eauto. Qed.

Lemma json_split_first_line (v : Json.value) (s : string) :
  Json.split_first v = Ok s -> occurs PyStr.newline s = false.
Proof.
  destruct v; cbn; try discriminate. intros [= <-].
  apply first_line_no_newline.
Qed.

Lemma except_http_raise {A : Type} (body : result A)
    (handler : Z -> string -> result A) (e : exception) :
  (forall c d, exists a, handler c d = Ok a) ->
  except_http body handler = Raise e ->
  body = Raise e /\ forall c d, e <> HTTPException c d.
Proof.
  intros Hh. destruct body as [a|[c d| | | |]]; cbn; try discriminate.
  - destruct (Hh c d) as [a ->]. discriminate.
  - intros [= <-]. split; [reflexivity | discriminate].
  - intros [= <-]. split; [reflexivity | discriminate].
  - intros [= <-]. split; [reflexivity | discriminate].
  - intros [= <-]. split; [reflexivity | discriminate].
Qed.

(** On replies of the documented shape the lookup is the typed one. *)
Lemma typed_lookup_refines (env : App.Env) (org_name repo_name tag : string) :
  AppJson.get_tag_commit_info (json_env env) org_name repo_name tag
  = match App.get_tag_commit_info env org_name repo_name tag with
    | Ok info => Ok (option_map json_of_info info)
    | Raise e => Raise e
    end.
Proof.
  unfold AppJson.get_tag_commit_info, App.get_tag_commit_info.
  cbn [json_env AppJson.gh_tag_ref AppJson.gh_commit].
  destruct (App.gh_tag_ref env org_name repo_name tag)
    as [rc out stderr| |]; cbn [map_process App.run_gh_command];
    [|reflexivity..].
  destruct (negb (rc =? 0)%Z); [reflexivity|].
  destruct out as [|[sha|]|err]; try reflexivity.
  cbn. destruct (PyStr.truthy sha); cbn [negb]; [|reflexivity].
  destruct (App.gh_commit env org_name repo_name sha)
    as [rc' out' stderr'| |]; cbn [map_process App.run_gh_command];
    [|reflexivity..].
  destruct (negb (rc' =? 0)%Z); [reflexivity|].
  destruct out' as [|c|err]; reflexivity.
Qed.

End CommitLookup.

(** X11.  [get_tag_commit_info] lets no error of the GitHub CLI out: when
    the lookup of the tag reference fails it returns [None], and no
    [HTTPException] leaves it.  The only exception it raises is the
    [AttributeError] of a reply that is not of the shape it reads, as
    for a tag reference answered by a list.  The commit information it
    returns has a truthy identifier and a message without a line
    break. *)
Theorem commit_lookup_absorbs_cli_failures (env : AppJson.Env)
    (org_name repo_name tag : string) :
  (forall e,
      App.run_gh_command (AppJson.gh_tag_ref env org_name repo_name tag)
        = Raise e ->
      AppJson.get_tag_commit_info env org_name repo_name tag = Ok None)
  /\ (forall e,
        AppJson.get_tag_commit_info env org_name repo_name tag = Raise e ->
        exists msg, e = AttributeError msg)
  /\ (forall items,
        App.run_gh_command (AppJson.gh_tag_ref env org_name repo_name tag)
          = Ok (Some (Json.JArray items)) ->
        AppJson.get_tag_commit_info env org_name repo_name tag
        = Raise (AttributeError "'list' object has no attribute 'get'"))
  /\ (forall info,
        AppJson.get_tag_commit_info env org_name repo_name tag
          = Ok (Some info) ->
        Json.truthy (AppJson.commit_sha info) = true
        /\ occurs PyStr.newline (AppJson.message info) = false).
Proof.
  split; [|split; [|split]].
  - intros e He. unfold AppJson.get_tag_commit_info.
    destruct (run_gh_command_raises _ _ He) as [d ->]. now rewrite He.
  - intros e He. unfold AppJson.get_tag_commit_info in He.
    apply except_http_raise in He as [He Hno]; [|eauto].
    apply bind_raise_inv in He as [He|(tag_ref & _ & He)].
    { destruct (run_gh_command_raises _ _ He) as [d ->]. now destruct (Hno 500%Z d). }
    cbv zeta in He.
    apply bind_raise_inv in He as [He|(obj & _ & He)];
      [eapply json_get_raise; exact He|].
    apply bind_raise_inv in He as [He|(sha & _ & He)];
      [eapply json_get_raise; exact He|].
    destruct (negb (Json.truthy sha)); [discriminate|].
    apply bind_raise_inv in He as [He|(commit_info & _ & He)].
    { destruct (run_gh_command_raises _ _ He) as [d ->]. now destruct (Hno 500%Z d). }
    cbv zeta in He.
    do 8 (apply bind_raise_inv in He as [He|(? & _ & He)];
          [eapply json_get_raise; exact He|]).
    apply bind_raise_inv in He as [He|(? & _ & He)];
      [eapply json_split_first_raise; exact He | discriminate].
  - intros items He. unfold AppJson.get_tag_commit_info. now rewrite He.
  - intros info He. unfold AppJson.get_tag_commit_info in He.
    destruct (App.run_gh_command (AppJson.gh_tag_ref env org_name repo_name tag))
      as [tag_ref|e] eqn:E1.
    2:{ destruct (run_gh_command_raises _ _ E1) as [d ->]. discriminate He. }
    rewrite bind_ok in He. cbv zeta in He.
    assert (forall (body : result (option AppJson.CommitInfo)) h,
              except_http body h = Ok (Some info) ->
              (forall c d, h c d = Ok None) ->
              body = Ok (Some info)) as Hbody.
    { intros [a|[c d| | | |]] h; cbn; try discriminate; [congruence|].
      intros H Hh. rewrite Hh in H. discriminate. }
    apply Hbody in He; [|reflexivity].
    apply bind_inv in He as (obj & _ & He).
    apply bind_inv in He as (sha & _ & He).
    destruct (Json.truthy sha) eqn:Hsha; cbn [negb] in He; [|discriminate].
    apply bind_inv in He as (commit_info & _ & He). cbv zeta in He.
    do 8 (apply bind_inv in He as (? & _ & He)).
    apply bind_inv in He as (first_line & Hline & He).
    injection He as <-. cbn.
    split; [exact Hsha | eapply json_split_first_line; exact Hline].
Qed.

Lemma commit_lookup_absorbs_cli_failures_witness :
  AppJson.get_tag_commit_info sample_json_env "org" "svc-a" "1.0"
  = Raise (AttributeError "'list' object has no attribute 'get'")
  /\ exists info,
       AppJson.get_tag_commit_info
         (json_env (sample_env (tags_listed ["1.0"] []))) "org" "svc-a" "1.0"
       = Ok (Some info)
       /\ AppJson.commit_sha info = Json.JStr "0123456789abcdef"
       /\ Json.truthy (AppJson.commit_sha info) = true
       /\ occurs PyStr.newline (AppJson.message info) = false.
Proof.
  split.
  - exact (proj1 (proj2 (proj2
             (commit_lookup_absorbs_cli_failures sample_json_env
                "org" "svc-a" "1.0"))) _ eq_refl).
  - eexists. split; [reflexivity|]. split; [reflexivity|].
    exact (proj2 (proj2 (proj2
             (commit_lookup_absorbs_cli_failures
                (json_env (sample_env (tags_listed ["1.0"] [])))
                "org" "svc-a" "1.0"))) _ eq_refl).
Defined.

(** ** The scan of local repositories *)

Section LocalScan.
Variable env : Local.Env.

Lemma local_tag_info_none (repo_path pattern : string)
    (commit : Local.Commit) :
  Local.local_tag_info env repo_path pattern commit = None.
Proof.
  unfold Local.local_tag_info.
  now destruct (Local.fromtimestamp_iso env (Local.committed_date commit)).
Qed.

Lemma try_patterns_none (repo_path : string)
    (tag_commit : string -> option Local.Commit) (patterns : list string) :
  Local.try_patterns env repo_path tag_commit patterns = None.
Proof.
  induction patterns as [|p rest IH]; cbn [Local.try_patterns];
    [reflexivity|].
  destruct (tag_commit p) as [commit|]; [|exact IH].
  now rewrite local_tag_info_none.
Qed.

End LocalScan.

(** X12.  The scan of one local repository finds nothing: whatever the
    repository holds, and also when the version or its v-prefixed form
    resolves to a commit, building the match calls [Path(repo_path)],
    which raises; the bare [except] absorbs the error, the next
    candidate meets the same end, and the function returns [None]. *)
Theorem local_repository_scan_finds_nothing (env : Local.Env)
    (repo_path tag_version : string) :
  Local.scan_local_repository_for_tag env repo_path tag_version = None.
Proof.
  unfold Local.scan_local_repository_for_tag.
  destruct (Local.open_repo env repo_path) as [tag_commit| |];
    [apply try_patterns_none | reflexivity | reflexivity].
Qed.

(** X14.  The local scan never returns a result.  When git is available
    [find_local_git_repositories] raises on [Path(base_path)] before any
    walk, and the endpoint fails with status 500 and the text of that
    error, whatever the base path, the version and the repositories
    under the path; when git is not available it fails with status 500
    too. *)
Theorem local_scan_always_fails (env : Local.Env)
    (tag_version base_path : string) :
  Local.scan_local_repositories_for_tag env tag_version base_path
  = Raise (HTTPException 500
             (if Local.git_available env
              then "Local scan failed: "
                   +:+ Local.exception_str env
                         (AssertionError
                            "Path parameters cannot have a default value")
              else "Git not available")).
Proof.
  unfold Local.scan_local_repositories_for_tag, Local.check_git.
  destruct (Local.git_available env); reflexivity.
Qed.

(** The sample directory tree, in which [/src/lib] carries the tag
    ["0.75.5"]: the scan of that repository finds nothing and the scan of
    the tree fails. *)
Example local_scan_of_sample :
  Local.scan_local_repository_for_tag sample_local_env "/src/lib" "0.75.5"
  = None
  /\ Local.scan_local_repositories_for_tag sample_local_env "0.75.5" "/src"
     = Raise (HTTPException 500
                "Local scan failed: Path parameters cannot have a default value").
Proof. split; reflexivity. Qed.


(** ** The aggregation *)

Section AuthorStrings.

Lemma append_cons (c : ascii) (s r : string) :
  String c s +:+ r = String c (s +:+ r).
Proof. reflexivity. Qed.

Lemma append_assoc (a b c : string) : (a +:+ b) +:+ c = a +:+ (b +:+ c).
Proof.
  induction a as [|x a IH]; [reflexivity|]. rewrite !append_cons. now f_equal.
Qed.

Lemma length_append (a b : string) :
  String.length (a +:+ b) = String.length a + String.length b.
Proof.
  induction a as [|x a IH]; [reflexivity|].
  rewrite append_cons. cbn [String.length]. now rewrite IH.
Qed.

Lemma occurs_append (c : ascii) (a b : string) :
  occurs c (a +:+ b) = occurs c a || occurs c b.
Proof.
  induction a as [|x a IH]; [reflexivity|].
  rewrite append_cons. cbn [occurs]. now rewrite IH, orb_assoc.
Qed.

Lemma contains_char (c : ascii) (s : string) :
  PyStr.contains (String c "") s = occurs c s.
Proof.
  unfold PyStr.contains. induction s as [|d s IH]; [reflexivity|].
  cbn [String.index String.prefix occurs].
  destruct (Ascii.ascii_dec c d) as [->|Hne].
  - rewrite Ascii.eqb_refl. now destruct s.
  - rewrite (proj2 (Ascii.eqb_neq d c)) by congruence. cbn [orb].
    rewrite <- IH. now destruct (String.index 0 (String c "") s).
Qed.

Lemma find_from_first (c : ascii) (pre rest : string) (i : Z) :
  occurs c pre = false ->
  PyStr.find_from c (pre +:+ String c rest) i
  = (i + Z.of_nat (String.length pre))%Z.
Proof.
  revert i. induction pre as [|d pre IH]; intros i; cbn [occurs].
  - intros _. change ("" +:+ String c rest) with (String c rest).
    cbn [PyStr.find_from String.length]. rewrite Ascii.eqb_refl. lia.
  - intros H. apply orb_false_elim in H as [Hd Hpre].
    rewrite append_cons. cbn [PyStr.find_from String.length].
    rewrite Hd, (IH _ Hpre). lia.
Qed.

Lemma substring_skip (pre s : string) (n : nat) :
  String.substring (String.length pre) n (pre +:+ s) = String.substring 0 n s.
Proof.
  induction pre as [|d pre IH]; [reflexivity|].
  rewrite append_cons. cbn [String.length String.substring]. exact IH.
Qed.

Lemma substring_take (m r : string) :
  String.substring 0 (String.length m) (m +:+ r) = m.
Proof.
  induction m as [|d m IH]; [now destruct r|].
  rewrite append_cons. cbn [String.length String.substring]. now rewrite IH.
Qed.

End AuthorStrings.

(** X15.  The address of an author: for an author string in which an
    address stands between the first ["<"] and the first [">"], the
    address is extracted whole, whatever precedes and follows. *)
Theorem email_is_between_brackets (pre mail post : string) :
  occurs "<" pre = false ->
  occurs ">" pre = false ->
  occurs ">" mail = false ->
  mail <> "" ->
  Transformer._extract_email_from_author
    (Some (pre +:+ "<" +:+ mail +:+ ">" +:+ post))
  = Ok (Some mail).
Proof.
  intros Hlt Hgt Hmail Hne.
  unfold Transformer._extract_email_from_author.
  change "<" with (String "<"%char "") at 1.
  change ">" with (String ">"%char "") at 1.
  rewrite !contains_char, !occurs_append.
  change (occurs "<" "<") with true.
  change (occurs ">" ">") with true.
  rewrite Hlt, Hgt, Hmail. cbn [orb andb]. cbv zeta.
  assert (PyStr.find (pre +:+ "<" +:+ mail +:+ ">" +:+ post) "<"
          = Z.of_nat (String.length pre)) as ->.
  { unfold PyStr.find.
    change ("<" +:+ mail +:+ ">" +:+ post)
      with (String "<"%char (mail +:+ ">" +:+ post)).
    now rewrite find_from_first. }
  assert (PyStr.find (pre +:+ "<" +:+ mail +:+ ">" +:+ post) ">"
          = Z.of_nat (String.length pre + 1 + String.length mail)) as ->.
  { unfold PyStr.find.
    replace (pre +:+ "<" +:+ mail +:+ ">" +:+ post)
      with ((pre +:+ "<" +:+ mail) +:+ String ">"%char post)
      by (now rewrite !append_assoc).
    rewrite find_from_first.
    - rewrite !length_append. cbn [String.length]. lia.
    - rewrite !occurs_append, Hgt, Hmail. reflexivity. }
  assert (0 < String.length mail) as Hlen
    by (destruct mail; [congruence | cbn; lia]).
  destruct (Z.ltb_spec (Z.of_nat (String.length pre) + 1)
              (Z.of_nat (String.length pre + 1 + String.length mail)));
    [|lia].
  do 2 f_equal. unfold PyStr.slice.
  replace (Z.to_nat (Z.of_nat (String.length pre) + 1))
    with (String.length (pre +:+ "<")) by (rewrite length_append; cbn; lia).
  replace (Z.to_nat _) with (String.length mail) by lia.
  replace (pre +:+ "<" +:+ mail +:+ ">" +:+ post)
    with ((pre +:+ "<") +:+ mail +:+ ">" +:+ post)
    by (now rewrite !append_assoc).
  rewrite substring_skip. apply substring_take.
Qed.

Lemma email_is_between_brackets_witness :
  Transformer._extract_email_from_author (Some "Ann Lee <ann@example.org> (x)")
  = Ok (Some "ann@example.org").
Proof.
  exact (email_is_between_brackets "Ann Lee " "ann@example.org" " (x)"
           eq_refl eq_refl eq_refl ltac:(discriminate)).
Defined.

Lemma find_from_skip (c : ascii) (pre s : string) (i : Z) :
  occurs c pre = false ->
  PyStr.find_from c (pre +:+ s) i
  = PyStr.find_from c s (i + Z.of_nat (String.length pre))%Z.
Proof.
  revert i. induction pre as [|d pre IH]; intros i; cbn [occurs].
  - intros _. change ("" +:+ s) with s. cbn [String.length]. f_equal. lia.
  - intros H. apply orb_false_elim in H as [Hd Hpre].
    rewrite append_cons. cbn [PyStr.find_from String.length].
    rewrite Hd, (IH _ Hpre). f_equal. lia.
Qed.

Lemma find_from_lower (c : ascii) (s : string) (i : Z) :
  occurs c s = true -> (i <= PyStr.find_from c s i)%Z.
Proof.
  revert i. induction s as [|d s IH]; intros i; cbn [occurs PyStr.find_from];
    [discriminate|].
  destruct (Ascii.eqb d c); cbn [orb]; [lia|].
  intros H. specialize (IH (i + 1)%Z H). lia.
Qed.

(** X16.  No address is extracted from an author string without
    brackets, from one without a [">"] after its first ["<"], from one
    whose first [">"] comes before its first ["<"], even when a bracketed
    address follows, or from one whose first brackets enclose nothing. *)
Theorem email_absent_without_leading_pair (pre : string) :
  occurs "<" pre = false ->
  occurs ">" pre = false ->
  Transformer._extract_email_from_author (Some pre) = Ok None
  /\ (forall rest,
        occurs ">" rest = false ->
        Transformer._extract_email_from_author (Some (pre +:+ "<" +:+ rest))
        = Ok None)
  /\ (forall rest,
        Transformer._extract_email_from_author (Some (pre +:+ ">" +:+ rest))
        = Ok None)
  /\ (forall rest,
        Transformer._extract_email_from_author (Some (pre +:+ "<>" +:+ rest))
        = Ok None).
Proof.
  intros Hlt Hgt. unfold Transformer._extract_email_from_author.
  change "<" with (String "<"%char "") at 1 3 5 7.
  change ">" with (String ">"%char "") at 1 2 4 6.
  repeat split.
  - now rewrite !contains_char, Hlt.
  - intros rest Hrest.
    rewrite !contains_char, !occurs_append, Hgt, Hrest.
    cbn. now rewrite andb_false_r.
  - intros rest. rewrite !contains_char, !occurs_append, Hlt, Hgt.
    cbn [orb]. change (occurs "<" ">") with false.
    change (occurs ">" ">") with true. cbn [orb andb].
    destruct (occurs "<" rest) eqn:Hrest; [|reflexivity]. cbv zeta.
    unfold PyStr.find.
    change (">" +:+ rest) with (String ">"%char rest).
    rewrite (find_from_first ">"%char) by assumption.
    rewrite (find_from_skip "<"%char) by assumption.
    cbn [PyStr.find_from]. change (Ascii.eqb ">" "<") with false. cbv iota.
    pose proof (find_from_lower "<"%char rest
                  (0 + Z.of_nat (String.length pre) + 1)%Z Hrest) as Hlow.
    destruct (Z.ltb_spec
                (PyStr.find_from "<" rest
                   (0 + Z.of_nat (String.length pre) + 1) + 1)
                (0 + Z.of_nat (String.length pre))); [lia | reflexivity].
  - intros rest. rewrite !contains_char, !occurs_append, Hlt, Hgt.
    change (occurs "<" "<>") with true. change (occurs ">" "<>") with true.
    cbn [orb andb]. cbv zeta. unfold PyStr.find.
    change ("<>" +:+ rest) with (String "<"%char (String ">"%char rest)).
    rewrite (find_from_first "<"%char) by assumption.
    rewrite (find_from_skip ">"%char) by assumption.
    cbn [PyStr.find_from]. change (Ascii.eqb "<" ">") with false. cbv iota.
    rewrite Ascii.eqb_refl.
    destruct (Z.ltb_spec (0 + Z.of_nat (String.length pre) + 1)
                (0 + Z.of_nat (String.length pre) + 1)); [lia | reflexivity].
Qed.

Lemma email_absent_without_leading_pair_witness :
  Transformer._extract_email_from_author (Some "a -> b <ann@example.org>")
  = Ok None.
Proof.
  exact (proj1 (proj2 (proj2 (email_absent_without_leading_pair "a -"
                                eq_refl eq_refl)))
           " b <ann@example.org>").
Defined.

Section Grouping.
Import Transformer.

Lemma dict_get_Some_elem_of {V : Type} (k : string) (v : V) (d : dict V) :
  dict_get k d = Some v -> (k, v) ∈ d.
Proof.
  induction d as [|[k' v'] rest IH]; cbn [dict_get]; [discriminate|].
  destruct (String.eqb_spec k' k) as [->|_].
  - intros [= ->]. apply elem_of_cons. now left.
  - intros H. apply elem_of_cons. right. now apply IH.
Qed.

Lemma Forall2_in_l {A B : Type} (P : A -> B -> Prop) (l : list A)
    (k : list B) (x : A) :
  Forall2 P l k -> In x l -> exists y, In y k /\ P x y.
Proof.
  induction 1 as [|a b l k Hab _ IH]; intros Hin; [destruct Hin|].
  destruct Hin as [<-|Hin].
  - exists b. split; [now left | exact Hab].
  - destruct (IH Hin) as (y & Hy & Hxy). exists y. split; [now right | exact Hxy].
Qed.

Lemma transform_repo_inv (t : App.TagInfo) :
  match App.author t with
  | Some a =>
      exists email,
        _extract_email_from_author (Some a) = Ok email
        /\ transform_repo t
           = Ok {| repository_name := App.repository_name t;
                   commit_id := App.commit_id t;
                   commit_short := if PyStr.truthy (App.commit_id t)
                                   then PyStr.slice (App.commit_id t) 0 7
                                   else "";
                   author := Some a;
                   author_email := email;
                   date := App.date t;
                   message := App.message t;
                   repository_url := App.repository_url t;
                   tag_url := App.tag_url t;
                   deployment_status := "unknown";
                   environment := "unknown";
                   repository_path := App.repository_path t |}
  | None =>
      transform_repo t
      = Raise (TypeError "argument of type 'NoneType' is not iterable")
  end.
Proof.
  unfold transform_repo. destruct (App.author t) as [a|]; [|reflexivity].
  unfold _extract_email_from_author.
  destruct (PyStr.contains "<" a && PyStr.contains ">" a);
    eexists; split; reflexivity.
Qed.

Lemma transform_repos_ok (l : list App.TagInfo) :
  Forall (fun t => App.author t <> None) l ->
  exists rs,
    transform_repos l = Ok rs
    /\ Forall2 (fun t r => transform_repo t = Ok r) l rs.
Proof.
  induction 1 as [|t rest Ht _ (rs & Hrs & Hall)]; cbn [transform_repos].
  - exists []. split; [reflexivity | constructor].
  - pose proof (transform_repo_inv t) as Hrepo.
    destruct (App.author t) as [a|]; [|congruence].
    destruct Hrepo as (email & _ & Hrepo). rewrite Hrepo, bind_ok, Hrs, bind_ok.
    eexists. split; [reflexivity|]. now constructor.
Qed.

Lemma transform_repos_inv (l : list App.TagInfo) (rs : list RepositoryRecord) :
  transform_repos l = Ok rs ->
  Forall2 (fun t r => transform_repo t = Ok r) l rs.
Proof.
  revert rs. induction l as [|t rest IH]; intros rs; cbn [transform_repos].
  - intros [= <-]. constructor.
  - intros H. apply bind_inv in H as (r & Hr & H).
    apply bind_inv in H as (rs' & Hrs' & [= <-]). constructor; auto.
Qed.

Lemma transform_repos_raise (l : list App.TagInfo) (e : exception) :
  transform_repos l = Raise e ->
  e = TypeError "argument of type 'NoneType' is not iterable"
  /\ Exists (fun t => App.author t = None) l.
Proof.
  induction l as [|t rest IH]; cbn [transform_repos]; [discriminate|].
  pose proof (transform_repo_inv t) as Hrepo.
  destruct (App.author t) as [a|] eqn:Ha.
  - destruct Hrepo as (email & _ & ->). rewrite bind_ok.
    destruct (transform_repos rest) as [rs|e']; [discriminate|].
    rewrite bind_raise. intros [= <-].
    destruct (IH eq_refl) as [-> Hex]. split; [reflexivity | now right].
  - rewrite Hrepo, bind_raise. intros [= <-]. split; [reflexivity | now left].
Qed.

Lemma transform_groups_inv (groups : dict (list App.TagInfo)) :
  forall acc res,
    transform_groups groups acc = Ok res ->
    exists entries,
      Forall2 (fun kv kg =>
                 fst kg = fst kv
                 /\ exists rs, transform_repos (snd kv) = Ok rs
                               /\ snd kg = make_tag_group (fst kv) rs)
        groups entries
      /\ res = dict_update acc entries.
Proof.
  induction groups as [|[k infos] rest IH]; intros acc res;
    cbn [transform_groups].
  - intros [= <-]. exists []. split; [constructor | reflexivity].
  - intros H. apply bind_inv in H as (rs & Hrs & H).
    apply IH in H as (entries & Hall & ->).
    exists ((k, make_tag_group k rs) :: entries). split; [|reflexivity].
    constructor; [|exact Hall]. split; [reflexivity|]. now exists rs.
Qed.

Lemma transform_groups_raise (groups : dict (list App.TagInfo))
    (e : exception) :
  forall acc,
    transform_groups groups acc = Raise e ->
    Exists (fun kv => transform_repos (snd kv) = Raise e) groups.
Proof.
  induction groups as [|[k infos] rest IH]; intros acc;
    cbn [transform_groups]; [discriminate|].
  destruct (transform_repos infos) as [rs|e'] eqn:Hrs.
  - rewrite bind_ok. intros H. right. now apply IH in H.
  - rewrite bind_raise. intros [= <-]. now left.
Qed.

Lemma transform_groups_ok (groups : dict (list App.TagInfo)) :
  Forall (fun kv => Forall (fun t => App.author t <> None) (snd kv)) groups ->
  forall acc, exists res, transform_groups groups acc = Ok res.
Proof.
  induction 1 as [|[k infos] rest Hkv _ IH]; intros acc;
    cbn [transform_groups]; [eauto|].
  cbn [snd] in Hkv.
  destruct (transform_repos_ok _ Hkv) as (rs & -> & _). rewrite bind_ok.
  apply IH.
Qed.

Lemma tagged_sub (k : string) (l : list App.TagInfo) (t : App.TagInfo) :
  In t (tagged k l) <-> In t l /\ App.tag_name t = k.
Proof.
  unfold tagged. rewrite filter_In. now rewrite String.eqb_eq.
Qed.

Lemma group_of_match (l : list App.TagInfo) (t : App.TagInfo) :
  In t l -> (App.tag_name t, tagged (App.tag_name t) l) ∈ group_by_tag l.
Proof.
  intros Hin. apply dict_get_Some_elem_of. unfold group_by_tag.
  rewrite dict_get_group_fold. cbn [dict_get].
  destruct (tagged (App.tag_name t) l) eqn:E; [|reflexivity].
  assert (In t (tagged (App.tag_name t) l)) as Ht by now apply tagged_sub.
  rewrite E in Ht. destruct Ht.
Qed.

End Grouping.

(** X17.  The aggregation of a scan result succeeds exactly when every
    match has an author; otherwise it raises the [TypeError] of the
    address extraction and gives no dataset. *)
Theorem aggregation_needs_authors (schema_version now : string)
    (api_response : App.ScanResult) (organization : option string)
    (scan_type : string) :
  ((exists d,
       Transformer.transform_api_response schema_version now api_response
         organization scan_type = Ok d)
   <-> Forall (fun t => App.author t <> None) (App.tags_found api_response))
  /\ (forall e,
        Transformer.transform_api_response schema_version now api_response
          organization scan_type = Raise e ->
        e = TypeError "argument of type 'NoneType' is not iterable"
        /\ Exists (fun t => App.author t = None)
             (App.tags_found api_response)).
Proof.
  assert (forall e,
            Transformer.transform_api_response schema_version now api_response
              organization scan_type = Raise e ->
            e = TypeError "argument of type 'NoneType' is not iterable"
            /\ Exists (fun t => App.author t = None)
                 (App.tags_found api_response)) as Hraise.
  { intros e. unfold Transformer.transform_api_response. cbv zeta.
    destruct (Transformer.transform_groups _ []) as [res|e'] eqn:Hgroups;
      [discriminate|].
    rewrite bind_raise. intros [= <-].
    apply transform_groups_raise, Exists_exists in Hgroups
      as ([k infos] & Hin & Hrs).
    apply group_by_tag_entries in Hin. cbn [snd] in Hrs. subst infos.
    apply transform_repos_raise in Hrs as [-> Hex]. split; [reflexivity|].
    apply Exists_exists in Hex as (t & Ht & Hnone).
    apply Exists_exists. exists t. split; [|exact Hnone].
    apply list_elem_of_In. apply list_elem_of_In, tagged_sub in Ht. tauto. }
  split; [split|exact Hraise].
  - intros [d Hd]. apply Forall_forall. intros t Ht Hnone.
    destruct (Transformer.transform_api_response schema_version now
                api_response organization scan_type) as [d'|e] eqn:E;
      [|discriminate].
    clear Hraise. unfold Transformer.transform_api_response in E.
    cbv zeta in E. apply bind_inv in E as (res & Hgroups & _).
    apply transform_groups_inv in Hgroups as (entries & Hall & _).
    apply list_elem_of_In in Ht. pose proof (group_of_match _ _ Ht) as Hgroup.
    apply list_elem_of_In in Hgroup.
    destruct (Forall2_in_l _ _ _ _ Hall Hgroup) as (kg & _ & _ & rs & Hrs & _).
    cbn [snd] in Hrs. apply transform_repos_inv in Hrs.
    assert (In t (tagged (App.tag_name t) (App.tags_found api_response)))
      as Hin by now apply tagged_sub.
    destruct (Forall2_in_l _ _ _ _ Hrs Hin) as (r & _ & Hr).
    pose proof (transform_repo_inv t) as Hrepo. rewrite Hnone in Hrepo.
    congruence.
  - intros Hall. unfold Transformer.transform_api_response. cbv zeta.
    destruct (transform_groups_ok
                (Transformer.group_by_tag (App.tags_found api_response)))
      with (acc := @nil (string * Transformer.TagGroup)) as [res ->].
    + apply Forall_forall. intros [k infos] Hin.
      apply group_by_tag_entries in Hin. cbn [snd]. subst infos.
      apply Forall_forall. intros t Ht.
      apply list_elem_of_In, tagged_sub in Ht as [Ht _].
      rewrite Forall_forall in Hall. apply Hall. now apply list_elem_of_In.
    + rewrite bind_ok. eauto.
Qed.

Lemma aggregation_needs_authors_witness :
  exists d,
    Transformer.transform_api_response "1.0.0" "2024-06-01T12:00:00"
      (sample_scan [sample_match "1.0.0" "svc-a" "2024-01-01T00:00:00Z"])
      (Some "org") "specific_tag" = Ok d.
Proof.
  apply (proj1 (aggregation_needs_authors "1.0.0" "2024-06-01T12:00:00"
                  (sample_scan
                     [sample_match "1.0.0" "svc-a" "2024-01-01T00:00:00Z"])
                  (Some "org") "specific_tag")).
  repeat constructor. discriminate.
Defined.

Section GroupOrder.
Import Transformer.

Lemma mem_app (x : string) (a b : list string) :
  PyStr.mem x (a ++ b) = PyStr.mem x a || PyStr.mem x b.
Proof. unfold PyStr.mem. apply existsb_app. Qed.

Lemma filter_filter {A : Type} (f g : A -> bool) (l : list A) :
  List.filter f (List.filter g l) = List.filter (fun x => g x && f x) l.
Proof.
  induction l as [|x l IH]; [reflexivity|]. cbn [List.filter].
  destruct (g x); cbn [List.filter andb]; [|exact IH].
  destruct (f x); now rewrite IH.
Qed.

(** Adding keys one by one to a list of keys: the keys not yet there are
    appended in the order of their first occurrence. *)
Lemma fold_add_key (l ks : list string) :
  fold_left (fun ks k => if PyStr.mem k ks then ks else ks ++ [k]) l ks
  = ks ++ List.filter (fun k => negb (PyStr.mem k ks)) (first_seen l).
Proof.
  revert ks. induction l as [|k l IH]; intros ks; cbn [fold_left first_seen].
  - now rewrite app_nil_r.
  - rewrite IH. cbn [List.filter]. rewrite filter_filter.
    destruct (PyStr.mem k ks) eqn:Hk; cbn [negb].
    + f_equal. apply filter_ext_in. intros y _.
      destruct (String.eqb_spec y k) as [->|_]; cbn [negb andb];
        [now rewrite Hk | reflexivity].
    + rewrite <- app_assoc. cbn [app]. do 2 f_equal.
      apply filter_ext_in. intros y _. rewrite mem_app, negb_orb, andb_comm.
      f_equal. cbn [PyStr.mem existsb]. now rewrite orb_false_r.
Qed.

Lemma keys_group_fold (l : list App.TagInfo) (acc : dict (list App.TagInfo)) :
  keys (fold_left group_append l acc)
  = fold_left (fun ks k => if PyStr.mem k ks then ks else ks ++ [k])
      (map App.tag_name l) (keys acc).
Proof.
  revert acc. induction l as [|t l IH]; intros acc; cbn [fold_left map];
    [reflexivity|].
  rewrite IH. unfold group_append. now rewrite keys_dict_set.
Qed.

Lemma keys_update (V : Type) (d other : dict V) :
  keys (dict_update d other)
  = keys d
    ++ List.filter (fun k => negb (PyStr.mem k (keys d)))
         (first_seen (keys other)).
Proof.
  rewrite <- fold_add_key. unfold dict_update. revert d.
  induction other as [|[k v] other IH]; intros d; [reflexivity|].
  change (keys ((k, v) :: other)) with (k :: keys other).
  cbn [fold_left fst snd]. rewrite IH. now rewrite keys_dict_set.
Qed.

Lemma first_seen_NoDup (l : list string) : NoDup l -> first_seen l = l.
Proof.
  induction l as [|x l IH]; intros H; cbn [first_seen]; [reflexivity|].
  apply NoDup_cons in H as [Hx Hl]. rewrite (IH Hl). f_equal.
  apply forallb_filter_id. apply forallb_forall. intros y Hy.
  destruct (String.eqb_spec y x) as [->|_]; [|reflexivity].
  destruct Hx. now apply list_elem_of_In.
Qed.

Lemma dict_set_fresh {V : Type} (k : string) (v : V) (d : dict V) :
  PyStr.mem k (keys d) = false -> dict_set k v d = d ++ [(k, v)].
Proof.
  unfold keys, PyStr.mem. induction d as [|[k' v'] d IH];
    cbn [map existsb dict_set app fst]; [reflexivity|].
  intros H. apply orb_false_elim in H as [Hk Hd].
  rewrite String.eqb_sym, Hk. now rewrite (IH Hd).
Qed.

Lemma dict_update_fresh {V : Type} (d other : dict V) :
  NoDup (keys d ++ keys other) -> dict_update d other = d ++ other.
Proof.
  unfold dict_update. revert d.
  induction other as [|[k v] other IH]; intros d H; cbn [fold_left fst snd].
  - now rewrite app_nil_r.
  - assert (PyStr.mem k (keys d) = false) as Hk.
    { destruct (PyStr.mem k (keys d)) eqn:E; [|reflexivity].
      apply mem_elem_of in E. apply NoDup_app in H as (_ & H & _).
      destruct (H k E). apply elem_of_cons. now left. }
    rewrite (dict_set_fresh _ _ _ Hk), IH.
    + now rewrite <- app_assoc.
    + unfold keys in *. rewrite map_app, <- app_assoc. exact H.
Qed.

Lemma keys_Forall2 {V W : Type} (a : dict V) (b : dict W) :
  Forall2 (fun kv kw => fst kw = fst kv) a b -> keys b = keys a.
Proof.
  induction 1 as [|kv kw a b Hk _ IH]; [reflexivity|].
  unfold keys in *. cbn [map]. now rewrite Hk, IH.
Qed.

(** The tags map of the aggregation, entry by entry. *)
Lemma transform_groups_entries (l : list App.TagInfo) (res : dict TagGroup) :
  transform_groups (group_by_tag l) [] = Ok res ->
  Forall2 (fun kv kg =>
             fst kg = fst kv
             /\ exists rs, transform_repos (snd kv) = Ok rs
                           /\ snd kg = make_tag_group (fst kv) rs)
    (group_by_tag l) res.
Proof.
  intros H. apply transform_groups_inv in H as (entries & Hall & ->).
  rewrite dict_update_fresh; [exact Hall|]. cbn [keys map app].
  rewrite (keys_Forall2 (group_by_tag l) entries).
  - apply NoDup_keys_group_fold, NoDup_nil_2.
  - eapply Forall2_impl; [exact Hall|]. now intros kv kg [Hk _].
Qed.

End GroupOrder.

Section StringOrder.

Lemma string_leb_refl (s : string) : String.leb s s = true.
Proof.
  unfold String.leb. induction s as [|c s IH]; [reflexivity|].
  cbn [String.compare]. unfold Ascii.compare. now rewrite N.compare_refl.
Qed.

Lemma string_leb_trans (a b c : string) :
  String.leb a b = true -> String.leb b c = true -> String.leb a c = true.
Proof.
  unfold String.leb. revert b c.
  induction a as [|x a IH]; intros [|y b] [|z c]; cbn [String.compare];
    try congruence.
  unfold Ascii.compare.
  destruct (N.compare_spec (N_of_ascii x) (N_of_ascii y)) as [Hxy|Hxy|Hxy];
    destruct (N.compare_spec (N_of_ascii y) (N_of_ascii z)) as [Hyz|Hyz|Hyz];
    destruct (N.compare_spec (N_of_ascii x) (N_of_ascii z)) as [Hxz|Hxz|Hxz];
    try congruence; try lia.
  apply IH.
Qed.

Lemma string_ltb_leb (a b : string) :
  String.ltb a b = true -> String.leb a b = true.
Proof.
  unfold String.ltb, String.leb. now destruct (String.compare a b).
Qed.

Lemma string_ltb_false_leb (a b : string) :
  String.ltb a b = false -> String.leb b a = true.
Proof.
  unfold String.ltb, String.leb. rewrite (String.compare_antisym a b).
  now destruct (String.compare b a).
Qed.

Lemma string_leb_empty (s : string) : String.leb "" s = true.
Proof. now destruct s. Qed.

(** [max] over strings returns an element that no element exceeds. *)
Lemma max_from_greatest (l : list string) :
  forall best,
    In (PyStr.max_from best l) (best :: l)
    /\ Forall (fun s => String.leb s (PyStr.max_from best l) = true)
         (best :: l).
Proof.
  induction l as [|s l IH]; intros best; cbn [PyStr.max_from].
  - split; [now left|]. constructor; [apply string_leb_refl | constructor].
  - destruct (IH (if String.ltb best s then s else best)) as [Hin Hall].
    apply Forall_cons in Hall as [Hbest Hall].
    destruct (String.ltb best s) eqn:E.
    + split; [right; exact Hin|].
      constructor; [|constructor; assumption].
      eapply string_leb_trans; [apply string_ltb_leb, E | exact Hbest].
    + split; [destruct Hin as [<-|Hin]; [now left | right; now right]|].
      constructor; [exact Hbest|]. constructor; [|exact Hall].
      eapply string_leb_trans; [apply string_ltb_false_leb, E | exact Hbest].
Qed.

Lemma max_or_empty_greatest (l : list string) :
  (l = [] /\ PyStr.max_or_empty l = "" \/ In (PyStr.max_or_empty l) l)
  /\ Forall (fun s => String.leb s (PyStr.max_or_empty l) = true) l.
Proof.
  destruct l as [|s l]; [split; [now left | constructor]|].
  cbn [PyStr.max_or_empty].
  destruct (max_from_greatest l s) as [Hin Hall]. split; [now right | exact Hall].
Qed.

End StringOrder.

Section AggregationStatements.
Import Transformer.

Lemma Forall2_in_r {A B : Type} (P : A -> B -> Prop) (l : list A)
    (k : list B) (y : B) :
  Forall2 P l k -> In y k -> exists x, In x l /\ P x y.
Proof.
  induction 1 as [|a b l k Hab _ IH]; intros Hin; [destruct Hin|].
  destruct Hin as [<-|Hin].
  - exists a. split; [now left | exact Hab].
  - destruct (IH Hin) as (x & Hx & Hxy). exists x. split; [now right | exact Hxy].
Qed.

Lemma transform_repo_record (t : App.TagInfo) (r : RepositoryRecord) :
  transform_repo t = Ok r -> record_of t r.
Proof.
  intros H. pose proof (transform_repo_inv t) as Hrepo.
  destruct (App.author t) as [a|] eqn:Ha; [|congruence].
  destruct Hrepo as (email & _ & Hrepo). rewrite Hrepo in H.
  injection H as <-. unfold record_of. cbn.
  repeat split; try reflexivity; [|now rewrite Ha].
  now destruct (App.commit_id t).
Qed.

(** The entry of the tags map under [k]: the group built from the matches
    tagged [k]. *)
Lemma aggregated_group (schema_version now : string)
    (api_response : App.ScanResult) (organization : option string)
    (scan_type : string) (d : Dataset) (k : string) (g : TagGroup) :
  transform_api_response schema_version now api_response organization
    scan_type = Ok d ->
  In (k, g) (tags d) ->
  tagged k (App.tags_found api_response) <> []
  /\ exists rs,
       Forall2 record_of (tagged k (App.tags_found api_response)) rs
       /\ g = make_tag_group k rs.
Proof.
  intros H Hin. apply transform_api_response_inv in H as [Hgroups _].
  apply transform_groups_entries in Hgroups.
  destruct (Forall2_in_r _ _ _ _ Hgroups Hin)
    as ([k' infos] & Hgroup & Hk & rs & Hrs & Hg).
  cbn [fst snd] in *. subst k'.
  apply list_elem_of_In in Hgroup. pose proof Hgroup as Hentry.
  apply group_by_tag_entries in Hentry. subst infos. split.
  - intros Hnil. unfold group_by_tag in Hgroup.
    apply dict_get_elem_of in Hgroup;
      [|apply NoDup_keys_group_fold, NoDup_nil_2].
    rewrite dict_get_group_fold in Hgroup. cbn [dict_get] in Hgroup.
    now rewrite Hnil in Hgroup.
  - exists rs. split; [|exact Hg].
    eapply Forall2_impl; [exact (transform_repos_inv _ _ Hrs)|].
    intros t r. apply transform_repo_record.
Qed.

End AggregationStatements.

(** X18.  The tag names of an aggregated dataset are the tag names of the
    matches, each once, in the order in which they first occur in the
    scan result. *)
Theorem aggregation_keeps_first_seen_order (schema_version now : string)
    (api_response : App.ScanResult) (organization : option string)
    (scan_type : string) (d : Transformer.Dataset) :
  Transformer.transform_api_response schema_version now api_response
    organization scan_type = Ok d ->
  keys (Transformer.tags d)
  = first_seen (map App.tag_name (App.tags_found api_response))
  /\ NoDup (keys (Transformer.tags d)).
Proof.
  intros H. apply transform_api_response_inv in H as [Hgroups _].
  apply transform_groups_entries in Hgroups.
  assert (keys (Transformer.tags d)
          = keys (Transformer.group_by_tag (App.tags_found api_response)))
    as Hkeys.
  { apply keys_Forall2. eapply Forall2_impl; [exact Hgroups|].
    now intros kv kg [Hk _]. }
  split.
  - rewrite Hkeys. unfold Transformer.group_by_tag.
    rewrite keys_group_fold, fold_add_key. cbn [keys map app].
    apply forallb_filter_id. now apply forallb_forall.
  - rewrite Hkeys. apply NoDup_keys_group_fold, NoDup_nil_2.
Qed.

Lemma aggregation_keeps_first_seen_order_witness :
  keys (Transformer.tags
          (sample_dataset "2024-06-01T12:00:00"
             [sample_match "2.0.0" "svc-a" "2024-03-01T00:00:00Z";
              sample_match "1.0.0" "svc-a" "2024-01-01T00:00:00Z";
              sample_match "2.0.0" "svc-b" "2024-02-01T00:00:00Z"]))
  = ["2.0.0"; "1.0.0"].
Proof.
  exact (proj1 (aggregation_keeps_first_seen_order "1.0.0"
                  "2024-06-01T12:00:00"
                  (sample_scan
                     [sample_match "2.0.0" "svc-a" "2024-03-01T00:00:00Z";
                      sample_match "1.0.0" "svc-a" "2024-01-01T00:00:00Z";
                      sample_match "2.0.0" "svc-b" "2024-02-01T00:00:00Z"])
                  (Some "org") "specific_tag" _ eq_refl)).
Defined.

(** X19.  Each tag group of an aggregated dataset holds one record for
    each match carrying its tag name, in scan order and with the fields
    of the match; the group is not empty, its count is the number of these
    matches, every record has its deployment status and environment at
    ["unknown"], and the summary lists no deployment environment. *)
Theorem aggregation_groups_matches_by_tag (schema_version now : string)
    (api_response : App.ScanResult) (organization : option string)
    (scan_type : string) (d : Transformer.Dataset) (k : string)
    (g : Transformer.TagGroup) :
  Transformer.transform_api_response schema_version now api_response
    organization scan_type = Ok d ->
  In (k, g) (Transformer.tags d) ->
  Transformer.tag_name g = k
  /\ tagged k (App.tags_found api_response) <> []
  /\ Forall2 record_of (tagged k (App.tags_found api_response))
       (Transformer.repositories g)
  /\ Transformer.total_repositories (Transformer.summary g)
     = length (tagged k (App.tags_found api_response))
  /\ Transformer.deployment_environments (Transformer.summary g) = ∅.
Proof.
  intros H Hin.
  destruct (aggregated_group _ _ _ _ _ _ _ _ H Hin) as (Hne & rs & Hrs & ->).
  cbn. split; [reflexivity|]. split; [exact Hne|]. split; [exact Hrs|].
  split; [symmetry; eapply Forall2_length; exact Hrs|].
  replace (List.filter _ (map Transformer.environment rs)) with (@nil string);
    [reflexivity|].
  clear -Hrs. induction Hrs as [|t r ts rs Hr _ IH]; [reflexivity|].
  cbn [map List.filter]. destruct Hr as (_ & _ & _ & _ & _ & _ & _ & _ & _ & _ & ->).
  exact IH.
Qed.

Lemma aggregation_groups_matches_by_tag_witness :
  exists g,
    In ("2.0.0", g) (Transformer.tags sample_incoming)
    /\ Transformer.total_repositories (Transformer.summary g) = 2
    /\ Transformer.deployment_environments (Transformer.summary g) = ∅.
Proof.
  eexists. split; [left; reflexivity|].
  destruct (aggregation_groups_matches_by_tag "1.0.0" "2024-07-01T12:00:00"
              (sample_scan
                 [sample_match "2.0.0" "svc-a" "2024-03-01T00:00:00Z";
                  sample_match "2.0.0" "svc-b" "2024-02-01T00:00:00Z"])
              (Some "org") "specific_tag" sample_incoming "2.0.0" _
              eq_refl (or_introl eq_refl))
    as (_ & _ & _ & Htotal & Henv).
  split; [exact Htotal | exact Henv].
Defined.

Lemma present_dates_elem (rs : list Transformer.RepositoryRecord)
    (dt : string) :
  In dt (Transformer.present_dates rs)
  <-> dt <> "" /\ exists r, In r rs /\ Transformer.date r = Some dt.
Proof.
  unfold Transformer.present_dates.
  rewrite <- list_elem_of_In, list_elem_of_omap. split.
  - intros (r & Hr & Hdt). destruct (Transformer.date r) as [x|] eqn:Hx;
      [|discriminate].
    destruct (PyStr.truthy x) eqn:Ht; [|discriminate]. injection Hdt as ->.
    split; [now apply truthy_nonempty|]. exists r.
    split; [now apply list_elem_of_In | exact Hx].
  - intros (Hne & r & Hr & Hdt). exists r.
    split; [now apply list_elem_of_In|]. rewrite Hdt.
    now rewrite (proj2 (truthy_nonempty dt) Hne).
Qed.

(** X20.  The latest commit date of a tag group is the greatest, in the
    order of strings, of the dates of the matches carrying the tag name:
    no such date exceeds it, and it is one of them unless none of them
    has a date, in which case it is empty. *)
Theorem latest_commit_date_is_greatest (schema_version now : string)
    (api_response : App.ScanResult) (organization : option string)
    (scan_type : string) (d : Transformer.Dataset) (k : string)
    (g : Transformer.TagGroup) :
  Transformer.transform_api_response schema_version now api_response
    organization scan_type = Ok d ->
  In (k, g) (Transformer.tags d) ->
  (forall t dt,
      In t (App.tags_found api_response) ->
      App.tag_name t = k ->
      App.date t = Some dt ->
      String.leb dt
        (Transformer.latest_commit_date (Transformer.summary g)) = true)
  /\ (Transformer.latest_commit_date (Transformer.summary g) = ""
      \/ exists t,
           In t (App.tags_found api_response)
           /\ App.tag_name t = k
           /\ App.date t
              = Some (Transformer.latest_commit_date (Transformer.summary g))).
Proof.
  intros H Hin.
  destruct (aggregated_group _ _ _ _ _ _ _ _ H Hin) as (_ & rs & Hrs & ->).
  cbn [Transformer.summary Transformer.make_tag_group
         Transformer.latest_commit_date].
  destruct (max_or_empty_greatest (Transformer.present_dates rs))
    as [Hmax Hall].
  split.
  - intros t dt Ht Hk Hdt.
    destruct dt as [|c dt]; [apply string_leb_empty|].
    rewrite Forall_forall in Hall. apply Hall, list_elem_of_In.
    apply present_dates_elem. split; [discriminate|].
    destruct (Forall2_in_l _ _ _ _ Hrs (proj2 (tagged_sub k _ t) (conj Ht Hk)))
      as (r & Hr & Hrec).
    exists r. split; [exact Hr|].
    destruct Hrec as (_ & _ & _ & _ & -> & _). exact Hdt.
  - destruct Hmax as [[_ ->]|Hmax]; [now left | right].
    apply present_dates_elem in Hmax as (_ & r & Hr & Hdt).
    destruct (Forall2_in_r _ _ _ _ Hrs Hr) as (t & Ht & Hrec).
    apply tagged_sub in Ht as [Ht Hk]. exists t.
    split; [exact Ht|]. split; [exact Hk|].
    destruct Hrec as (_ & _ & _ & _ & <- & _). exact Hdt.
Qed.

Lemma latest_commit_date_is_greatest_witness :
  exists g,
    In ("2.0.0", g) (Transformer.tags sample_incoming)
    /\ Transformer.latest_commit_date (Transformer.summary g)
       = "2024-03-01T00:00:00Z"
    /\ String.leb "2024-02-01T00:00:00Z"
         (Transformer.latest_commit_date (Transformer.summary g)) = true.
Proof.
  eexists. split; [left; reflexivity|]. split; [reflexivity|].
  exact (proj1 (latest_commit_date_is_greatest "1.0.0" "2024-07-01T12:00:00"
                  (sample_scan
                     [sample_match "2.0.0" "svc-a" "2024-03-01T00:00:00Z";
                      sample_match "2.0.0" "svc-b" "2024-02-01T00:00:00Z"])
                  (Some "org") "specific_tag" sample_incoming "2.0.0" _
                  eq_refl (or_introl eq_refl))
           (sample_match "2.0.0" "svc-b" "2024-02-01T00:00:00Z")
           "2024-02-01T00:00:00Z" (or_intror (or_introl eq_refl))
           eq_refl eq_refl).
Defined.

(** X21.  The most common tag of the statistics is the first tag name,
    in the order of the tags map, whose group has the greatest count:
    among several groups of the greatest count the earliest wins. *)
Theorem most_common_tag_is_first_greatest
    (tags_dict before : dict Transformer.TagGroup) (k : string)
    (g : Transformer.TagGroup) (after : dict Transformer.TagGroup) :
  NoDup (keys tags_dict) ->
  tags_dict = before ++ (k, g) :: after ->
  Forall (fun kv =>
            Transformer.total_repositories (Transformer.summary (snd kv))
            < Transformer.total_repositories (Transformer.summary g)) before ->
  Forall (fun kv =>
            Transformer.total_repositories (Transformer.summary (snd kv))
            <= Transformer.total_repositories (Transformer.summary g)) after ->
  Transformer.most_common_tag (Transformer.calculate_statistics tags_dict) = k.
Proof.
  intros Hnd Heq Hb Ha.
  cbn [Transformer.calculate_statistics Transformer.most_common_tag].
  set (count := fun kv : string * Transformer.TagGroup =>
                  (fst kv,
                   Transformer.total_repositories
                     (Transformer.summary (snd kv)))).
  apply (max_key_first_greatest _ (map count before) k
           (Transformer.total_repositories (Transformer.summary g))
           (map count after)).
  - unfold keys. rewrite map_map. exact Hnd.
  - rewrite Heq, map_app. reflexivity.
  - rewrite Forall_map. exact Hb.
  - rewrite Forall_map. exact Ha.
Qed.

Lemma most_common_tag_is_first_greatest_witness :
  Transformer.most_common_tag
    (Transformer.statistics
       (sample_dataset "2024-06-01T12:00:00"
          [sample_match "2.0.0" "svc-a" "2024-03-01T00:00:00Z";
           sample_match "1.0.0" "svc-a" "2024-01-01T00:00:00Z"]))
  = "2.0.0".
Proof.
  refine (most_common_tag_is_first_greatest
            (Transformer.tags
               (sample_dataset "2024-06-01T12:00:00"
                  [sample_match "2.0.0" "svc-a" "2024-03-01T00:00:00Z";
                   sample_match "1.0.0" "svc-a" "2024-01-01T00:00:00Z"]))
            [] "2.0.0" _ _ _ eq_refl _ _).
  - apply (bool_decide_unpack _). vm_compute. exact I.
  - constructor.
  - repeat constructor.
Defined.

(** X22.  The latest tag date of the statistics is the greatest, in the
    order of strings, of the latest commit dates of the groups: no group
    exceeds it, and it is the date of a group unless every group has an
    empty one, in which case it is empty. *)
Theorem latest_tag_date_is_greatest (tags_dict : dict Transformer.TagGroup) :
  Forall (fun kv =>
            String.leb
              (Transformer.latest_commit_date (Transformer.summary (snd kv)))
              (Transformer.latest_tag_date
                 (Transformer.calculate_statistics tags_dict)) = true)
    tags_dict
  /\ (Transformer.latest_tag_date (Transformer.calculate_statistics tags_dict)
      = ""
      \/ exists kv,
           In kv tags_dict
           /\ Transformer.latest_commit_date (Transformer.summary (snd kv))
              = Transformer.latest_tag_date
                  (Transformer.calculate_statistics tags_dict)).
Proof.
  cbn [Transformer.calculate_statistics Transformer.latest_tag_date].
  set (dates := map (fun kv =>
                       Transformer.latest_commit_date
                         (Transformer.summary (snd kv))) tags_dict).
  destruct (max_or_empty_greatest (List.filter PyStr.truthy dates))
    as [Hmax Hall].
  split.
  - apply Forall_forall. intros kv Hkv.
    destruct (Transformer.latest_commit_date (Transformer.summary (snd kv)))
      as [|c s] eqn:E; [apply string_leb_empty|].
    rewrite Forall_forall in Hall. apply Hall, list_elem_of_In, filter_In.
    split; [|reflexivity]. rewrite <- E. unfold dates.
    apply in_map_iff. exists kv. split; [reflexivity|].
    now apply list_elem_of_In.
  - destruct Hmax as [[_ ->]|Hmax]; [now left | right].
    apply filter_In in Hmax as [Hmax _]. unfold dates in Hmax.
    apply in_map_iff in Hmax as (kv & Hkv & Hin). now exists kv.
Qed.

(** ** The deployment enhancement *)

Section EnhancementStatements.
Import Transformer.

Lemma enhance_repo_idem cfg (k : string) (r : RepositoryRecord) :
  enhance_repo cfg k (enhance_repo cfg k r) = enhance_repo cfg k r.
Proof.
  unfold enhance_repo at 1. rewrite enhance_repo_name.
  unfold enhance_repo.
  destruct (dict_get (repository_name r) cfg) as [rc|]; [|reflexivity].
  destruct (dict_get k _); reflexivity.
Qed.

Lemma enhance_entry_idem cfg (kv : string * TagGroup) :
  enhance_entry cfg (enhance_entry cfg kv) = enhance_entry cfg kv.
Proof.
  destruct kv as [k g]. unfold enhance_entry. cbn. f_equal.
  unfold recalculate_environments. cbn. rewrite !map_map.
  assert (map (fun r => enhance_repo cfg k (enhance_repo cfg k r))
            (repositories g)
          = map (enhance_repo cfg k) (repositories g)) as Hrepos.
  { apply map_ext. intros r. apply enhance_repo_idem. }
  f_equal; [exact Hrepos|]. f_equal. f_equal. f_equal.
  rewrite <- (map_map (fun r => enhance_repo cfg k (enhance_repo cfg k r))
                environment), Hrepos.
  now rewrite map_map.
Qed.

End EnhancementStatements.

(** X23.  The deployment enhancement is idempotent: enhancing an enhanced
    dataset again with the same configuration changes nothing. *)
Theorem enhancement_is_idempotent (d : Transformer.Dataset)
    (deployment_config : dict Transformer.DeploymentConfig.RepoConfig) :
  Transformer.enhance_with_deployment_info
    (Transformer.enhance_with_deployment_info d deployment_config)
    deployment_config
  = Transformer.enhance_with_deployment_info d deployment_config.
Proof.
  assert (forall x y : Transformer.Dataset,
            Transformer.metadata x = Transformer.metadata y ->
            Transformer.tags x = Transformer.tags y ->
            Transformer.statistics x = Transformer.statistics y -> x = y)
    as Hext.
  { intros [] []. cbn. congruence. }
  apply Hext; [reflexivity| |reflexivity].
  rewrite !enhance_tags, map_map. apply map_ext. intros kv.
  apply enhance_entry_idem.
Qed.

(** X24.  After the enhancement the deployment environments of every
    summary are those of the records of its group, ["unknown"] and
    ["none"] left out. *)
Theorem enhancement_summarises_environments (d : Transformer.Dataset)
    (deployment_config : dict Transformer.DeploymentConfig.RepoConfig)
    (k : string) (g : Transformer.TagGroup) (e : string) :
  In (k, g)
    (Transformer.tags
       (Transformer.enhance_with_deployment_info d deployment_config)) ->
  e ∈ Transformer.deployment_environments (Transformer.summary g)
  <-> e <> "unknown" /\ e <> "none"
      /\ exists r,
           In r (Transformer.repositories g)
           /\ Transformer.environment r = e.
Proof.
  rewrite enhance_tags. intros Hin.
  apply in_map_iff in Hin as ([k0 g0] & [= <- <-] & _).
  cbn [Transformer.recalculate_environments Transformer.summary
         Transformer.deployment_environments Transformer.repositories].
  rewrite elem_of_list_to_set, list_elem_of_In, filter_In, in_map_iff.
  cbn [PyStr.mem existsb]. rewrite orb_false_r, negb_orb, andb_true_iff.
  rewrite !negb_true_iff, !String.eqb_neq.
  split; [intros ((r & Hr & Hin) & H1 & H2) | intros (H1 & H2 & r & Hin & Hr)];
    eauto 6.
Qed.

Lemma enhancement_summarises_environments_witness :
  exists g,
    In ("2.0.0", g)
      (Transformer.tags
         (Transformer.enhance_with_deployment_info sample_incoming
            sample_deployment))
    /\ "production"
       ∈ Transformer.deployment_environments (Transformer.summary g).
Proof.
  eexists. split; [left; reflexivity|].
  apply (enhancement_summarises_environments sample_incoming sample_deployment
           "2.0.0" _ "production" (or_introl eq_refl)).
  split; [discriminate|]. split; [discriminate|].
  eexists. split; [left; reflexivity | reflexivity].
Defined.

(** X25.  Enhancing a freshly aggregated dataset with a configuration
    that names none of its repositories, the empty configuration among
    them, returns the dataset unchanged. *)
Theorem enhancement_without_configured_repositories
    (schema_version now : string) (api_response : App.ScanResult)
    (organization : option string) (scan_type : string)
    (d : Transformer.Dataset)
    (deployment_config : dict Transformer.DeploymentConfig.RepoConfig) :
  Transformer.transform_api_response schema_version now api_response
    organization scan_type = Ok d ->
  Forall (fun t => dict_get (App.repository_name t) deployment_config = None)
    (App.tags_found api_response) ->
  Transformer.enhance_with_deployment_info d deployment_config = d.
Proof.
  intros H Hcfg.
  assert (forall x y : Transformer.Dataset,
            Transformer.metadata x = Transformer.metadata y ->
            Transformer.tags x = Transformer.tags y ->
            Transformer.statistics x = Transformer.statistics y -> x = y)
    as Hext.
  { intros [] []. cbn. congruence. }
  apply Hext; [reflexivity| |reflexivity].
  rewrite enhance_tags. rewrite <- (map_id (Transformer.tags d)) at 2.
  apply map_ext_in. intros [k g] Hin.
  destruct (aggregated_group _ _ _ _ _ _ _ _ H Hin) as (_ & rs & Hrs & ->).
  unfold enhance_entry. cbn [fst snd]. f_equal.
  assert (Forall (fun r =>
                    dict_get (Transformer.repository_name r) deployment_config
                    = None
                    /\ Transformer.environment r = "unknown") rs) as Hall.
  { clear -Hrs Hcfg. rewrite Forall_forall in Hcfg. apply Forall_forall.
    intros r Hr. apply list_elem_of_In in Hr.
    destruct (Forall2_in_r _ _ _ _ Hrs Hr) as (t & Ht & Hrec).
    apply tagged_sub in Ht as [Ht _].
    destruct Hrec as (-> & _ & _ & _ & _ & _ & _ & _ & _ & _ & ->).
    split; [apply Hcfg; now apply list_elem_of_In | reflexivity]. }
  assert (map (Transformer.enhance_repo deployment_config k) rs = rs)
    as Hrepos.
  { clear -Hall. induction Hall as [|r rs [Hr _] _ IH]; [reflexivity|].
    cbn [map]. rewrite IH. f_equal. unfold Transformer.enhance_repo.
    now rewrite Hr. }
  unfold Transformer.recalculate_environments, Transformer.enhance_group,
    Transformer.make_tag_group.
  cbn [Transformer.tag_name Transformer.repositories Transformer.summary
         Transformer.total_repositories Transformer.latest_commit_date].
  rewrite Hrepos. do 3 f_equal.
  clear -Hall. induction Hall as [|r rs [_ Hr] _ IH]; [reflexivity|].
  cbn [map List.filter]. rewrite Hr. exact IH.
Qed.

Lemma enhancement_without_configured_repositories_witness :
  Transformer.enhance_with_deployment_info sample_existing
    [("svc-z", {| Transformer.DeploymentConfig.deployed_versions := None |})]
  = sample_existing.
Proof.
  apply (enhancement_without_configured_repositories "1.0.0"
           "2024-06-01T12:00:00"
           (sample_scan [sample_match "1.0.0" "svc-a" "2024-01-01T00:00:00Z"])
           (Some "org") "specific_tag").
  - reflexivity.
  - repeat constructor.
Defined.

(** ** The merge *)

Section MergeFrame.
Import Transformer.

(** The objects of the store a merge leaves as they were: all but the
    tags dictionary of [existing_data]. *)
Lemma merge_scan_results_frame (h : gmap loc object)
    (existing_data new_data : loc) (A B : Dataset)
    (h' : gmap loc object) (merged_data : loc) :
  read_dataset h existing_data = Some A ->
  read_dataset h new_data = Some B ->
  merge_scan_results h existing_data new_data = Some (h', merged_data) ->
  (forall x o,
      h !! x = Some o -> tags_ref h existing_data <> Some x ->
      h' !! x = Some o)
  /\ tags_ref h' merged_data = tags_ref h existing_data
  /\ tags_ref h' existing_data = tags_ref h existing_data.
Proof.
  intros HA HB. unfold read_dataset in HA, HB. unfold tags_ref.
  destruct (h !! existing_data) as [[ma ta sa| | |]|] eqn:Ea; try discriminate.
  destruct (h !! ma) as [[|mA| |]|] eqn:Ema; try discriminate.
  destruct (h !! ta) as [[| |tA|]|] eqn:Eta; try discriminate.
  destruct (h !! sa) as [[| | |sA]|] eqn:Esa; try discriminate.
  destruct (h !! new_data) as [[mb tb sb| | |]|] eqn:Eb; try discriminate.
  destruct (h !! tb) as [[| |tB|]|] eqn:Etb;
    try (destruct (h !! mb) as [[| | |]|]; discriminate).
  clear HA HB.
  unfold merge_scan_results. rewrite Ea, Eb. unfold alloc.
  set (l1 := fresh (dom h)).
  set (h2 := <[l1 := DatasetObj mb ta sa]> (<[l1 := DatasetObj ma ta sa]> h)).
  assert (forall x o, h !! x = Some o -> h2 !! x = Some o) as Hh2.
  { intros x o Hx. unfold h2.
    rewrite !lookup_insert_ne by (symmetry; eapply allocated_not_fresh; eauto).
    exact Hx. }
  rewrite (Hh2 _ _ Eta), (Hh2 _ _ Etb).
  set (tM := dict_update tA tB).
  set (h3 := <[ta := TagsObj tM]> h2).
  set (l2 := fresh (dom h3)).
  set (st := calculate_statistics tM).
  assert (h2 !! l1 = Some (DatasetObj mb ta sa)) as Hl1
    by (unfold h2; apply lookup_insert_eq).
  intros [= <- <-].
  assert (forall x o, h !! x = Some o -> x <> ta ->
            (<[l1 := DatasetObj mb ta l2]>
               (<[l2 := StatisticsObj st]> h3)) !! x = Some o) as Hh5.
  { intros x o Hx Hne.
    assert (h3 !! x = Some o) as Hx3.
    { unfold h3. rewrite lookup_insert_ne by congruence. now apply Hh2. }
    rewrite lookup_insert_ne
      by (symmetry; eapply allocated_not_fresh; eauto).
    rewrite lookup_insert_ne
      by (symmetry; eapply (allocated_not_fresh h3); eauto).
    exact Hx3. }
  split; [|split].
  - intros x o Hx Hne. apply Hh5; [exact Hx | congruence].
  - now rewrite lookup_insert_eq.
  - rewrite (Hh5 _ _ Ea); [reflexivity|]. intros ->. congruence.
Qed.

End MergeFrame.

(** X26.  A merge keeps the tag names of the existing dataset where they
    stand and appends the tag names that only the incoming dataset has,
    in the order in which they first occur there. *)
Theorem merge_keeps_key_order (h : gmap Transformer.loc Transformer.object)
    (existing_data new_data : Transformer.loc) (A B : Transformer.Dataset) :
  Transformer.read_dataset h existing_data = Some A ->
  Transformer.read_dataset h new_data = Some B ->
  exists h' merged_data M,
    Transformer.merge_scan_results h existing_data new_data
    = Some (h', merged_data)
    /\ Transformer.read_dataset h' merged_data = Some M
    /\ keys (Transformer.tags M)
       = keys (Transformer.tags A)
         ++ List.filter
              (fun k => negb (PyStr.mem k (keys (Transformer.tags A))))
              (first_seen (keys (Transformer.tags B))).
Proof.
  intros HA HB.
  destruct (merge_scan_results_spec h existing_data new_data A B HA HB)
    as (h' & merged_data & Hmerge & _ & Hread & _).
  eexists h', merged_data, _. split; [exact Hmerge|]. split; [exact Hread|].
  cbn [Transformer.tags]. apply keys_update.
Qed.

Lemma merge_keeps_key_order_witness :
  exists h' merged_data M,
    Transformer.merge_scan_results sample_store.1.1 sample_store.1.2
      sample_store.2 = Some (h', merged_data)
    /\ Transformer.read_dataset h' merged_data = Some M
    /\ keys (Transformer.tags M) = ["1.0.0"; "2.0.0"].
Proof.
  destruct (merge_keeps_key_order sample_store.1.1 sample_store.1.2
              sample_store.2 sample_existing sample_incoming
              (proj1 sample_store_reads) (proj2 sample_store_reads))
    as (h' & merged_data & M & Hmerge & Hread & Hkeys).
  exists h', merged_data, M. split; [exact Hmerge|]. split; [exact Hread|].
  exact Hkeys.
Defined.

(** X27.  A merge writes to one object that was there before the call,
    the tags dictionary of the existing dataset, which the dataset it
    returns shares with the existing one; every other object is left as
    it was, and the incoming dataset reads as before when its tags
    dictionary is not that of the existing dataset. *)
Theorem merge_changes_only_the_existing_tags
    (h : gmap Transformer.loc Transformer.object)
    (existing_data new_data : Transformer.loc) (A B : Transformer.Dataset)
    (h' : gmap Transformer.loc Transformer.object)
    (merged_data : Transformer.loc) :
  Transformer.read_dataset h existing_data = Some A ->
  Transformer.read_dataset h new_data = Some B ->
  Transformer.merge_scan_results h existing_data new_data
    = Some (h', merged_data) ->
  (forall x o,
      h !! x = Some o -> tags_ref h existing_data <> Some x ->
      h' !! x = Some o)
  /\ tags_ref h' merged_data = tags_ref h existing_data
  /\ tags_ref h' existing_data = tags_ref h existing_data
  /\ (tags_ref h new_data <> tags_ref h existing_data ->
      Transformer.read_dataset h' new_data = Some B).
Proof.
  intros HA HB Hmerge.
  destruct (merge_scan_results_frame h existing_data new_data A B h'
              merged_data HA HB Hmerge) as (Hframe & Hshare & Hkeep).
  split; [exact Hframe|]. split; [exact Hshare|]. split; [exact Hkeep|].
  intros Hne. unfold Transformer.read_dataset in HA, HB |- *.
  unfold tags_ref in Hne, Hframe.
  destruct (h !! existing_data) as [[ma ta sa| | |]|] eqn:Ea; try discriminate.
  destruct (h !! ta) as [[| |tA|]|] eqn:Eta;
    try (destruct (h !! ma) as [[| | |]|]; discriminate).
  destruct (h !! new_data) as [[mb tb sb| | |]|] eqn:Eb; try discriminate.
  destruct (h !! mb) as [[|mB| |]|] eqn:Emb; try discriminate.
  destruct (h !! tb) as [[| |tB|]|] eqn:Etb; try discriminate.
  destruct (h !! sb) as [[| | |sB]|] eqn:Esb; try discriminate.
  rewrite (Hframe _ _ Eb) by (intros [= ->]; congruence).
  rewrite (Hframe _ _ Emb) by (intros [= ->]; congruence).
  rewrite (Hframe _ _ Etb) by (intros [= ->]; congruence).
  rewrite (Hframe _ _ Esb) by (intros [= ->]; congruence).
  exact HB.
Qed.

Lemma merge_changes_only_the_existing_tags_witness :
  exists h' merged_data,
    Transformer.merge_scan_results sample_store.1.1 sample_store.1.2
      sample_store.2 = Some (h', merged_data)
    /\ tags_ref h' merged_data = tags_ref sample_store.1.1 sample_store.1.2
    /\ Transformer.read_dataset h' sample_store.2 = Some sample_incoming.
Proof.
  destruct (merge_scan_results_spec sample_store.1.1 sample_store.1.2
              sample_store.2 sample_existing sample_incoming
              (proj1 sample_store_reads) (proj2 sample_store_reads))
    as (h' & merged_data & Hmerge & _).
  exists h', merged_data. split; [exact Hmerge|].
  destruct (merge_changes_only_the_existing_tags sample_store.1.1
              sample_store.1.2 sample_store.2 sample_existing sample_incoming
              h' merged_data (proj1 sample_store_reads)
              (proj2 sample_store_reads) Hmerge)
    as (_ & Hshare & _ & Hnew).
  split; [exact Hshare|]. apply Hnew. vm_compute. discriminate.
Defined.

(** X28.  Merging with an empty side: an incoming dataset without tags
    leaves the tags of the existing dataset as they are, and merging into
    an existing dataset without tags gives the tags of the incoming one;
    in both cases the metadata are the incoming ones and the statistics
    are computed anew from the tags. *)
Theorem merge_with_an_empty_side
    (h : gmap Transformer.loc Transformer.object)
    (existing_data new_data : Transformer.loc) (A B : Transformer.Dataset) :
  Transformer.read_dataset h existing_data = Some A ->
  Transformer.read_dataset h new_data = Some B ->
  NoDup (keys (Transformer.tags B)) ->
  Transformer.tags A = [] \/ Transformer.tags B = [] ->
  exists h' merged_data,
    Transformer.merge_scan_results h existing_data new_data
    = Some (h', merged_data)
    /\ Transformer.read_dataset h' merged_data
       = Some {| Transformer.metadata := Transformer.metadata B;
                 Transformer.tags := Transformer.tags A ++ Transformer.tags B;
                 Transformer.statistics :=
                   Transformer.calculate_statistics
                     (Transformer.tags A ++ Transformer.tags B) |}.
Proof.
  intros HA HB Hnd Hempty.
  destruct (merge_scan_results_spec h existing_data new_data A B HA HB)
    as (h' & merged_data & Hmerge & _ & Hread & _).
  exists h', merged_data. split; [exact Hmerge|]. rewrite Hread.
  assert (dict_update (Transformer.tags A) (Transformer.tags B)
          = Transformer.tags A ++ Transformer.tags B) as ->; [|reflexivity].
  destruct Hempty as [-> | ->].
  - now apply dict_update_fresh.
  - now rewrite app_nil_r.
Qed.

Lemma merge_with_an_empty_side_witness :
  exists h' merged_data,
    Transformer.merge_scan_results
      (Transformer.store_dataset
         (Transformer.store_dataset ∅ (sample_dataset "2024-06-01T12:00:00" [])).1
         sample_incoming).1
      (Transformer.store_dataset ∅ (sample_dataset "2024-06-01T12:00:00" [])).2
      (Transformer.store_dataset
         (Transformer.store_dataset ∅ (sample_dataset "2024-06-01T12:00:00" [])).1
         sample_incoming).2
    = Some (h', merged_data)
    /\ option_map (fun d => keys (Transformer.tags d))
         (Transformer.read_dataset h' merged_data) = Some ["2.0.0"].
Proof.
  destruct (merge_with_an_empty_side
              (Transformer.store_dataset
                 (Transformer.store_dataset ∅
                    (sample_dataset "2024-06-01T12:00:00" [])).1
                 sample_incoming).1
              (Transformer.store_dataset ∅
                 (sample_dataset "2024-06-01T12:00:00" [])).2
              (Transformer.store_dataset
                 (Transformer.store_dataset ∅
                    (sample_dataset "2024-06-01T12:00:00" [])).1
                 sample_incoming).2
              (sample_dataset "2024-06-01T12:00:00" []) sample_incoming)
    as (h' & merged_data & Hmerge & Hread).
  - vm_compute. reflexivity.
  - vm_compute. reflexivity.
  - apply (bool_decide_unpack _). vm_compute. exact I.
  - left. reflexivity.
  - exists h', merged_data. split; [exact Hmerge|]. now rewrite Hread.
Defined.
